(** * The crawlers of the Telegram misinformation crawler

    A shallow embedding of [crawler.py] and [models.py], with the export
    of [data_export.py] and the chat lookup of [telegram.py]: the message
    handlers, the duplicate check of the message table, the crawl state
    with its JSON collection, the three crawler flavours, the per-chat
    loop and the loop of the controller.  Python exceptions are values of
    [exn], a call that may raise returns a [result], and every object the
    code mutates in place (the crawl state dict, the tables, the JSON
    files) is threaded explicitly. *)

From Stdlib Require Import ZArith List String Ascii Bool Lia DecimalString.
From stdpp Require Import gmap strings list.

Import ListNotations.

Local Open Scope Z_scope.

(** ** Python values and exceptions *)

Module Py.

(** The exceptions the modelled code can raise. *)
Inductive exn : Type :=
| TypeError
| KeyError
| IndexError
| UnboundLocalError
| IntegrityError
| AttributeError
| ChannelPrivateError
| HashCollision (duplicate_message_id duplicate_chat_id message_id chat_id : Z)
| CollaboratorError (what : string).

Inductive result (A : Type) : Type :=
| Ok (a : A)
| Raise (e : exn).
Arguments Ok {A} a.
Arguments Raise {A} e.

Definition bind {A B} (r : result A) (k : A -> result B) : result B :=
  match r with
  | Ok a => k a
  | Raise e => Raise e
  end.

(** Operands of [or]: only booleans and strings occur in the source. *)
Inductive value : Type :=
| VBool (b : bool)
| VStr (s : string).

(** Truth value testing: a string is true unless it is empty. *)
Definition truthy (v : value) : bool :=
  match v with
  | VBool b => b
  | VStr s => negb (String.eqb s "")
  end.

(** [a or b] returns [a] when it is true, else [b]. *)
Definition py_or (a b : value) : value :=
  if truthy a then a else b.

(** [needle in haystack] on [str]: case-sensitive substring test. *)
Fixpoint str_contains (needle haystack : string) : bool :=
  match haystack with
  | EmptyString => String.prefix needle EmptyString
  | String _ rest =>
      String.prefix needle haystack || str_contains needle rest
  end.

(** [str(n)] for an [int]. *)
Definition str_int (n : Z) : string :=
  NilZero.string_of_int (Z.to_int n).

End Py.

Export Py.

(** [result] is a monad; the definitions below use stdpp's
    [x ← c; k] notation for it. *)
Global Instance result_ret : MRet Py.result := fun _ a => Py.Ok a.
Global Instance result_bind : MBind Py.result :=
  fun _ _ k r => Py.bind r k.
Global Instance result_fmap : FMap Py.result :=
  fun _ _ f r => Py.bind r (fun a => Py.Ok (f a)).

(** ** models.py: the tables *)

Module Models.

(** A row of [TelegramMessage]; [hash] is the primary key and [chat] the
    (non-null) foreign key, so [m.chat.id] is the [chat] column. *)
Record TelegramMessage : Type := {
  chat : Z;
  message_id : Z;
  content : string;
  url : option string;
  hash : string;
  creation_date : string;
  last_retrieved : string;
  views : option Z;
  forwards : option Z
}.

Record MessageTopic : Type := {
  mt_chat : Z;
  mt_message_hash : string;
  mt_topic : Z;
  mt_added : string
}.

(** [misconception] is nullable: [None] is the row written for an empty
    selection. *)
Record MessageMisconception : Type := {
  mm_chat : Z;
  mm_message_hash : string;
  mm_misconception : option Z;
  mm_added : string
}.

Record MessageToSkip : Type := {
  ms_message_hash : string;
  ms_chat : Z;
  ms_added : string
}.

(** [TelegramMessage.select().where(TelegramMessage.hash == h)] *)
Definition select_by_hash (h : string) (rows : list TelegramMessage)
  : list TelegramMessage :=
  List.filter (fun r => String.eqb (hash r) h) rows.

(** [row.save()]: an UPDATE of every column where the primary key is
    [row.hash]. *)
Definition save (row : TelegramMessage) (rows : list TelegramMessage)
  : list TelegramMessage :=
  List.map (fun r => if String.eqb (hash r) (hash row) then row else r) rows.

(** [row.save(force_insert=True)]: an INSERT, refused when the primary key
    is taken. *)
Definition save_force_insert (row : TelegramMessage)
    (rows : list TelegramMessage) : result (list TelegramMessage) :=
  match select_by_hash (hash row) rows with
  | [] => Ok (rows ++ [row])
  | _ :: _ => Raise IntegrityError
  end.

(** [TelegramMessage.duplicate_exists]: the answer and the table after
    the call. *)
Definition duplicate_exists (self : TelegramMessage)
    (rows : list TelegramMessage) : result (bool * list TelegramMessage) :=
  match select_by_hash (hash self) rows with
  | duplicate :: _ =>
      if String.eqb (content duplicate) (content self)
         || (Z.eqb (chat duplicate) (chat self)
             && Z.eqb (message_id duplicate) (message_id self))
      then
        let duplicate := {|
          chat := chat duplicate;
          message_id := message_id duplicate;
          content := content self;
          url := url self;
          hash := hash duplicate;
          creation_date := creation_date duplicate;
          last_retrieved := last_retrieved self;
          views := views self;
          forwards := forwards self
        |} in
        Ok (true, save duplicate rows)
      else
        Raise (HashCollision (message_id duplicate) (chat duplicate)
                             (message_id self) (chat self))
  | [] => Ok (false, rows)
  end.

(** A [TelegramMessage] object built with [chat=None], as
    [from_telethon_message] builds it when
    [TelegramChat.get_or_create_by_id] returns [None]: the other
    attributes. *)
Record Chatless : Type := {
  cl_message_id : Z;
  cl_content : string;
  cl_url : option string;
  cl_hash : string;
  cl_creation_date : string;
  cl_last_retrieved : string;
  cl_views : option Z;
  cl_forwards : option Z
}.

(** The object built with this chat. *)
Definition with_chat (chat_id : Z) (self : Chatless) : TelegramMessage :=
  {| chat := chat_id;
     message_id := cl_message_id self;
     content := cl_content self;
     url := cl_url self;
     hash := cl_hash self;
     creation_date := cl_creation_date self;
     last_retrieved := cl_last_retrieved self;
     views := cl_views self;
     forwards := cl_forwards self |}.

(** [duplicate_exists] on an object whose chat is [None]: the contents
    are compared first, and [self.chat.id] raises when the test gets
    there. *)
Definition duplicate_exists_chatless (self : Chatless)
    (rows : list TelegramMessage) : result (bool * list TelegramMessage) :=
  match select_by_hash (cl_hash self) rows with
  | duplicate :: _ =>
      if String.eqb (content duplicate) (cl_content self)
      then
        let duplicate := {|
          chat := chat duplicate;
          message_id := message_id duplicate;
          content := cl_content self;
          url := cl_url self;
          hash := hash duplicate;
          creation_date := creation_date duplicate;
          last_retrieved := cl_last_retrieved self;
          views := cl_views self;
          forwards := cl_forwards self
        |} in
        Ok (true, save duplicate rows)
      else Raise AttributeError
  | [] => Ok (false, rows)
  end.

End Models.


(** ** models.py and telegram.py: the chats *)

Module Chats.

(** One entry of the list under "chats" in what [get_chat_info]
    returns; a channel without a public name has no username. *)
Record ChatInfo : Type := {
  info_id : Z;
  info_title : string;
  info_username : option string;
  info_megagroup : bool;
  info_gigagroup : bool
}.

(** What [get_chat_metadata] returns. *)
Record Metadata : Type := {
  meta_id : Z;
  meta_name : string;
  meta_username : option string;
  meta_type : string;
  meta_can_comment : Z
}.

(** [telegram.get_chat_metadata] on the answer of [get_chat_info]. *)
Definition get_chat_metadata (chat_info : result (list ChatInfo))
  : result Metadata :=
  chats ← chat_info;
  match chats with
  | [] => Raise IndexError
  | first :: _ =>
      let type := "broadcast" in
      let type := if info_megagroup first then "megagroup" else type in
      let type := if info_gigagroup first then "gigagroup" else type in
      let can_comment := 1 in
      let can_comment :=
        if String.eqb type "broadcast"
        then if (length chats =? 1)%nat then 0 else 1
        else can_comment in
      Ok {| meta_id := info_id first;
            meta_name := info_title first;
            meta_username := info_username first;
            meta_type := type;
            meta_can_comment := can_comment |}
  end.

(** A row of [TelegramChat]; [id] is the primary key and no column is
    nullable. *)
Record TelegramChat : Type := {
  id : Z;
  name : string;
  username : string;
  type : string;
  can_comment : bool;
  added : string
}.

(** The two [except] clauses of [get_or_create_by_id]: Telethon's
    [ValueError] for an id it cannot resolve ([CollaboratorError] with
    that name) and [ChannelPrivateError]. *)
Definition caught (e : exn) : bool :=
  match e with
  | ChannelPrivateError => true
  | CollaboratorError what => String.eqb what "ValueError"
  | _ => false
  end.

(** [TelegramChat.get_or_create_by_id]: [get_chat_info] is what
    Telegram answers for the chat and [now] the reading of
    [get_current_datetime()].  The result is the chat or [None], with
    the table after the call. *)
Definition get_or_create_by_id
    (get_chat_info : Z -> result (list ChatInfo)) (now : string)
    (chat_id : Z) (table : gmap Z TelegramChat)
  : result (option TelegramChat) * gmap Z TelegramChat :=
  match table !! chat_id with
  | Some chat => (Ok (Some chat), table)
  | None =>
      match get_chat_metadata (get_chat_info chat_id) with
      | Raise e => if caught e then (Ok None, table) else (Raise e, table)
      | Ok chat_metadata =>
          match meta_username chat_metadata with
          | None => (Raise IntegrityError, table)
          | Some username =>
              let chat :=
                {| id := chat_id;
                   name := meta_name chat_metadata;
                   username := username;
                   type := meta_type chat_metadata;
                   can_comment :=
                     negb (meta_can_comment chat_metadata =? 0);
                   added := now |} in
              (Ok (Some chat), <[chat_id := chat]> table)
          end
      end
  end.

End Chats.

(** ** crawler.py: the message handlers *)

Module Handlers.
Import Models.

(** What the handlers read and write: the table of the chats, the four
    tables of the messages, the JSON index of the messages marked for
    later ([{}] while the file does not exist) and the reading of
    [get_current_datetime()]. *)
Record Store : Type := {
  telegram_chat : gmap Z Chats.TelegramChat;
  telegram_message : list TelegramMessage;
  message_topic : list MessageTopic;
  message_misconception : list MessageMisconception;
  message_to_skip : list MessageToSkip;
  messages_marked_for_later : gmap string (list Z);
  clock : string
}.

Definition set_telegram_chat (table : gmap Z Chats.TelegramChat)
    (st : Store) :=
  {| telegram_chat := table;
     telegram_message := telegram_message st;
     message_topic := message_topic st;
     message_misconception := message_misconception st;
     message_to_skip := message_to_skip st;
     messages_marked_for_later := messages_marked_for_later st;
     clock := clock st |}.

Definition set_telegram_message (rows : list TelegramMessage) (st : Store) :=
  {| telegram_chat := telegram_chat st;
     telegram_message := rows;
     message_topic := message_topic st;
     message_misconception := message_misconception st;
     message_to_skip := message_to_skip st;
     messages_marked_for_later := messages_marked_for_later st;
     clock := clock st |}.

Definition set_message_topic (rows : list MessageTopic) (st : Store) :=
  {| telegram_chat := telegram_chat st;
     telegram_message := telegram_message st;
     message_topic := rows;
     message_misconception := message_misconception st;
     message_to_skip := message_to_skip st;
     messages_marked_for_later := messages_marked_for_later st;
     clock := clock st |}.

Definition set_message_misconception (rows : list MessageMisconception)
    (st : Store) :=
  {| telegram_chat := telegram_chat st;
     telegram_message := telegram_message st;
     message_topic := message_topic st;
     message_misconception := rows;
     message_to_skip := message_to_skip st;
     messages_marked_for_later := messages_marked_for_later st;
     clock := clock st |}.

Definition set_message_to_skip (rows : list MessageToSkip) (st : Store) :=
  {| telegram_chat := telegram_chat st;
     telegram_message := telegram_message st;
     message_topic := message_topic st;
     message_misconception := message_misconception st;
     message_to_skip := rows;
     messages_marked_for_later := messages_marked_for_later st;
     clock := clock st |}.

Definition set_messages_marked_for_later_index
    (index : gmap string (list Z)) (st : Store) :=
  {| telegram_chat := telegram_chat st;
     telegram_message := telegram_message st;
     message_topic := message_topic st;
     message_misconception := message_misconception st;
     message_to_skip := message_to_skip st;
     messages_marked_for_later := index;
     clock := clock st |}.

(** A call that may raise and that leaves its writes behind when it
    does. *)
Definition outcome (A : Type) : Type := (result A * Store)%type.

(** *** TelegramMessageHandler *)

(** [not self.message.content or (self.message.duplicate_exists() and
    skip_messages_already_stored)] *)
Definition message_should_be_skipped (self : TelegramMessage)
    (skip_messages_already_stored : bool) (st : Store) : outcome bool :=
  if String.eqb (content self) "" then (Ok true, st)
  else
    match duplicate_exists self (telegram_message st) with
    | Raise e => (Raise e, st)
    | Ok (found, rows) =>
        (Ok (found && skip_messages_already_stored),
         set_telegram_message rows st)
    end.

(** The same test on a message whose chat is [None]. *)
Definition message_should_be_skipped_chatless (self : Chatless)
    (skip_messages_already_stored : bool) (st : Store) : outcome bool :=
  if String.eqb (cl_content self) "" then (Ok true, st)
  else
    match duplicate_exists_chatless self (telegram_message st) with
    | Raise e => (Raise e, st)
    | Ok (found, rows) =>
        (Ok (found && skip_messages_already_stored),
         set_telegram_message rows st)
    end.

(** *** NoLabelingMessageHandler *)

Module NoLabelingMessageHandler.

Definition handle_message (self : TelegramMessage) (st : Store)
  : outcome string :=
  match message_should_be_skipped self true st with
  | (Raise e, st) => (Raise e, st)
  | (Ok true, st) => (Ok "message skipped", st)
  | (Ok false, st) =>
      match save_force_insert self (telegram_message st) with
      | Raise e => (Raise e, st)
      | Ok rows =>
          (Ok "message stored without labels",
           set_telegram_message rows st)
      end
  end.

(** [handle_message] on a message whose chat is [None]: the column
    [chat_id] is not nullable and the INSERT is refused. *)
Definition handle_message_chatless (self : Chatless) (st : Store)
  : outcome string :=
  match message_should_be_skipped_chatless self true st with
  | (Raise e, st) => (Raise e, st)
  | (Ok true, st) => (Ok "message skipped", st)
  | (Ok false, st) => (Raise IntegrityError, st)
  end.

End NoLabelingMessageHandler.

(** *** LabelingMessageHandler *)

(** The entries of the menu shown for an empty selection. *)
Inductive Choice : Type :=
| StoreWithoutAny
| LabelAgain
| SkipWithoutStoring
| MarkForLater
| StopTheCrawl.

(** What the user answers during one pass through
    [label_and_store_message]: the topics ticked, the misconceptions
    ticked in the prompt shown for each of these topics, and the menu entry
    picked if the menu is shown.  [None] is a cancelled prompt:
    [inquirer.prompt] returns [None] and subscripting it raises. *)
Record Answers : Type := {
  topics_ticked : option (list Z);
  misconceptions_ticked : Z -> option (list Z);
  menu_choice : option Choice
}.

Module LabelingMessageHandler.

(** [prompt_selection]: the selection, or the [TypeError] of a cancelled
    prompt. *)
Definition prompt_selection (answer : option (list Z)) : result (list Z) :=
  match answer with
  | Some selection => Ok selection
  | None => Raise TypeError
  end.

Definition get_topic_and_misconception_labels_from_user (a : Answers)
  : result (list Z * list Z) :=
  selected_topics ← prompt_selection (topics_ticked a);
  selected_misconceptions ←
    mapM (fun topic => prompt_selection (misconceptions_ticked a topic))
         selected_topics;
  Ok (selected_topics, concat selected_misconceptions).

Definition message_should_be_skipped (self : TelegramMessage)
    (skip_messages_already_stored : bool) (st : Store) : outcome bool :=
  match Handlers.message_should_be_skipped
          self skip_messages_already_stored st with
  | (Raise e, st) => (Raise e, st)
  | (Ok true, st) => (Ok true, st)
  | (Ok false, st) =>
      if negb (Nat.eqb
                 (length (List.filter
                            (fun r => String.eqb (ms_message_hash r)
                                                 (hash self))
                            (message_to_skip st)))
                 0)
      then (Ok true, st)
      else (Ok false, st)
  end.

Definition create_message_to_skip (self : TelegramMessage) (st : Store)
  : Store :=
  set_message_to_skip
    (message_to_skip st ++
       [{| ms_message_hash := hash self; ms_chat := chat self;
           ms_added := clock st |}]) st.

(** A call that prompts the user: its result, the answers not yet
    consumed and the store. *)
Definition interaction (A : Type) : Type :=
  (result A * list Answers * Store)%type.

(** [confirm_empty_selection]; [relabel] is the call
    [self.label_and_store_message()] of the second menu entry and
    [script] the answers left for the passes after this one. *)
Definition confirm_empty_selection
    (relabel : Store -> interaction string)
    (answer : option Choice) (self : TelegramMessage)
    (script : list Answers) (st : Store) : interaction string :=
  match answer with
  | None => (Raise TypeError, script, st)
  | Some StoreWithoutAny => (Ok "message stored without labels", script, st)
  | Some LabelAgain => relabel st
  | Some MarkForLater =>
      let index := messages_marked_for_later st in
      let index :=
        match index !! str_int (message_id self) with
        | None => <[str_int (chat self) := []]> index
        | Some _ => index
        end in
      match index !! str_int (chat self) with
      | None => (Raise KeyError, script, st)
      | Some ids =>
          let index :=
            <[str_int (chat self) := ids ++ [message_id self]]> index in
          let st := set_messages_marked_for_later_index index st in
          (Ok "message skipped", script, create_message_to_skip self st)
      end
  | Some SkipWithoutStoring =>
      (Ok "message skipped", script, create_message_to_skip self st)
  | Some StopTheCrawl => (Ok "stop crawl", script, st)
  end.

(** The part of [label_and_store_message] below the status check:
    insert the message or clear its labels, then write the selected
    labels. *)
Definition store_message_and_labels (self : TelegramMessage)
    (selected_topics selected_misconceptions : list Z) (st : Store)
  : outcome unit :=
  let stored :=
    if Nat.eqb (length (select_by_hash (hash self) (telegram_message st)))
               0
    then
      match save_force_insert self (telegram_message st) with
      | Raise e => (Raise e, st)
      | Ok rows => (Ok tt, set_telegram_message rows st)
      end
    else
      let st :=
        set_message_topic
          (List.filter
             (fun r => negb (String.eqb (mt_message_hash r) (hash self)))
             (message_topic st)) st in
      let st :=
        set_message_misconception
          (List.filter
             (fun r => negb (String.eqb (mm_message_hash r) (hash self)))
             (message_misconception st)) st in
      (Ok tt, st) in
  match stored with
  | (Raise e, st) => (Raise e, st)
  | (Ok _, st) =>
      let st :=
        set_message_topic
          (message_topic st ++
             List.map (fun topic =>
                         {| mt_chat := chat self;
                            mt_message_hash := hash self;
                            mt_topic := topic;
                            mt_added := clock st |})
                      selected_topics) st in
      let st :=
        set_message_misconception
          (message_misconception st ++
             List.map (fun misconception =>
                         {| mm_chat := chat self;
                            mm_message_hash := hash self;
                            mm_misconception := Some misconception;
                            mm_added := clock st |})
                      selected_misconceptions) st in
      let st :=
        if Nat.eqb (length selected_misconceptions) 0
        then
          set_message_misconception
            (message_misconception st ++
               [{| mm_chat := chat self;
                   mm_message_hash := hash self;
                   mm_misconception := None;
                   mm_added := clock st |}]) st
        else st in
      (Ok tt, st)
  end.

(** The value of the local [status]: [None] while no branch has
    assigned it. *)
Definition assigned (r : interaction string)
  : interaction (option string) :=
  let '(status, script, st) := r in (Some <$> status, script, st).

(** [label_and_store_message] from the line that reads [status]
    on. *)
Definition store_unless_stopped (self : TelegramMessage)
    (selected_topics selected_misconceptions : list Z)
    (r : interaction (option string)) : interaction string :=
  let '(status, script, st) := r in
  match status with
  | Raise e => (Raise e, script, st)
  | Ok None => (Raise UnboundLocalError, script, st)
  | Ok (Some status) =>
      if String.eqb status "stop crawl" then (Ok status, script, st)
      else
        match store_message_and_labels
                self selected_topics selected_misconceptions st with
        | (Raise e, st) => (Raise e, script, st)
        | (Ok _, st) =>
            if (0 <? length selected_misconceptions)%nat
            then (Ok "message stored with labels", script, st)
            else (Ok "message stored without labels", script, st)
        end
  end.

(** [label_and_store_message].  [script] holds the user's answers, one
    entry per pass; with no entry left the first prompt is cancelled. *)
Fixpoint label_and_store_message (script : list Answers)
    (self : TelegramMessage) (st : Store) : interaction string :=
  match script with
  | [] => (Raise TypeError, [], st)
  | a :: script =>
      match get_topic_and_misconception_labels_from_user a with
      | Raise e => (Raise e, script, st)
      | Ok (selected_topics, selected_misconceptions) =>
          let confirm_empty_selection (_entity : string) :=
            confirm_empty_selection (label_and_store_message script self)
                                    (menu_choice a) self script st in
          store_unless_stopped self selected_topics selected_misconceptions
            (if Nat.eqb (length selected_topics) 0
             then assigned (confirm_empty_selection "topics")
             else if Nat.eqb (length selected_misconceptions) 0
             then assigned (confirm_empty_selection "misconceptions")
             else (Ok None, script, st))
      end
  end.

(** [handle_message] on a message that already is a
    [models.TelegramMessage]. *)
Definition handle_message (script : list Answers)
    (self : TelegramMessage) (skip_messages_already_stored : bool)
    (st : Store) : interaction string :=
  match message_should_be_skipped self skip_messages_already_stored st
  with
  | (Raise e, st) => (Raise e, script, st)
  | (Ok true, st) => (Ok "message skipped", script, st)
  | (Ok false, st) => label_and_store_message script self st
  end.

(** [handle_message] on a message whose chat is [None]:
    [prompt_selection] reads [self.message.chat.id] for the line it
    prints before it asks anything. *)
Definition handle_message_chatless (script : list Answers)
    (self : Chatless) (skip_messages_already_stored : bool) (st : Store)
  : interaction string :=
  match message_should_be_skipped_chatless
          self skip_messages_already_stored st with
  | (Raise e, st) => (Raise e, script, st)
  | (Ok true, st) => (Ok "message skipped", script, st)
  | (Ok false, st) =>
      if negb (Nat.eqb
                 (length (List.filter
                            (fun r => String.eqb (ms_message_hash r)
                                                 (cl_hash self))
                            (message_to_skip st)))
                 0)
      then (Ok "message skipped", script, st)
      else (Raise AttributeError, script, st)
  end.

End LabelingMessageHandler.

End Handlers.

(** ** Text forms: [str], [repr] and string literals

    A [string] stands for a Python [str] whose characters lie below
    U+0100, one [ascii] for each character. *)

Module Text.

Definition char (n : nat) : ascii := ascii_of_nat n.
Definition backslash : ascii := char 92.
Definition single_quote : ascii := char 39.
Definition double_quote : ascii := char 34.
Definition tab : ascii := char 9.
Definition line_feed : ascii := char 10.
Definition carriage_return : ascii := char 13.

Definition str1 (c : ascii) : string := String c EmptyString.

Fixpoint mentions (c : ascii) (s : string) : bool :=
  match s with
  | EmptyString => false
  | String d rest => Ascii.eqb c d || mentions c rest
  end.

Definition hex_digit (n : nat) : ascii :=
  if (n <? 10)%nat then char (48 + n) else char (87 + n).

Definition hex_value (c : ascii) : option nat :=
  let n := nat_of_ascii c in
  if ((48 <=? n) && (n <=? 57))%nat then Some (n - 48)%nat
  else if ((97 <=? n) && (n <=? 102))%nat then Some (n - 87)%nat
  else if ((65 <=? n) && (n <=? 70))%nat then Some (n - 55)%nat
  else None.

(** [repr(s)] for a [str].  Of the characters below U+0100, [repr]
    escapes the backslash and the quote in use, and the characters that
    are not printable: the control characters (below 32, and from 127 to
    159), the no-break space (160) and the soft hyphen (173).  It copies
    the others. *)
Definition repr_char (quote c : ascii) : string :=
  let n := nat_of_ascii c in
  if Ascii.eqb c backslash || Ascii.eqb c quote
  then String backslash (str1 c)
  else if Ascii.eqb c tab then String backslash "t"
  else if Ascii.eqb c line_feed then String backslash "n"
  else if Ascii.eqb c carriage_return then String backslash "r"
  else if ((n <? 32) || ((127 <=? n) && (n <=? 160)) || (n =? 173))%nat
  then String backslash
         (String "x"
            (String (hex_digit (n / 16)) (str1 (hex_digit (n mod 16)))))
  else str1 c.

Fixpoint repr_body (quote : ascii) (s : string) : string :=
  match s with
  | EmptyString => EmptyString
  | String c rest => String.append (repr_char quote c) (repr_body quote rest)
  end.

Definition repr_str (s : string) : string :=
  let quote :=
    if mentions single_quote s && negb (mentions double_quote s)
    then double_quote else single_quote in
  String quote (String.append (repr_body quote s) (str1 quote)).

(** [str(l)] for a list of [str]. *)
Definition str_list (l : list string) : string :=
  String.append "["
    (String.append (String.concat ", " (List.map repr_str l)) "]").

(** The string denoted by a double-quoted literal with this body in an
    evaluated expression.  [None]: the body holds a bare double quote or
    line break, or an escape other than a backslash followed by a
    backslash, a quote, n, r, t or xHH, and the text is not read as this
    one literal. *)
Fixpoint literal_value (body : string) : option string :=
  match body with
  | EmptyString => Some EmptyString
  | String c rest =>
      if Ascii.eqb c double_quote || Ascii.eqb c line_feed
         || Ascii.eqb c carriage_return
      then None
      else if Ascii.eqb c backslash then
        match rest with
        | EmptyString => None
        | String e rest =>
            if Ascii.eqb e backslash || Ascii.eqb e single_quote
               || Ascii.eqb e double_quote
            then String e <$> literal_value rest
            else if Ascii.eqb e "n" then String line_feed <$> literal_value rest
            else if Ascii.eqb e "r"
            then String carriage_return <$> literal_value rest
            else if Ascii.eqb e "t" then String tab <$> literal_value rest
            else if Ascii.eqb e "x" then
              match rest with
              | String h (String l rest) =>
                  match hex_value h, hex_value l with
                  | Some h, Some l =>
                      String (char (16 * h + l)) <$> literal_value rest
                  | _, _ => None
                  end
              | _ => None
              end
            else None
        end
      else String c <$> literal_value rest
  end.

(** Two digits, four digits, six digits: the fields of a date. *)
Definition digits (width n : nat) : string :=
  let s := NilZero.string_of_uint (Nat.to_uint n) in
  String.append
    (String.concat "" (List.repeat "0" (width - String.length s))) s.

End Text.

(** ** Messages as the client yields them *)

Module Telethon.

(** An aware [datetime] in UTC. *)
Record datetime : Type := {
  year : nat; month : nat; day : nat;
  hour : nat; minute : nat; second : nat; microsecond : nat
}.

Definition fields (d : datetime) : list nat :=
  [year d; month d; day d; hour d; minute d; second d; microsecond d].

Fixpoint lexicographic_lt (a b : list nat) : bool :=
  match a, b with
  | x :: a, y :: b => (x <? y)%nat || ((x =? y)%nat && lexicographic_lt a b)
  | _, _ => false
  end.

(** [a < b] on dates. *)
Definition date_lt (a b : datetime) : bool :=
  lexicographic_lt (fields a) (fields b).

(** [str(d)]: ISO format with a space, the microseconds only when they are
    not zero, and the UTC offset. *)
Definition str_datetime (d : datetime) : string :=
  String.concat ""
    [Text.digits 4 (year d); "-"; Text.digits 2 (month d); "-";
     Text.digits 2 (day d); " "; Text.digits 2 (hour d); ":";
     Text.digits 2 (minute d); ":"; Text.digits 2 (second d);
     (if (microsecond d =? 0)%nat then ""
      else String.append "." (Text.digits 6 (microsecond d)));
     "+00:00"].

Inductive Media : Type :=
| MessageMediaPoll
| MessageMediaWebPage (webpage_url : option string)
| MessageMediaOther.

Record Message : Type := {
  id : Z;
  peer_channel_id : Z;
  date : datetime;
  message : option string;
  media : option Media;
  views : option Z;
  forwards : option Z
}.

(** What [client.iter_messages] does when asked for the next message: it
    yields one, ends, or raises. *)
Inductive Feed : Type :=
| EndOfChat
| Next (m : Message) (rest : Feed)
| Raises (e : exn).

End Telethon.

(** ** crawler.py: the crawl state and its JSON collection *)

Module State.
Import Telethon.

(** A date bound of a crawl: [None], the text a JSON file gives back, or
    the [datetime] the caller passes. *)
Inductive Bound : Type :=
| NoBound
| BoundText (s : string)
| BoundDate (d : datetime).

(** [str(b)] *)
Definition str_bound (b : Bound) : string :=
  match b with
  | NoBound => "None"
  | BoundText s => s
  | BoundDate d => str_datetime d
  end.

(** The values of the crawler-specific properties. *)
Inductive Property : Type :=
| PStr (s : string)
| PList (l : list string).

Definition str_property (p : Property) : string :=
  match p with
  | PStr s => s
  | PList l => Text.str_list l
  end.

(** The crawl state dict.  The keys every crawl has are fields; a key
    that only some states have is an [option]; the crawler-specific
    properties are a map by key. *)
Record CrawlState : Type := {
  index : nat;
  seed_chats : list Z;
  min_date : Bound;
  max_date : Bound;
  chats_to_search : list Z;
  chats_searched : list Z;
  started : string;
  no_labeling_mode : bool;
  chats_not_searchable : option (list Z);
  finished : option string;
  properties : gmap string Property;
  current_chat_classified_messages_ids : option (list Z);
  classified_chat_until : option (gmap string Z)
}.

Definition set_index_and_dates (i : nat) (lo hi : Bound) (c : CrawlState) :=
  {| index := i; seed_chats := seed_chats c;
     min_date := lo; max_date := hi;
     chats_to_search := chats_to_search c;
     chats_searched := chats_searched c;
     started := started c; no_labeling_mode := no_labeling_mode c;
     chats_not_searchable := chats_not_searchable c;
     finished := finished c; properties := properties c;
     current_chat_classified_messages_ids :=
       current_chat_classified_messages_ids c;
     classified_chat_until := classified_chat_until c |}.

Definition set_chats_to_search (q : list Z) (c : CrawlState) :=
  {| index := index c; seed_chats := seed_chats c;
     min_date := min_date c; max_date := max_date c;
     chats_to_search := q;
     chats_searched := chats_searched c;
     started := started c; no_labeling_mode := no_labeling_mode c;
     chats_not_searchable := chats_not_searchable c;
     finished := finished c; properties := properties c;
     current_chat_classified_messages_ids :=
       current_chat_classified_messages_ids c;
     classified_chat_until := classified_chat_until c |}.

Definition set_chats_searched (l : list Z) (c : CrawlState) :=
  {| index := index c; seed_chats := seed_chats c;
     min_date := min_date c; max_date := max_date c;
     chats_to_search := chats_to_search c;
     chats_searched := l;
     started := started c; no_labeling_mode := no_labeling_mode c;
     chats_not_searchable := chats_not_searchable c;
     finished := finished c; properties := properties c;
     current_chat_classified_messages_ids :=
       current_chat_classified_messages_ids c;
     classified_chat_until := classified_chat_until c |}.

Definition set_chats_not_searchable (l : option (list Z)) (c : CrawlState) :=
  {| index := index c; seed_chats := seed_chats c;
     min_date := min_date c; max_date := max_date c;
     chats_to_search := chats_to_search c;
     chats_searched := chats_searched c;
     started := started c; no_labeling_mode := no_labeling_mode c;
     chats_not_searchable := l;
     finished := finished c; properties := properties c;
     current_chat_classified_messages_ids :=
       current_chat_classified_messages_ids c;
     classified_chat_until := classified_chat_until c |}.

Definition set_properties (p : gmap string Property) (c : CrawlState) :=
  {| index := index c; seed_chats := seed_chats c;
     min_date := min_date c; max_date := max_date c;
     chats_to_search := chats_to_search c;
     chats_searched := chats_searched c;
     started := started c; no_labeling_mode := no_labeling_mode c;
     chats_not_searchable := chats_not_searchable c;
     finished := finished c; properties := p;
     current_chat_classified_messages_ids :=
       current_chat_classified_messages_ids c;
     classified_chat_until := classified_chat_until c |}.

Definition set_current_chat_classified_messages_ids (l : option (list Z))
    (c : CrawlState) :=
  {| index := index c; seed_chats := seed_chats c;
     min_date := min_date c; max_date := max_date c;
     chats_to_search := chats_to_search c;
     chats_searched := chats_searched c;
     started := started c; no_labeling_mode := no_labeling_mode c;
     chats_not_searchable := chats_not_searchable c;
     finished := finished c; properties := properties c;
     current_chat_classified_messages_ids := l;
     classified_chat_until := classified_chat_until c |}.

Definition set_classified_chat_until (u : option (gmap string Z))
    (c : CrawlState) :=
  {| index := index c; seed_chats := seed_chats c;
     min_date := min_date c; max_date := max_date c;
     chats_to_search := chats_to_search c;
     chats_searched := chats_searched c;
     started := started c; no_labeling_mode := no_labeling_mode c;
     chats_not_searchable := chats_not_searchable c;
     finished := finished c; properties := properties c;
     current_chat_classified_messages_ids :=
       current_chat_classified_messages_ids c;
     classified_chat_until := u |}.

Definition set_finished (f : option string) (c : CrawlState) :=
  {| index := index c; seed_chats := seed_chats c;
     min_date := min_date c; max_date := max_date c;
     chats_to_search := chats_to_search c;
     chats_searched := chats_searched c;
     started := started c; no_labeling_mode := no_labeling_mode c;
     chats_not_searchable := chats_not_searchable c;
     finished := f; properties := properties c;
     current_chat_classified_messages_ids :=
       current_chat_classified_messages_ids c;
     classified_chat_until := classified_chat_until c |}.

(** What [json.dump(..., default=str)] followed by [json.loads] makes of
    a state: a date becomes its text. *)
Definition as_stored (c : CrawlState) : CrawlState :=
  let text b :=
    match b with
    | BoundDate d => BoundText (str_datetime d)
    | b => b
    end in
  set_index_and_dates (index c) (text (min_date c)) (text (max_date c)) c.

End State.

(** ** crawler.py: the crawlers *)

(** What the crawl calls and this development does not define: the
    classifier of [classifier.py] (base model and text to the label in
    [classification_result[0]]), the truncated SHA-256 digest behind
    [TelegramMessage.get_hash], [urlparse(url).netloc], and what
    [telegram.get_chat_info] gets from Telegram for a chat id (the list
    under "chats", or the exception of the request). *)
Class Collaborators : Type := {
  classify_message_binary : string -> string -> result string;
  get_hash : string -> string;
  netloc : string -> string;
  get_chat_info : Z -> result (list Chats.ChatInfo)
}.

Module Crawler.
Import Telethon State Models Handlers.

(** The three crawler classes with their constructor arguments. *)
Inductive Crawler : Type :=
| Baseline
| KeywordSearch (keywords : list string)
| BinaryClassifier (base_model model_directory : string).

(** *** store_crawl_state *)

Module BaselineCrawler.

(** [store_crawl_state]: the collection read from the JSON file ([[]]
    when there is none) and the collection written back. *)
Definition store_crawl_state (crawl_state : CrawlState)
    (crawls : list CrawlState) : result (list CrawlState) :=
  let index := index crawl_state in
  if (length crawls =? index)%nat
  then Ok (crawls ++ [as_stored crawl_state])
  else if (index <? length crawls)%nat
  then Ok (<[index := as_stored crawl_state]> crawls)
  else Raise IndexError.

(** [crawl_should_be_stopped] *)
Definition crawl_should_be_stopped (m : Message) (min_date : Bound)
  : result bool :=
  match min_date with
  | NoBound => Ok false
  | BoundDate d => Ok (date_lt (date m) d)
  | BoundText _ => Raise TypeError
  end.

(** [message_should_be_skipped], as the truth value of what it
    returns. *)
Definition message_should_be_skipped (m : Message) (max_date : Bound)
  : result bool :=
  match message m with
  | None => Ok true
  | Some _ =>
      after ←
        match max_date with
        | NoBound => Ok false
        | BoundDate d => Ok (date_lt d (date m))
        | BoundText _ => Raise TypeError
        end;
      if after : bool then Ok true
      else
        Ok match media m with
           | Some MessageMediaPoll => true
           | _ => false
           end
  end.

(** The expression [retrieve_or_initialize_crawl_state] builds and
    evaluates for the stored crawl [c]; [tests] holds, for each
    crawler-specific property, the values of the two literals
    interpolated into the text: the key and [str] of the value. *)
Fixpoint properties_match (c : CrawlState) (tests : list (string * string))
  : result bool :=
  match tests with
  | [] => Ok true
  | (key, expected) :: tests =>
      match properties c !! key with
      | None => Raise KeyError
      | Some v =>
          if String.eqb (str_property v) expected
          then properties_match c tests
          else Ok false
      end
  end.

Definition can_be_resumed (seed_chat_ids : list Z)
    (min_date max_date : Bound) (no_labeling_mode : bool)
    (tests : list (string * string)) (c : CrawlState) : result bool :=
  if negb (bool_decide (seed_chats c = seed_chat_ids)) then Ok false
  else if negb (String.eqb (str_bound (State.min_date c))
                           (str_bound min_date))
  then Ok false
  else if negb (String.eqb (str_bound (State.max_date c))
                           (str_bound max_date))
  then Ok false
  else if negb (Bool.eqb (State.no_labeling_mode c) no_labeling_mode)
  then Ok false
  else properties_match c tests.

(** The loop over [enumerate(crawls)], from position [i] on. *)
Fixpoint crawl_to_be_resumed_index (test : CrawlState -> result bool)
    (i : nat) (crawls : list CrawlState) : result (option nat) :=
  match crawls with
  | [] => Ok None
  | c :: crawls =>
      found ← test c;
      if found : bool then Ok (Some i)
      else crawl_to_be_resumed_index test (S i) crawls
  end.

(** The two string literals of one [filter_addition]. *)
Definition interpolated (property : string * Property)
  : option (string * string) :=
  key ← Text.literal_value property.1;
  expected ← Text.literal_value (str_property property.2);
  Some (key, expected).

Definition bound_of (d : option datetime) : Bound :=
  match d with
  | None => NoBound
  | Some d => BoundDate d
  end.

(** [retrieve_or_initialize_crawl_state]: [crawls] is the collection in
    the JSON file and [now] the reading of [get_current_datetime()].
    The result is [None] when the collection is not empty and the text
    interpolated for some property is not read as one literal (see
    [Text.literal_value]): the evaluated expression is then not the
    comparison described by [can_be_resumed].  The keys of the
    crawler-specific properties differ from the keys every state
    has. *)
Definition retrieve_or_initialize_crawl_state (crawls : list CrawlState)
    (now : string) (seed_chat_ids : list Z)
    (min_date max_date : option datetime) (label_message : bool)
    (crawler_specific_state_properties : list (string * Property))
  : option (result CrawlState) :=
  let no_labeling_mode := negb label_message in
  let min_date := bound_of min_date in
  let max_date := bound_of max_date in
  let start_a_new_crawl :=
    {| index := length crawls;
       seed_chats := seed_chat_ids;
       State.min_date := min_date;
       State.max_date := max_date;
       chats_to_search := seed_chat_ids;
       chats_searched := [];
       started := now;
       State.no_labeling_mode := no_labeling_mode;
       chats_not_searchable := None;
       finished := None;
       properties :=
         foldl (fun m property => <[property.1 := property.2]> m) ∅
               crawler_specific_state_properties;
       current_chat_classified_messages_ids := None;
       classified_chat_until := None |} in
  match crawls with
  | [] => Some (Ok start_a_new_crawl)
  | _ :: _ =>
      tests ← mapM interpolated crawler_specific_state_properties;
      Some
        (found ← crawl_to_be_resumed_index
                   (can_be_resumed seed_chat_ids min_date max_date
                                   no_labeling_mode tests)
                   0 crawls;
         match found with
         | Some i =>
             match crawls !! i with
             | Some c => Ok (set_index_and_dates i min_date max_date c)
             | None => Raise IndexError
             end
         | None => Ok start_a_new_crawl
         end)
  end.

End BaselineCrawler.

Module KeywordSearchCrawler.

Definition message_should_be_skipped (keywords : list string)
    (m : Message) (max_date : Bound) : result bool :=
  skip ← BaselineCrawler.message_should_be_skipped m max_date;
  if skip : bool then Ok true
  else
    match message m with
    | None => Raise TypeError
    | Some text =>
        Ok (negb (existsb (fun keyword => str_contains keyword text)
                          keywords))
    end.

Definition retrieve_or_initialize_crawl_state (keywords : list string)
    (crawls : list CrawlState) (now : string) (seed_chat_ids : list Z)
    (min_date max_date : option datetime) (label_message : bool)
  : option (result CrawlState) :=
  BaselineCrawler.retrieve_or_initialize_crawl_state
    crawls now seed_chat_ids min_date max_date label_message
    [("keywords", PList keywords)].

End KeywordSearchCrawler.

Module BinaryClassifierCrawler.
Section WithCollaborators.
Context `{Collaborators}.

Definition crawl_should_be_stopped (crawl_state : CrawlState)
    (m : Message) (min_date max_date : Bound) : result bool :=
  stop ← BaselineCrawler.crawl_should_be_stopped m min_date;
  if stop : bool then Ok true
  else
    Ok match max_date, classified_chat_until crawl_state with
       | NoBound, Some until =>
           match until !! str_int (peer_channel_id m) with
           | Some last => id m <=? last
           | None => false
           end
       | _, _ => false
       end.

(** [message_should_be_skipped]: the answer and the crawl state,
    which gains the id of a message classified as irrelevant. *)
Definition message_should_be_skipped (base_model : string)
    (crawl_state : CrawlState) (m : Message) (max_date : Bound)
  : result (bool * CrawlState) :=
  skip ← BaselineCrawler.message_should_be_skipped m max_date;
  if skip : bool then Ok (true, crawl_state)
  else
    match message m with
    | None => Ok (true, crawl_state)
    | Some text =>
        match current_chat_classified_messages_ids crawl_state with
        | None => Raise KeyError
        | Some ids =>
            if bool_decide (id m ∈ ids) then Ok (true, crawl_state)
            else
              label ← classify_message_binary base_model text;
              if String.eqb label "irrelevant"
              then
                Ok (true,
                    set_current_chat_classified_messages_ids
                      (Some (ids ++ [id m])) crawl_state)
              else Ok (false, crawl_state)
        end
    end.

(** [store_crawl_state(self, status, message, crawl_state)] *)
Definition store_crawl_state (status : string) (m : Message)
    (crawl_state : CrawlState) (crawls : list CrawlState)
  : result (CrawlState * list CrawlState) :=
  match current_chat_classified_messages_ids crawl_state with
  | None => Raise KeyError
  | Some ids =>
      let crawl_state :=
        set_current_chat_classified_messages_ids
          (Some (ids ++ [id m])) crawl_state in
      crawls ← BaselineCrawler.store_crawl_state crawl_state crawls;
      Ok (crawl_state, crawls)
  end.

End WithCollaborators.
End BinaryClassifierCrawler.

(** *** Method resolution on [self] *)

Section WithCollaborators.
Context `{Collaborators}.

(** [self.crawl_should_be_stopped(crawl_state, message, min_date,
    max_date)] *)
Definition crawl_should_be_stopped (self : Crawler)
    (crawl_state : CrawlState) (m : Message) (min_date max_date : Bound)
  : result bool :=
  match self with
  | Baseline | KeywordSearch _ =>
      BaselineCrawler.crawl_should_be_stopped m min_date
  | BinaryClassifier _ _ =>
      BinaryClassifierCrawler.crawl_should_be_stopped
        crawl_state m min_date max_date
  end.

(** [self.message_should_be_skipped(crawl_state, message, min_date,
    max_date)] *)
Definition message_should_be_skipped (self : Crawler)
    (crawl_state : CrawlState) (m : Message) (max_date : Bound)
  : result (bool * CrawlState) :=
  match self with
  | Baseline =>
      skip ← BaselineCrawler.message_should_be_skipped m max_date;
      Ok (skip, crawl_state)
  | KeywordSearch keywords =>
      skip ← KeywordSearchCrawler.message_should_be_skipped
               keywords m max_date;
      Ok (skip, crawl_state)
  | BinaryClassifier base_model _ =>
      BinaryClassifierCrawler.message_should_be_skipped
        base_model crawl_state m max_date
  end.

(** [self.store_crawl_state(crawl_state)], a call with one argument:
    the method of [BinaryClassifierCrawler] takes three. *)
Definition store_crawl_state (self : Crawler) (crawl_state : CrawlState)
    (crawls : list CrawlState) : result (list CrawlState) :=
  match self with
  | Baseline | KeywordSearch _ =>
      BaselineCrawler.store_crawl_state crawl_state crawls
  | BinaryClassifier _ _ => Raise TypeError
  end.

(** [self.crawler.retrieve_or_initialize_crawl_state(seed_chat_ids,
    min_date, max_date, label_messages)], the call of the controller:
    the method of [BinaryClassifierCrawler] takes three arguments. *)
Definition retrieve_or_initialize_crawl_state (self : Crawler)
    (crawls : list CrawlState) (now : string) (seed_chat_ids : list Z)
    (min_date max_date : option datetime) (label_messages : bool)
  : option (result CrawlState) :=
  match self with
  | Baseline =>
      BaselineCrawler.retrieve_or_initialize_crawl_state
        crawls now seed_chat_ids min_date max_date label_messages []
  | KeywordSearch keywords =>
      KeywordSearchCrawler.retrieve_or_initialize_crawl_state
        keywords crawls now seed_chat_ids min_date max_date label_messages
  | BinaryClassifier _ _ => Some (Raise TypeError)
  end.

(** *** The message handler on a message of the client *)

(** What [set_message] leaves in [self.message]: a message with its
    chat, or one whose chat is [None]. *)
Inductive HandlerMessage : Type :=
| OfChat (self : TelegramMessage)
| OfNoChat (self : Chatless).

(** [message_handler.message.chat.id] *)
Definition message_chat_id (message : HandlerMessage) : result Z :=
  match message with
  | OfChat self => Ok (chat self)
  | OfNoChat _ => Raise AttributeError
  end.

(** [TelegramMessage.from_telethon_message] with
    [store_forwarded_original=False].  The arguments of [cls(...)] are
    evaluated in order: the chat is looked up, and stored if it is new,
    before [get_hash] reads the text. *)
Definition from_telethon_message (m : Message) (db : Store)
  : result HandlerMessage * Store :=
  let url :=
    match media m with
    | Some (MessageMediaWebPage (Some webpage_url)) =>
        let base_url := netloc webpage_url in
        let website :=
          if String.prefix "www." base_url
          then String.substring 4 (String.length base_url - 4) base_url
          else base_url in
        if String.eqb website "t.me" then None else Some website
    | _ => None
    end in
  match Chats.get_or_create_by_id
          get_chat_info (clock db) (peer_channel_id m) (telegram_chat db)
  with
  | (Raise e, table) => (Raise e, set_telegram_chat table db)
  | (Ok chat, table) =>
      let db := set_telegram_chat table db in
      match message m with
      | None => (Raise AttributeError, db)
      | Some content =>
          let self :=
            {| cl_message_id := id m;
               cl_content := content;
               cl_url := url;
               cl_hash := get_hash content;
               cl_creation_date := str_datetime (date m);
               cl_last_retrieved := clock db;
               cl_views := Telethon.views m;
               cl_forwards := Telethon.forwards m |} in
          (Ok match chat with
              | Some chat => OfChat (with_chat (Chats.id chat) self)
              | None => OfNoChat self
              end,
           db)
      end
  end.

(** The two handler classes [handle_chat] chooses from. *)
Inductive MessageHandler : Type :=
| NoLabeling
| Labeling.

(** [message_handler.handle_message(message)]: the status with
    [message_handler.message], the answers the user has left, and the
    store. *)
Definition handle_message (message_handler : MessageHandler) (m : Message)
    (prompts : list Answers) (db : Store)
  : result (string * HandlerMessage) * list Answers * Store :=
  match from_telethon_message m db with
  | (Raise e, db) => (Raise e, prompts, db)
  | (Ok message, db) =>
      let '(status, prompts, db) :=
        match message_handler, message with
        | NoLabeling, OfChat self =>
            let '(status, db) :=
              NoLabelingMessageHandler.handle_message self db in
            (status, prompts, db)
        | NoLabeling, OfNoChat self =>
            let '(status, db) :=
              NoLabelingMessageHandler.handle_message_chatless self db in
            (status, prompts, db)
        | Labeling, OfChat self =>
            LabelingMessageHandler.handle_message prompts self true db
        | Labeling, OfNoChat self =>
            LabelingMessageHandler.handle_message_chatless
              prompts self true db
        end in
      ((fun status => (status, message)) <$> status, prompts, db)
  end.

(** *** handle_chat *)

(** What the loop does with the handler's status; [Fails] is the
    exception of [message_handler.message.chat.id] on a message whose
    chat is [None]. *)
Inductive Verdict : Type :=
| StopCrawl
| Continue (crawl_state : CrawlState)
| Fails (e : exn).

(** The status block of the loop; [message_chat_id] is what
    [message_handler.message.chat.id] gives when the block reads it. *)
Definition check_status (chat_id : Z) (crawl_state : CrawlState)
    (status : string) (message_chat_id : result Z) : Verdict :=
  if negb (no_labeling_mode crawl_state) then
    if String.eqb status "stop crawl" then StopCrawl
    else if truthy (py_or (VBool (String.eqb status "message skipped"))
                          (VStr "message stored without labels"))
    then Continue crawl_state
    else if String.eqb status "message stored with labels" then
      match message_chat_id with
      | Raise e => Fails e
      | Ok message_chat_id =>
          if negb (message_chat_id =? chat_id)
             && negb (bool_decide
                        (message_chat_id ∈ chats_searched crawl_state))
          then
            Continue (set_chats_to_search
                        (message_chat_id :: chats_to_search crawl_state)
                        crawl_state)
          else Continue crawl_state
      end
    else Continue crawl_state
  else Continue crawl_state.

(** Everything a crawl reads and writes. *)
Record World : Type := {
  crawl_state : CrawlState;
  crawls : list CrawlState;
  db : Store;
  prompts : list Answers
}.

(** What a run of [handle_chat] does that can be observed from
    outside, in order. *)
Inductive Event : Type :=
| Fetched (m : Message)
| Handled (m : Message) (status : string)
| Wrote (slot : nat) (record : CrawlState).

(** How the [async for] loop is left. *)
Inductive Exit : Type :=
| Completed
| Returned1
| Raised (e : exn).

Definition emit {A} (e : Event) (r : A * list Event) : A * list Event :=
  (r.1, e :: r.2).

(** [self.store_crawl_state(crawl_state)] on the world. *)
Definition checkpoint (self : Crawler) (w : World) : result World :=
  crawls ← store_crawl_state self (crawl_state w) (crawls w);
  Ok {| crawl_state := crawl_state w; crawls := crawls;
        db := db w; prompts := prompts w |}.

Definition written (w : World) : Event :=
  Wrote (index (crawl_state w)) (as_stored (crawl_state w)).

(** The [async for] loop of [handle_chat]. *)
Fixpoint iter_messages (self : Crawler) (chat_id : Z)
    (min_date max_date : Bound) (message_handler : MessageHandler)
    (feed : Feed) (w : World) : (Exit * World) * list Event :=
  match feed with
  | EndOfChat => ((Completed, w), [])
  | Raises e => ((Raised e, w), [])
  | Next m feed =>
      emit (Fetched m)
        match crawl_should_be_stopped
                self (crawl_state w) m min_date max_date with
        | Raise e => ((Raised e, w), [])
        | Ok true => ((Completed, w), [])
        | Ok false =>
            match message_should_be_skipped
                    self (crawl_state w) m max_date with
            | Raise e => ((Raised e, w), [])
            | Ok (true, crawl_state) =>
                iter_messages self chat_id min_date max_date message_handler
                  feed
                  {| crawl_state := crawl_state; crawls := crawls w;
                     db := db w; prompts := prompts w |}
            | Ok (false, crawl_state) =>
                let '(status, prompts, db) :=
                  handle_message message_handler m (prompts w) (db w) in
                let w := {| crawl_state := crawl_state;
                            crawls := crawls w;
                            db := db; prompts := prompts |} in
                match status with
                | Raise e => ((Raised e, w), [])
                | Ok (status, self_message) =>
                    emit (Handled m status)
                      match check_status chat_id crawl_state status
                                         (message_chat_id self_message) with
                      | Fails e => ((Raised e, w), [])
                      | StopCrawl =>
                          match checkpoint self w with
                          | Raise e => ((Raised e, w), [])
                          | Ok w => ((Returned1, w), [written w])
                          end
                      | Continue crawl_state =>
                          let w := {| crawl_state := crawl_state;
                                      crawls := crawls w;
                                      db := db; prompts := prompts |} in
                          match checkpoint self w with
                          | Raise e => ((Raised e, w), [])
                          | Ok w =>
                              emit (written w)
                                (iter_messages self chat_id min_date
                                               max_date message_handler
                                               feed w)
                          end
                      end
                end
            end
        end
  end.

(** [list.pop(0)] *)
Definition pop0 (l : list Z) : result (list Z) :=
  match l with
  | [] => Raise IndexError
  | _ :: l => Ok l
  end.

Definition with_crawl_state (crawl_state : CrawlState) (w : World) :=
  {| crawl_state := crawl_state; crawls := crawls w;
     db := db w; prompts := prompts w |}.

(** The clause [except ChannelPrivateError] of [handle_chat]. *)
Definition channel_private (self : Crawler) (chat_id : Z) (w : World)
  : (result Z * World) * list Event :=
  let crawl_state := crawl_state w in
  let not_searchable :=
    match chats_not_searchable crawl_state with
    | None => []
    | Some l => l
    end in
  let crawl_state :=
    set_chats_not_searchable (Some (not_searchable ++ [chat_id]))
                             crawl_state in
  let w := with_crawl_state crawl_state w in
  match pop0 (chats_to_search crawl_state) with
  | Raise e => ((Raise e, w), [])
  | Ok queue =>
      let w := with_crawl_state (set_chats_to_search queue crawl_state) w in
      match checkpoint self w with
      | Raise e => ((Raise e, w), [])
      | Ok w => ((Ok 0, w), [written w])
      end
  end.

(** The lines of [handle_chat] below the loop. *)
Definition chat_done (self : Crawler) (chat_id : Z) (max_date : Bound)
    (w : World) : (result Z * World) * list Event :=
  let crawl_state := crawl_state w in
  let crawl_state :=
    match max_date with
    | NoBound =>
        set_chats_to_search (chats_to_search crawl_state ++ [chat_id])
                            crawl_state
    | _ =>
        set_chats_searched (chats_searched crawl_state ++ [chat_id])
                           crawl_state
    end in
  let w := with_crawl_state crawl_state w in
  match pop0 (chats_to_search crawl_state) with
  | Raise e => ((Raise e, w), [])
  | Ok queue =>
      let w := with_crawl_state (set_chats_to_search queue crawl_state) w in
      match checkpoint self w with
      | Raise e => ((Raise e, w), [])
      | Ok w => ((Ok 0, w), [written w])
      end
  end.

Definition append_events {A} (events : list Event) (r : A * list Event)
  : A * list Event :=
  (r.1, events ++ r.2).

(** [handle_chat] down to the end of the loop: the dates and the handler
    are those of the crawl state on entry. *)
Definition loop_over_chat (self : Crawler) (chat_id : Z) (feed : Feed)
    (w : World) : (Exit * World) * list Event :=
  let min_date := min_date (crawl_state w) in
  let max_date := max_date (crawl_state w) in
  let message_handler :=
    if no_labeling_mode (crawl_state w) then NoLabeling else Labeling in
  iter_messages self chat_id min_date max_date message_handler feed w.

(** [BaselineCrawler.handle_chat] run on [self]: the value returned or
    the exception raised, the world and the events. *)
Definition handle_chat (self : Crawler) (chat_id : Z) (feed : Feed)
    (w : World) : (result Z * World) * list Event :=
  let max_date := max_date (crawl_state w) in
  let '((exit, w), events) := loop_over_chat self chat_id feed w in
  append_events events
    match exit with
    | Returned1 => ((Ok 1, w), [])
    | Raised ChannelPrivateError => channel_private self chat_id w
    | Raised e => ((Raise e, w), [])
    | Completed => chat_done self chat_id max_date w
    end.

(** What [BinaryClassifierCrawler.handle_chat] does before it returns
    the coroutine of the inherited method, whose body runs when the
    controller awaits it. *)
Definition note_classified (chat_id : Z) (crawl_state : CrawlState)
  : result unit * CrawlState :=
  let until :=
    match classified_chat_until crawl_state with
    | None => ∅
    | Some until => until
    end in
  let crawl_state := set_classified_chat_until (Some until) crawl_state in
  match current_chat_classified_messages_ids crawl_state with
  | None => (Raise KeyError, crawl_state)
  | Some [] => (Ok tt, crawl_state)
  | Some (first :: _) =>
      (Ok tt,
       set_current_chat_classified_messages_ids (Some [])
         (set_classified_chat_until
            (Some (<[str_int chat_id := first]> until)) crawl_state))
  end.

(** [await self.crawler.handle_chat(chat_id, crawl_state)], the call of
    the controller. *)
Definition await_handle_chat (self : Crawler) (chat_id : Z) (feed : Feed)
    (w : World) : (result Z * World) * list Event :=
  match self with
  | Baseline | KeywordSearch _ => handle_chat self chat_id feed w
  | BinaryClassifier _ _ =>
      match note_classified chat_id (crawl_state w) with
      | (Raise e, crawl_state) =>
          ((Raise e, with_crawl_state crawl_state w), [])
      | (Ok _, crawl_state) =>
          handle_chat self chat_id feed (with_crawl_state crawl_state w)
      end
  end.

(** One pass through the [while] loop of
    [CrawlController.start_or_resume_crawl]; [feed_of] tells what the
    client yields for a chat and [stop_check] holds the chats crawled in
    this run. *)
Inductive Pass : Type :=
| LoopEnds (no_new_messages : bool)
| CrawlStopped
| NextPass (stop_check : list Z)
| PassRaised (e : exn).

Definition crawl_pass (self : Crawler) (feed_of : Z -> Feed)
    (stop_check : list Z) (w : World) : (Pass * World) * list Event :=
  match chats_to_search (crawl_state w) with
  | [] => ((LoopEnds false, w), [])
  | current_chat_id :: _ =>
      if bool_decide (current_chat_id ∈ stop_check)
      then ((LoopEnds true, w), [])
      else
        let '((crawl_stopped, w), events) :=
          await_handle_chat self current_chat_id (feed_of current_chat_id) w in
        match crawl_stopped with
        | Raise e => ((PassRaised e, w), events)
        | Ok crawl_stopped =>
            if crawl_stopped =? 1 then ((CrawlStopped, w), events)
            else ((NextPass (stop_check ++ [current_chat_id]), w), events)
        end
  end.

(** The [while] loop of [start_or_resume_crawl], at most [fuel] passes of
    it.  The result is [NextPass] only when these passes did not end the
    loop. *)
Fixpoint crawl_passes (fuel : nat) (self : Crawler) (feed_of : Z -> Feed)
    (stop_check : list Z) (w : World) : (Pass * World) * list Event :=
  match fuel with
  | O => ((NextPass stop_check, w), [])
  | S fuel =>
      let '((pass, w), events) := crawl_pass self feed_of stop_check w in
      match pass with
      | NextPass stop_check =>
          append_events events
            (crawl_passes fuel self feed_of stop_check w)
      | _ => ((pass, w), events)
      end
  end.

(** [CrawlController.start_or_resume_crawl]; [now] is the reading of
    [get_current_datetime()].  [None]: [fuel] passes did not end the
    loop. *)
Definition start_or_resume_crawl (fuel : nat) (self : Crawler)
    (feed_of : Z -> Feed) (now : string) (w : World)
  : option ((result unit * World) * list Event) :=
  let '((pass, w), events) := crawl_passes fuel self feed_of [] w in
  let finish (no_new_messages : bool) :=
    let crawl_state := crawl_state w in
    let crawl_state :=
      if (length (chats_to_search crawl_state) =? 0)%nat || no_new_messages
      then set_finished (Some now) crawl_state
      else crawl_state in
    let w := with_crawl_state crawl_state w in
    match checkpoint self w with
    | Raise e => Some ((Raise e, w), events)
    | Ok w => Some ((Ok tt, w), events ++ [written w])
    end in
  match pass with
  | NextPass _ => None
  | PassRaised e => Some ((Raise e, w), events)
  | LoopEnds no_new_messages => finish no_new_messages
  | CrawlStopped => finish false
  end.

End WithCollaborators.

End Crawler.


(** ** data_export.py: the export of the messages *)

Module DataExport.
Import Models Handlers.

(** [len(s)] for a [str]: the number of its characters. *)
Definition len (s : string) : nat := String.length s.

(** One line of the exported file: [id], the keys of [misinfo] (every
    value is "agree") in the order of their first assignment, and
    [full_text]. *)
Record Line : Type := {
  line_id : string;
  misinfo : list Z;
  full_text : string
}.

Section WithKeywords.

(** [positive_keywords] and [negative_keywords] of [keywords.py], and
    [str.lower]. *)
Variables (positive_keywords negative_keywords : list string).
Variable lower : string -> string.

(** The ids of the rows of [Misconception]. *)
Variable misconception_ids : list Z.

(** The value of [include] when the loop body reaches its test. *)
Definition include (max_message_length : nat) (filter_using_keywords : bool)
    (content : string) : bool :=
  let include := negb (max_message_length <? len content)%nat in
  if filter_using_keywords then
    let include :=
      existsb (fun keyword => str_contains (lower keyword) (lower content))
              positive_keywords in
    if existsb (fun keyword => str_contains (lower keyword) (lower content))
               negative_keywords
    then false else include
  else include.

(** The loop over the labels of one message that fills
    [message_misconceptions_object]: [message_misconception.misconception]
    is [None] for a label without a misconception, and peewee raises
    [DoesNotExist] for an id that has no row. *)
Fixpoint message_misconceptions_object (labels : list MessageMisconception)
    (keys : list Z) : result (list Z) :=
  match labels with
  | [] => Ok keys
  | label :: labels =>
      match mm_misconception label with
      | None => Raise AttributeError
      | Some misconception =>
          if bool_decide (misconception ∈ misconception_ids)
          then
            message_misconceptions_object labels
              (if bool_decide (misconception ∈ keys) then keys
               else keys ++ [misconception])
          else Raise (CollaboratorError "DoesNotExist")
      end
  end.

(** The body of the loop for one message: the line written, if any. *)
Definition export_message (max_message_length : nat)
    (filter_using_keywords : bool) (labels : list MessageMisconception)
    (message : TelegramMessage) : result (option Line) :=
  if include max_message_length filter_using_keywords (content message)
  then
    keys ← message_misconceptions_object
              (List.filter
                 (fun label => String.eqb (mm_message_hash label)
                                          (hash message))
                 labels) [];
    Ok (Some {| line_id := hash message; misinfo := keys;
                full_text := content message |})
  else Ok None.

(** [create_messages_jsonl]: what the call returns or raises and the
    lines in the file afterwards. *)
Fixpoint export_rows (max_message_length : nat)
    (filter_using_keywords : bool) (labels : list MessageMisconception)
    (rows : list TelegramMessage) (written : list Line)
  : result unit * list Line :=
  match rows with
  | [] => (Ok tt, written)
  | message :: rows =>
      match export_message max_message_length filter_using_keywords
                           labels message with
      | Raise e => (Raise e, written)
      | Ok None =>
          export_rows max_message_length filter_using_keywords labels
                      rows written
      | Ok (Some line) =>
          export_rows max_message_length filter_using_keywords labels
                      rows (written ++ [line])
      end
  end.

Definition create_messages_jsonl (max_message_length : nat)
    (filter_using_keywords : bool) (st : Store)
  : result unit * list Line :=
  export_rows max_message_length filter_using_keywords
              (message_misconception st) (telegram_message st) [].

(** The first loop of [create_messages_jsonl_by_id_list]: it reads the
    counter, which is 0, and breaks or runs to the end. *)
Fixpoint count_loop (ids : list string) (train_messages : nat)
    (max_train_messages : nat) : unit :=
  match ids with
  | [] => tt
  | _ :: ids =>
      if (train_messages =? max_train_messages)%nat then tt
      else count_loop ids train_messages max_train_messages
  end.

(** The second loop; [TelegramMessage.get] raises [DoesNotExist] when no
    row has the id. *)
Fixpoint export_ids (max_message_length : nat)
    (filter_using_keywords : bool) (st : Store) (ids : list string)
    (train_messages : nat) (written : list Line)
  : result unit * list Line :=
  match ids with
  | [] => (Ok tt, written)
  | id :: ids =>
      match select_by_hash id (telegram_message st) with
      | [] => (Raise (CollaboratorError "DoesNotExist"), written)
      | message :: _ =>
          match export_message max_message_length filter_using_keywords
                               (message_misconception st) message with
          | Raise e => (Raise e, written)
          | Ok None =>
              export_ids max_message_length filter_using_keywords st ids
                         train_messages written
          | Ok (Some line) =>
              export_ids max_message_length filter_using_keywords st ids
                         (S train_messages) (written ++ [line])
          end
      end
  end.

Definition create_messages_jsonl_by_id_list (ids : list string)
    (max_message_length max_train_messages : nat)
    (filter_using_keywords : bool) (st : Store)
  : result unit * list Line :=
  let train_messages := O in
  let _ := count_loop ids train_messages max_train_messages in
  export_ids max_message_length filter_using_keywords st ids
             train_messages [].

End WithKeywords.

End DataExport.

(** ** crawler.py: relabel_message *)

Module Relabel.
Import Models Handlers.

(** A call [cls(args...)] of a class whose [__init__] takes [parameters]
    arguments besides [self]; a class that defines none, like the two
    handler classes, takes no argument. *)
Definition instantiate (parameters arguments : nat) : result unit :=
  if (arguments =? parameters)%nat then Ok tt else Raise TypeError.

(** [TelegramMessage.get_by_id]; peewee raises [DoesNotExist] when no
    row has the key. *)
Definition get_by_id (message_hash : string) (st : Store)
  : result TelegramMessage :=
  match select_by_hash message_hash (telegram_message st) with
  | [] => Raise (CollaboratorError "DoesNotExist")
  | message :: _ => Ok message
  end.

(** [relabel_message]: the handler is created with the message as
    argument, then asked to label and store it. *)
Definition relabel_message (message_hash : string) (script : list Answers)
    (st : Store) : LabelingMessageHandler.interaction string :=
  match get_by_id message_hash st with
  | Raise e => (Raise e, script, st)
  | Ok message =>
      match instantiate 0 1 with
      | Raise e => (Raise e, script, st)
      | Ok _ =>
          LabelingMessageHandler.label_and_store_message script message st
      end
  end.

End Relabel.

(** ** configuration.py: topics and misconceptions *)

Module Configuration.

Record Topic : Type := {
  topic_id : Z;
  topic_name : string;
  topic_short_name : string
}.

Record Misconception : Type := {
  misconception_id : Z;
  misconception_topic : Z;
  misconception_name : string;
  misconception_short_name : string;
  misconception_description : string
}.

(** The two tables, and what the user will type at [input()] and pick at
    the list prompts ([None]: the prompt is cancelled). *)
Record Desk : Type := {
  topics : list Topic;
  misconceptions : list Misconception;
  typed : list string;
  picked : list (option Z)
}.

Definition set_topics (rows : list Topic) (d : Desk) : Desk :=
  {| topics := rows; misconceptions := misconceptions d;
     typed := typed d; picked := picked d |}.

Definition set_misconceptions (rows : list Misconception) (d : Desk)
  : Desk :=
  {| topics := topics d; misconceptions := rows;
     typed := typed d; picked := picked d |}.

Definition set_typed (lines : list string) (d : Desk) : Desk :=
  {| topics := topics d; misconceptions := misconceptions d;
     typed := lines; picked := picked d |}.

Definition set_picked (answers : list (option Z)) (d : Desk) : Desk :=
  {| topics := topics d; misconceptions := misconceptions d;
     typed := typed d; picked := answers |}.

(** A call with its result and the desk after it. *)
Definition action (A : Type) : Type := (result A * Desk)%type.

(** [input()]; at the end of the input it raises [EOFError]. *)
Definition input (d : Desk) : action string :=
  match typed d with
  | [] => (Raise (CollaboratorError "EOFError"), d)
  | line :: lines => (Ok line, set_typed lines d)
  end.

(** [value] if it is given, else a line read from the user. *)
Definition given_or_input (value : option string) (d : Desk)
  : action string :=
  match value with
  | Some value => (Ok value, d)
  | None => input d
  end.

(** The key of a new row. *)
Definition next_id (ids : list Z) : Z := 1 + foldr Z.max 0 ids.

(** [add_topic]: [name] and [short_name] are unique columns. *)
Definition add_topic (name short_name : option string) (d : Desk)
  : action Topic :=
  match given_or_input name d with
  | (Raise e, d) => (Raise e, d)
  | (Ok name, d) =>
      match given_or_input short_name d with
      | (Raise e, d) => (Raise e, d)
      | (Ok short_name, d) =>
          if existsb (fun t => String.eqb (topic_name t) name
                               || String.eqb (topic_short_name t) short_name)
                     (topics d)
          then (Raise IntegrityError, d)
          else
            let topic :=
              {| topic_id := next_id (topic_id <$> topics d);
                 topic_name := name;
                 topic_short_name := short_name |} in
            (Ok topic, set_topics (topics d ++ [topic]) d)
      end
  end.

(** The lines of [add_misconception] below the choice of the topic;
    [topic_id] is [None] while the local variable is unbound. *)
Definition store_misconception (name short_name description : option string)
    (topic_id : option Z) (d : Desk) : action (option Misconception) :=
  match given_or_input name d with
  | (Raise e, d) => (Raise e, d)
  | (Ok name, d) =>
      match given_or_input short_name d with
      | (Raise e, d) => (Raise e, d)
      | (Ok short_name, d) =>
          match given_or_input description d with
          | (Raise e, d) => (Raise e, d)
          | (Ok description, d) =>
              match topic_id with
              | None => (Raise UnboundLocalError, d)
              | Some topic_id =>
                  if existsb
                       (fun m =>
                          String.eqb (misconception_name m) name
                          || String.eqb (misconception_short_name m)
                                        short_name)
                       (misconceptions d)
                  then (Raise IntegrityError, d)
                  else
                    let misconception :=
                      {| misconception_id :=
                           next_id (misconception_id
                                      <$> misconceptions d);
                         misconception_topic := topic_id;
                         misconception_name := name;
                         misconception_short_name := short_name;
                         misconception_description := description |} in
                    (Ok (Some misconception),
                     set_misconceptions
                       (misconceptions d ++ [misconception]) d)
              end
          end
      end
  end.

(** [add_misconception] called without a topic: the user picks one,
    or picks 0, adds a topic and starts again; [answers] are the picks
    left, and the call that starts again returns [None]. *)
Fixpoint choose_topic_and_store (answers : list (option Z))
    (name short_name description : option string) (d : Desk)
  : action (option Misconception) :=
  match answers with
  | [] => (Raise TypeError, set_picked [] d)
  | None :: answers => (Raise TypeError, set_picked answers d)
  | Some topic_id :: answers =>
      let d := set_picked answers d in
      if topic_id =? 0 then
        match add_topic None None d with
        | (Raise e, d) => (Raise e, d)
        | (Ok _, d) =>
            match choose_topic_and_store answers None None None d with
            | (Raise e, d) => (Raise e, d)
            | (Ok _, d) => (Ok None, d)
            end
        end
      else store_misconception name short_name description (Some topic_id) d
  end.

(** [add_misconception]: [topic_id] is assigned only when no topic is
    passed. *)
Definition add_misconception (name short_name description : option string)
    (topic : option Topic) (d : Desk) : action (option Misconception) :=
  match topic with
  | None => choose_topic_and_store (picked d) name short_name description d
  | Some _ => store_misconception name short_name description None d
  end.

(** The loop of [add_labels_from_json] over the misconceptions of one
    topic. *)
Fixpoint add_misconceptions (names : list string) (topic : Topic)
    (d : Desk) : action unit :=
  match names with
  | [] => (Ok tt, d)
  | name :: names =>
      match add_misconception (Some name) None None (Some topic) d with
      | (Raise e, d) => (Raise e, d)
      | (Ok _, d) => add_misconceptions names topic d
      end
  end.

(** [add_labels_from_json] on the content of the file: the topic names
    with their misconception names, in the order of the file. *)
Fixpoint add_labels_from_json (labels : list (string * list string))
    (d : Desk) : action unit :=
  match labels with
  | [] => (Ok tt, d)
  | (key, names) :: labels =>
      match add_topic (Some key) None d with
      | (Raise e, d) => (Raise e, d)
      | (Ok _, d) =>
          match List.filter (fun t => String.eqb (topic_name t) key)
                            (topics d) with
          | [] => (Raise (CollaboratorError "DoesNotExist"), d)
          | topic :: _ =>
              match add_misconceptions names topic d with
              | (Raise e, d) => (Raise e, d)
              | (Ok _, d) => add_labels_from_json labels d
              end
          end
      end
  end.

End Configuration.

(** ** Inputs of the examples *)

Module Examples.
Import Telethon State Models Handlers Crawler.

(** What Telegram answers for every chat id: a public broadcast
    channel without a discussion group. *)
Definition news_channel (chat_id : Z) : result (list Chats.ChatInfo) :=
  Ok [{| Chats.info_id := chat_id; Chats.info_title := "News";
         Chats.info_username := Some "news";
         Chats.info_megagroup := false; Chats.info_gigagroup := false |}].

(** The table of the chats with chat 100 in it. *)
Definition known_chats : gmap Z Chats.TelegramChat :=
  {[ 100 := {| Chats.id := 100; Chats.name := "News";
               Chats.username := "news"; Chats.type := "broadcast";
               Chats.can_comment := false;
               Chats.added := "2021-08-01 08:00:00+00:00" |} ]}.

(** Collaborators that classify every text as relevant and take the
    content itself as its digest. *)
Definition relevant_collaborators : Collaborators := {|
  classify_message_binary := fun _ _ => Ok "relevant";
  get_hash := fun content => content;
  netloc := fun url => url;
  get_chat_info := news_channel
|}.

(** Collaborators whose classifier fails on every text. *)
Definition failing_collaborators : Collaborators := {|
  classify_message_binary :=
    fun _ _ => Raise (CollaboratorError "classifier");
  get_hash := fun content => content;
  netloc := fun url => url;
  get_chat_info := news_channel
|}.

(** Collaborators whose classifier finds every text irrelevant. *)
Definition irrelevant_collaborators : Collaborators := {|
  classify_message_binary := fun _ _ => Ok "irrelevant";
  get_hash := fun content => content;
  netloc := fun url => url;
  get_chat_info := news_channel
|}.

Definition stored_message : TelegramMessage := {|
  chat := 100; message_id := 7; content := "hello"; url := None;
  hash := "2cf24d"; creation_date := "2021-07-15 10:00:00+00:00";
  last_retrieved := "2021-08-01 08:00:00+00:00";
  Models.views := Some 3; Models.forwards := None
|}.

(** The same message fetched again, with more views. *)
Definition fetched_again : TelegramMessage := {|
  chat := 100; message_id := 7; content := "hello"; url := None;
  hash := "2cf24d"; creation_date := "2021-07-15 10:00:00+00:00";
  last_retrieved := "2021-08-02 08:00:00+00:00";
  Models.views := Some 9; Models.forwards := Some 1
|}.

(** A store that holds [stored_message] with one topic label and one
    misconception label. *)
Definition labelled_store : Store := {|
  telegram_chat := known_chats;
  telegram_message := [stored_message];
  message_topic :=
    [{| mt_chat := 100; mt_message_hash := "2cf24d"; mt_topic := 1;
        mt_added := "2021-08-01 08:00:00+00:00" |}];
  message_misconception :=
    [{| mm_chat := 100; mm_message_hash := "2cf24d";
        mm_misconception := Some 10;
        mm_added := "2021-08-01 08:00:00+00:00" |}];
  message_to_skip := [];
  messages_marked_for_later := ∅;
  clock := "2021-08-02 08:00:00+00:00"
|}.

(** A store that knows chat 100 and holds no message. *)
Definition empty_store : Store := {|
  telegram_chat := known_chats;
  telegram_message := []; message_topic := [];
  message_misconception := []; message_to_skip := [];
  messages_marked_for_later := ∅;
  clock := "2021-08-02 08:00:00+00:00"
|}.

(** The user ticks topic 2 and, for it, misconception 20. *)
Definition one_of_each : Answers := {|
  topics_ticked := Some [2];
  misconceptions_ticked := fun _ => Some [20];
  menu_choice := None
|}.

(** The user ticks nothing and confirms the empty selection. *)
Definition nothing_confirmed : Answers := {|
  topics_ticked := Some [];
  misconceptions_ticked := fun _ => Some [];
  menu_choice := Some StoreWithoutAny
|}.

Definition july_first : datetime := {|
  year := 2021; month := 7; day := 1;
  hour := 0; minute := 0; second := 0; microsecond := 0
|}.

Definition july_last : datetime := {|
  year := 2021; month := 7; day := 31;
  hour := 21; minute := 59; second := 59; microsecond := 5
|}.

(** A keyword crawl of chat 100 over July 2021 for the one keyword
    [a\b] (three characters: a, a backslash, b), as
    [retrieve_or_initialize_crawl_state] creates it in slot [i]. *)
Definition backslash_crawl (i : nat) (now : string) : CrawlState := {|
  index := i;
  seed_chats := [100];
  min_date := BoundDate july_first;
  max_date := BoundDate july_last;
  chats_to_search := [100];
  chats_searched := [];
  started := now;
  no_labeling_mode := false;
  chats_not_searchable := None;
  finished := None;
  properties := {[ "keywords" := PList ["a\b"] ]};
  current_chat_classified_messages_ids := None;
  classified_chat_until := None
|}.

Definition mid_july : datetime := {|
  year := 2021; month := 7; day := 15;
  hour := 10; minute := 0; second := 0; microsecond := 0
|}.

(** A service message: no text. *)
Definition without_text (i : Z) : Message := {|
  id := i; peer_channel_id := 100; date := mid_july;
  message := None; media := None;
  Telethon.views := None; Telethon.forwards := None
|}.

Definition with_text (i : Z) (text : string) : Message := {|
  id := i; peer_channel_id := 100; date := mid_july;
  message := Some text; media := None;
  Telethon.views := Some 3; Telethon.forwards := None
|}.

(** A new crawl of chat 100 over July 2021 that stores without
    labeling, and the world before its first write. *)
Definition july_crawl : CrawlState := {|
  index := 0;
  seed_chats := [100];
  min_date := BoundDate july_first;
  max_date := BoundDate july_last;
  chats_to_search := [100];
  chats_searched := [];
  started := "2021-08-01 08:00:00+00:00";
  no_labeling_mode := true;
  chats_not_searchable := None;
  finished := None;
  properties := ∅;
  current_chat_classified_messages_ids := Some [];
  classified_chat_until := None
|}.

Definition july_world : World := {|
  crawl_state := july_crawl; crawls := [];
  db := empty_store; prompts := []
|}.

(** What the client yields in the examples: chat 100 has one message with
    text, every other chat is private. *)
Definition july_feed (chat_id : Z) : Feed :=
  if chat_id =? 100 then Next (with_text 1 "hello") EndOfChat
  else Raises ChannelPrivateError.

(** The crawl of [july_world] run to its end on 3 August: the row
    stored for the message of chat 100, the final state, the final world
    and what the run did. *)
Definition hello_row : TelegramMessage := {|
  chat := 100; message_id := 1; content := "hello"; url := None;
  hash := "hello"; creation_date := "2021-07-15 10:00:00+00:00";
  last_retrieved := "2021-08-02 08:00:00+00:00";
  Models.views := Some 3; Models.forwards := None
|}.

Definition july_finished : CrawlState :=
  set_finished (Some "2021-08-03 08:00:00+00:00")
    (set_chats_to_search [] (set_chats_searched [100] july_crawl)).

Definition july_world_finished : World := {|
  crawl_state := july_finished;
  crawls := [as_stored july_finished];
  db := set_telegram_message [hello_row] empty_store;
  prompts := []
|}.

Definition july_events : list Event :=
  [Fetched (with_text 1 "hello");
   Handled (with_text 1 "hello") "message stored without labels";
   Wrote 0 (as_stored july_crawl);
   Wrote 0 (as_stored (set_chats_to_search []
                         (set_chats_searched [100] july_crawl)));
   Wrote 0 (as_stored july_finished)].

(** The crawl that [retrieve_or_initialize_crawl_state] creates for
    chat 100 over July 2021 without labeling when no crawl is stored, and
    what a run of it on 3 August leaves. *)
Definition fresh_july_crawl : CrawlState := {|
  index := 0;
  seed_chats := [100];
  min_date := BoundDate july_first;
  max_date := BoundDate july_last;
  chats_to_search := [100];
  chats_searched := [];
  started := "2021-08-01 08:00:00+00:00";
  no_labeling_mode := true;
  chats_not_searchable := None;
  finished := None;
  properties := ∅;
  current_chat_classified_messages_ids := None;
  classified_chat_until := None
|}.

Definition fresh_july_world : World := {|
  crawl_state := fresh_july_crawl; crawls := [];
  db := empty_store; prompts := []
|}.

Definition fresh_july_finished : CrawlState :=
  set_finished (Some "2021-08-03 08:00:00+00:00")
    (set_chats_to_search [] (set_chats_searched [100] fresh_july_crawl)).

Definition fresh_july_world_finished : World := {|
  crawl_state := fresh_july_finished;
  crawls := [as_stored fresh_july_finished];
  db := set_telegram_message [hello_row] empty_store;
  prompts := []
|}.

Definition fresh_july_events : list Event :=
  [Fetched (with_text 1 "hello");
   Handled (with_text 1 "hello") "message stored without labels";
   Wrote 0 (as_stored fresh_july_crawl);
   Wrote 0 (as_stored (set_chats_to_search []
                         (set_chats_searched [100] fresh_july_crawl)));
   Wrote 0 (as_stored fresh_july_finished)].

(** The user ticks nothing and picks the menu entry that skips the
    message, that marks it for later, or that labels it again. *)
Definition skip_it : Answers := {|
  topics_ticked := Some [];
  misconceptions_ticked := fun _ => Some [];
  menu_choice := Some SkipWithoutStoring
|}.

Definition mark_it : Answers := {|
  topics_ticked := Some [];
  misconceptions_ticked := fun _ => Some [];
  menu_choice := Some MarkForLater
|}.

Definition label_it_again : Answers := {|
  topics_ticked := Some [];
  misconceptions_ticked := fun _ => Some [];
  menu_choice := Some LabelAgain
|}.

(** The user ticks topic 2 and no misconception, and confirms. *)
Definition topic_two_confirmed : Answers := {|
  topics_ticked := Some [2];
  misconceptions_ticked := fun _ => Some [];
  menu_choice := Some StoreWithoutAny
|}.

(** A store in which message 5 of chat 100 is marked for later. *)
Definition marked_store : Store :=
  set_messages_marked_for_later_index {[ "100" := [5] ]} empty_store.

(** The user ticks nothing and stops the crawl. *)
Definition stop_now : Answers := {|
  topics_ticked := Some [];
  misconceptions_ticked := fun _ => Some [];
  menu_choice := Some StopTheCrawl
|}.

(** The crawl of [july_crawl] with labeling, and a world whose user
    stops at the first message. *)
Definition labeling_crawl : CrawlState := {|
  index := 0;
  seed_chats := [100];
  min_date := BoundDate july_first;
  max_date := BoundDate july_last;
  chats_to_search := [100];
  chats_searched := [];
  started := "2021-08-01 08:00:00+00:00";
  no_labeling_mode := false;
  chats_not_searchable := None;
  finished := None;
  properties := ∅;
  current_chat_classified_messages_ids := Some [];
  classified_chat_until := None
|}.

Definition labeling_world : World := {|
  crawl_state := labeling_crawl; crawls := [];
  db := empty_store; prompts := [stop_now]
|}.

End Examples.

(** ** What the duplicate check promises in words *)

Module Wording.
Import Models.

(** The stored row after a refresh from the fetched message [self]: the
    five mutable columns are those of [self]. *)
Definition refreshed (self stored : TelegramMessage) : TelegramMessage := {|
  chat := chat stored;
  message_id := message_id stored;
  content := content self;
  url := url self;
  hash := hash stored;
  creation_date := creation_date stored;
  last_retrieved := last_retrieved self;
  views := views self;
  forwards := forwards self
|}.

(** Same text, or same chat and same message id. *)
Definition same_message (self stored : TelegramMessage) : Prop :=
  content stored = content self
  ∨ (chat stored = chat self ∧ message_id stored = message_id self).

(** The topic labels and the misconception labels of the message with
    fingerprint [h]; [None] is the label without a misconception. *)
Definition topics_of (h : string) (st : Handlers.Store) : list Z :=
  mt_topic <$> List.filter (fun r => String.eqb (mt_message_hash r) h)
                           (Handlers.message_topic st).

Definition misconceptions_of (h : string) (st : Handlers.Store)
  : list (option Z) :=
  mm_misconception
    <$> List.filter (fun r => String.eqb (mm_message_hash r) h)
                    (Handlers.message_misconception st).

(** [keyword] occurs in [text]. *)
Definition occurs_in (keyword text : string) : Prop :=
  ∃ before after, text = before +:+ keyword +:+ after.

(** The crawlers whose [store_crawl_state] is the inherited one. *)
Definition inherits_store_crawl_state (self : Crawler.Crawler) : bool :=
  match self with
  | Crawler.BinaryClassifier _ _ => false
  | _ => true
  end.

(** C2 in words: once a message is fetched, the state is written before
    the next message is fetched.  [unsaved] tells whether a message was
    fetched since the last write. *)
Fixpoint written_before_next_fetch (unsaved : bool)
    (events : list Crawler.Event) : bool :=
  match events with
  | [] => true
  | Crawler.Fetched _ :: events =>
      negb unsaved && written_before_next_fetch true events
  | Crawler.Wrote _ _ :: events => written_before_next_fetch false events
  | Crawler.Handled _ _ :: events => written_before_next_fetch unsaved events
  end.

(** The event that follows a message the handler handled is the write
    [record]. *)
Fixpoint handled_then_written (record : Crawler.Event)
    (events : list Crawler.Event) : Prop :=
  match events with
  | [] => True
  | Crawler.Handled _ _ :: events =>
      match events with
      | next :: _ => next = record
      | [] => False
      end
      ∧ handled_then_written record events
  | _ :: events => handled_then_written record events
  end.

End Wording.


(** ** Views of the crawl state and of the store *)

Module Views.
Import State Models Handlers.

(** Every chat the crawl state knows: the queue, the chats searched and
    the chats that could not be searched. *)
Definition all_chats (c : CrawlState) : list Z :=
  chats_to_search c ++ chats_searched c
  ++ default [] (chats_not_searchable c).

(** What tells one crawl from another and what a run works with: the
    slot, the seed chats, the dates, the mode, the crawler-specific
    properties and the time the crawl was started. *)
Definition identity (c : CrawlState)
  : nat * list Z * Bound * Bound * bool * gmap string Property * string :=
  (index c, seed_chats c, min_date c, max_date c, no_labeling_mode c,
   properties c, started c).

(** [c'] is [c] except for the ids of the messages classified in the
    current chat. *)
Definition differs_in_classified_ids (c c' : CrawlState) : Prop :=
  c' = set_current_chat_classified_messages_ids
         (current_chat_classified_messages_ids c') c.

(** What [handle_chat] makes of the crawl state when the chat is at the
    front of the queue, by the value it returns: [base] is the state on
    entry but for the classified ids.  The chat stays where it is when the
    user stops the crawl; it is filed as not searchable, as searched (with
    a maximum date) or at the back of the queue (without one) when 0 is
    returned; an exception leaves either. *)
Definition returns_or_raises (v : Z) (r : result Z) : Prop :=
  r = Ok v ∨ ∃ e, r = Raise e.

Inductive Filed (chat_id : Z) (queue : list Z) (base : CrawlState)
  : result Z → CrawlState → Prop :=
| FiledNowhere (r : result Z) :
    returns_or_raises 1 r → Filed chat_id queue base r base
| FiledNotSearchable (r : result Z) :
    returns_or_raises 0 r →
    Filed chat_id queue base r
          (set_chats_to_search queue
             (set_chats_not_searchable
                (Some (default [] (chats_not_searchable base) ++ [chat_id]))
                base))
| FiledSearched (r : result Z) :
    returns_or_raises 0 r → max_date base ≠ NoBound →
    Filed chat_id queue base r
          (set_chats_to_search queue
             (set_chats_searched (chats_searched base ++ [chat_id]) base))
| FiledForLater (r : result Z) :
    returns_or_raises 0 r → max_date base = NoBound →
    Filed chat_id queue base r
          (set_chats_to_search (queue ++ [chat_id]) base).

(** No two rows of the message table have the same [hash]: the primary
    key. *)
Definition keyed (st : Store) : Prop :=
  NoDup (hash <$> telegram_message st).

(** A row with fingerprint [h] is in the message table. *)
Definition stored (h : string) (st : Store) : Prop :=
  select_by_hash h (telegram_message st) ≠ [].

(** What one call of a handler for the message [self] may do to the
    message table: nothing but refreshing rows, or appending [self] when
    no row has its fingerprint. *)
Definition appends_at_most (self : TelegramMessage) (st st' : Store)
  : Prop :=
  telegram_message st' = telegram_message st
  ∨ (select_by_hash (hash self) (telegram_message st) = []
     ∧ telegram_message st' = telegram_message st ++ [self]).

(** [MessageToSkip] holds a row with this fingerprint. *)
Definition skipped_before (h : string) (st : Store) : bool :=
  negb (Nat.eqb
          (length (List.filter (fun r => String.eqb (ms_message_hash r) h)
                               (message_to_skip st)))
          0).

(** Nothing is left to decide for a message with this text and
    fingerprint: it has no text, or a row of its fingerprint holds its
    text, or, for the handler that labels, no row has its fingerprint
    and the message was skipped before. *)
Definition settled (labels : bool) (text h : string) (st : Store)
  : Prop :=
  text = ""
  ∨ (∃ d ds, select_by_hash h (telegram_message st) = d :: ds
             ∧ content d = text)
  ∨ (labels = true
     ∧ select_by_hash h (telegram_message st) = []
     ∧ skipped_before h st = true).

(** Whether the handler is the one that labels. *)
Definition handler_labels (message_handler : Crawler.MessageHandler)
  : bool :=
  match message_handler with
  | Crawler.NoLabeling => false
  | Crawler.Labeling => true
  end.

(** The text and the fingerprint of the message a handler holds. *)
Definition text_of (message : Crawler.HandlerMessage) : string * string :=
  match message with
  | Crawler.OfChat self => (content self, hash self)
  | Crawler.OfNoChat self => (cl_content self, cl_hash self)
  end.

(** A character that [repr] copies and that stands for itself in a string
    literal: a printable character that is no backslash and no quote.
    The characters below 32 and from 127 to 160 and the character 173
    are not printable. *)
Definition plain_char (c : ascii) : bool :=
  let n := nat_of_ascii c in
  negb (Ascii.eqb c Text.backslash || Ascii.eqb c Text.single_quote
        || Ascii.eqb c Text.double_quote || (n <? 32)%nat
        || ((127 <=? n) && (n <=? 160))%nat || (n =? 173)%nat).

Fixpoint plain (s : string) : bool :=
  match s with
  | EmptyString => true
  | String c s => plain_char c && plain s
  end.

(** What a crawl may do to the message table between two stores: keep
    the fingerprints of the rows in place and append rows, with the
    fingerprints distinct if they were. *)
Definition extends_messages (st st' : Store) : Prop :=
  (hash <$> telegram_message st) `prefix_of` (hash <$> telegram_message st')
  ∧ (keyed st → keyed st').

(** What a crawl may do to the collection of the crawls between two
    worlds: keep its index and leave the slots of the other crawls
    alone. *)
Definition writes_own_slot (w w' : Crawler.World) : Prop :=
  index (Crawler.crawl_state w') = index (Crawler.crawl_state w)
  ∧ ∀ k, k ≠ index (Crawler.crawl_state w) →
         Crawler.crawls w' !! k = Crawler.crawls w !! k.

(** The crawlers whose crawl-specific text is made of printable
    characters other than the backslash and the quotes. *)
Definition plain_keywords (self : Crawler.Crawler) : bool :=
  match self with
  | Crawler.KeywordSearch keywords => forallb plain keywords
  | _ => true
  end.

(** The message lies in the window of the two dates; a date that is
    still the text of the JSON file bounds nothing. *)
Definition in_window (min_date max_date : Bound) (m : Telethon.Message)
  : Prop :=
  match min_date with
  | NoBound => True
  | BoundDate d => Telethon.date_lt (Telethon.date m) d = false
  | BoundText _ => False
  end
  ∧ match max_date with
    | NoBound => True
    | BoundDate d => Telethon.date_lt d (Telethon.date m) = false
    | BoundText _ => False
    end.

(** A character that a double-quoted literal takes as it is. *)
Definition copied_char (c : ascii) : bool :=
  negb (Ascii.eqb c Text.double_quote || Ascii.eqb c Text.line_feed
        || Ascii.eqb c Text.carriage_return || Ascii.eqb c Text.backslash).

Fixpoint copied (s : string) : bool :=
  match s with
  | EmptyString => true
  | String c s => copied_char c && copied s
  end.

End Views.

(** * Properties *)

(** ** The duplicate check *)

Section DuplicateCheck.
Import Models Wording.

Lemma select_by_hash_none (h : string) (rows : list TelegramMessage) :
  select_by_hash h rows = [] ↔ ∀ r, r ∈ rows → hash r ≠ h.
Proof.
  induction rows as [|a rows IH]; simpl.
  - split; [intros _ r Hr; inversion Hr | done].
  - destruct (String.eqb_spec (hash a) h) as [Heq|Hne].
    + split; [done|]. intros Hall. exfalso. apply (Hall a); [left|done].
    + rewrite IH. split.
      * intros Hall r Hr. apply elem_of_cons in Hr as [->|Hr]; auto.
      * intros Hall r Hr. apply Hall. by right.
Qed.

Lemma select_by_hash_key (rows : list TelegramMessage)
    (stored : TelegramMessage) :
  NoDup (hash <$> rows) → stored ∈ rows →
  select_by_hash (hash stored) rows = [stored].
Proof.
  induction rows as [|a rows IH]; intros Hnd Hin; [inversion Hin|].
  rewrite fmap_cons in Hnd. apply NoDup_cons in Hnd as [Hfresh Hnd].
  simpl. apply elem_of_cons in Hin as [->|Hin].
  - rewrite String.eqb_refl. f_equal.
    apply select_by_hash_none. intros r Hr Heq. apply Hfresh.
    rewrite <- Heq. by apply list_elem_of_fmap_2.
  - destruct (String.eqb_spec (hash a) (hash stored)) as [Heq|Hne].
    + exfalso. apply Hfresh. rewrite Heq. by apply list_elem_of_fmap_2.
    + by apply IH.
Qed.

Lemma same_message_test (self stored : TelegramMessage) :
  String.eqb (content stored) (content self)
  || (Z.eqb (chat stored) (chat self)
      && Z.eqb (message_id stored) (message_id self)) = true
  ↔ same_message self stored.
Proof.
  unfold same_message.
  rewrite orb_true_iff, andb_true_iff, String.eqb_eq, !Z.eqb_eq. tauto.
Qed.

(** C3.  With [hash] the primary key of the table: for a stored row with
    the fingerprint of the fetched message, [duplicate_exists] answers
    [True] and refreshes content, url, views, forwards and
    last_retrieved of that row, adding none, when the two have the same
    text or the same chat and message id, and raises the hash collision
    otherwise; it answers [False] exactly when no stored row has the
    fingerprint. *)
Theorem duplicate_exists_reconciles (self : TelegramMessage)
    (rows : list TelegramMessage) :
  NoDup (hash <$> rows) →
  (∀ stored, stored ∈ rows → hash stored = hash self →
     (same_message self stored →
        let rows' :=
          (λ r, if String.eqb (hash r) (hash self)
                then refreshed self stored else r) <$> rows in
        duplicate_exists self rows = Ok (true, rows')
        ∧ length rows' = length rows
        ∧ refreshed self stored ∈ rows')
     ∧ (¬ same_message self stored →
        duplicate_exists self rows =
          Raise (HashCollision (message_id stored) (chat stored)
                               (message_id self) (chat self))))
  ∧ ((∃ rows', duplicate_exists self rows = Ok (false, rows'))
     ↔ ∀ stored, stored ∈ rows → hash stored ≠ hash self).
Proof.
  intros Hkey. split.
  - intros stored Hin Hhash.
    pose proof (select_by_hash_key rows stored Hkey Hin) as Hsel.
    rewrite Hhash in Hsel. unfold duplicate_exists. rewrite Hsel.
    pose proof (same_message_test self stored) as Htest.
    destruct (String.eqb (content stored) (content self)
              || (Z.eqb (chat stored) (chat self)
                  && Z.eqb (message_id stored) (message_id self))).
    + split; [intros _ | intros Hno; exfalso; apply Hno; by apply Htest].
      split; [|split].
      * unfold save, refreshed. simpl. by rewrite Hhash.
      * by rewrite length_fmap.
      * apply list_elem_of_fmap. exists stored. split; [|done].
        by rewrite Hhash, String.eqb_refl.
    + split; [|done]. intros Hsame. apply Htest in Hsame. discriminate.
  - rewrite <- select_by_hash_none. unfold duplicate_exists.
    destruct (select_by_hash (hash self) rows) as [|duplicate others].
    + split; [done | eauto].
    + split; [|done]. intros [rows' Hres].
      destruct (String.eqb (content duplicate) (content self)
                || (Z.eqb (chat duplicate) (chat self)
                    && Z.eqb (message_id duplicate) (message_id self)));
        discriminate.
Qed.

(** The scenario of C3: the stored message fetched again with a changed
    view count. *)
Lemma duplicate_exists_reconciles_witness :
  duplicate_exists Examples.fetched_again [Examples.stored_message]
  = Ok (true, [refreshed Examples.fetched_again Examples.stored_message])
  ∧ length [refreshed Examples.fetched_again Examples.stored_message] = 1%nat
  ∧ views (refreshed Examples.fetched_again Examples.stored_message) = Some 9.
Proof.
  assert (Hkey : NoDup (hash <$> [Examples.stored_message])).
  { apply NoDup_singleton. }
  assert (Hin : Examples.stored_message ∈ [Examples.stored_message]).
  { by left. }
  assert (Hsame : same_message Examples.fetched_again Examples.stored_message).
  { by left. }
  destruct (proj1 (duplicate_exists_reconciles
                     Examples.fetched_again [Examples.stored_message] Hkey)
                  Examples.stored_message Hin eq_refl) as [Hyes _].
  destruct (Hyes Hsame) as (Hres & Hlen & _).
  split; [exact Hres | split; [exact Hlen | reflexivity]].
Defined.

End DuplicateCheck.

(** ** The labeling handler *)

Section Labeling.
Import Models Handlers Handlers.LabelingMessageHandler.

Lemma label_and_store_message_unbound_status (a : Answers)
    (script : list Answers) (self : TelegramMessage) (st : Store)
    (selected_topics selected_misconceptions : list Z) :
  get_topic_and_misconception_labels_from_user a
  = Ok (selected_topics, selected_misconceptions) →
  selected_topics ≠ [] →
  selected_misconceptions ≠ [] →
  label_and_store_message (a :: script) self st
  = (Raise UnboundLocalError, script, st).
Proof.
  intros Hselected Htopics Hmisconceptions.
  unfold label_and_store_message; fold label_and_store_message.
  rewrite Hselected.
  destruct selected_topics as [|t ts]; [done|].
  by destruct selected_misconceptions as [|x xs].
Qed.

Lemma no_topic_no_misconception (a : Answers)
    (selected_misconceptions : list Z) :
  get_topic_and_misconception_labels_from_user a
  = Ok ([], selected_misconceptions) →
  selected_misconceptions = [].
Proof.
  unfold get_topic_and_misconception_labels_from_user.
  destruct (prompt_selection (topics_ticked a)) as [[|t ts]|e]; simpl;
    [by intros [= <-] | | done].
  destruct (prompt_selection (misconceptions_ticked a t)); simpl; [|done].
  destruct (mapM _ ts); simpl; [|done]. by intros [= ?].
Qed.

Lemma store_unless_stopped_statuses (self : TelegramMessage)
    (selected_topics : list Z) (r : interaction string) :
  match (store_unless_stopped self selected_topics [] (assigned r)).1.1 with
  | Ok status =>
      status = "stop crawl" ∨ status = "message stored without labels"
  | Raise _ => True
  end.
Proof.
  destruct r as [[[status|e] script] st]; simpl; [|exact I].
  destruct (String.eqb_spec status "stop crawl"); [by left|].
  destruct (store_message_and_labels _ _ _ _) as [[[]|e] st']; simpl;
    [by right | exact I].
Qed.

Lemma label_and_store_message_statuses (script : list Answers)
    (self : TelegramMessage) (st : Store) :
  match (label_and_store_message script self st).1.1 with
  | Ok status =>
      status = "stop crawl" ∨ status = "message stored without labels"
  | Raise _ => True
  end.
Proof.
  destruct script as [|a script]; [exact I|].
  unfold label_and_store_message; fold label_and_store_message.
  destruct (get_topic_and_misconception_labels_from_user a)
    as [[selected_topics selected_misconceptions]|e] eqn:Hselected;
    [|exact I].
  destruct selected_misconceptions as [|x xs].
  - destruct (length selected_topics =? 0)%nat;
      apply store_unless_stopped_statuses.
  - destruct selected_topics as [|t ts]; [|exact I].
    by apply no_topic_no_misconception in Hselected.
Qed.

(** C4.  When the user's selection holds at least one topic and at least
    one misconception, [status] is read while it is unbound: the call
    raises [UnboundLocalError] with nothing stored; and no call of
    [label_and_store_message] returns the status "message stored with
    labels". *)
Theorem label_and_store_message_never_with_labels :
  (∀ (a : Answers) (script : list Answers) (self : TelegramMessage)
     (st : Store) (selected_topics selected_misconceptions : list Z),
      get_topic_and_misconception_labels_from_user a
      = Ok (selected_topics, selected_misconceptions) →
      selected_topics ≠ [] →
      selected_misconceptions ≠ [] →
      label_and_store_message (a :: script) self st
      = (Raise UnboundLocalError, script, st))
  ∧ (∀ (script : list Answers) (self : TelegramMessage) (st : Store),
      (label_and_store_message script self st).1.1
      ≠ Ok "message stored with labels").
Proof.
  split; [exact label_and_store_message_unbound_status|].
  intros script self st Hres.
  pose proof (label_and_store_message_statuses script self st) as Hst.
  rewrite Hres in Hst. destruct Hst; discriminate.
Qed.

Lemma label_and_store_message_never_with_labels_witness :
  label_and_store_message [Examples.one_of_each] Examples.stored_message
                          Examples.empty_store
  = (Raise UnboundLocalError, [], Examples.empty_store).
Proof.
  apply (proj1 label_and_store_message_never_with_labels
               Examples.one_of_each [] Examples.stored_message
               Examples.empty_store [2] [20] eq_refl); discriminate.
Defined.

End Labeling.



Section Relabeling.
Import Models Handlers Handlers.LabelingMessageHandler Wording.

Lemma filter_hash_cleared {A} (key : A → string) (h : string)
    (rows : list A) :
  List.filter (fun r => String.eqb (key r) h)
              (List.filter (fun r => negb (String.eqb (key r) h)) rows) = [].
Proof.
  induction rows as [|r rows IH]; [done|]. simpl.
  destruct (String.eqb (key r) h) eqn:Hr; simpl; [done|].
  by rewrite Hr.
Qed.

Lemma filter_hash_kept {A} (key : A → string) (h h' : string)
    (rows : list A) :
  h' ≠ h →
  List.filter (fun r => String.eqb (key r) h')
              (List.filter (fun r => negb (String.eqb (key r) h)) rows)
  = List.filter (fun r => String.eqb (key r) h') rows.
Proof.
  intros Hne. induction rows as [|r rows IH]; [done|]. simpl.
  destruct (String.eqb_spec (key r) h) as [Hr|Hr]; simpl.
  - destruct (String.eqb_spec (key r) h') as [Hr'|Hr']; [congruence|done].
  - by rewrite IH.
Qed.

Lemma filter_hash_written {A B} (key : B → string) (h : string)
    (row : A → B) (l : list A) :
  (∀ x, key (row x) = h) →
  List.filter (fun r => String.eqb (key r) h) (List.map row l)
  = List.map row l.
Proof.
  intros Hkey. induction l as [|x l IH]; [done|]. simpl.
  by rewrite Hkey, String.eqb_refl, IH.
Qed.

Lemma filter_hash_foreign {A B} (key : B → string) (h h' : string)
    (row : A → B) (l : list A) :
  h' ≠ h → (∀ x, key (row x) = h) →
  List.filter (fun r => String.eqb (key r) h') (List.map row l) = [].
Proof.
  intros Hne Hkey. induction l as [|x l IH]; [done|]. simpl.
  rewrite Hkey. by destruct (String.eqb_spec h h') as [->|_].
Qed.

(** Re-labeling a stored message with a selection that has no
    misconception and that the user confirms replaces its labels: the
    topics ticked and the one label without a misconception; the labels
    of the other messages stay. *)
Lemma relabel_without_misconception_replaces (a : Answers)
    (script : list Answers) (self : TelegramMessage) (st : Store)
    (selected_topics : list Z) :
  select_by_hash (hash self) (telegram_message st) ≠ [] →
  get_topic_and_misconception_labels_from_user a = Ok (selected_topics, []) →
  menu_choice a = Some StoreWithoutAny →
  let '(status, _, st') := label_and_store_message (a :: script) self st in
  status = Ok "message stored without labels"
  ∧ telegram_message st' = telegram_message st
  ∧ topics_of (hash self) st' = selected_topics
  ∧ misconceptions_of (hash self) st' = [None]
  ∧ ∀ h, h ≠ hash self →
      topics_of h st' = topics_of h st
      ∧ misconceptions_of h st' = misconceptions_of h st.
Proof.
  intros Hstored Hselected Hmenu.
  unfold label_and_store_message; fold label_and_store_message.
  rewrite Hselected, Hmenu.
  assert (Hconfirm :
    (if (length selected_topics =? 0)%nat
     then assigned (confirm_empty_selection
                      (label_and_store_message script self)
                      (Some StoreWithoutAny) self script st)
     else if (@length Z [] =? 0)%nat
     then assigned (confirm_empty_selection
                      (label_and_store_message script self)
                      (Some StoreWithoutAny) self script st)
     else (Ok None, script, st))
    = (Ok (Some "message stored without labels"), script, st)).
  { by destruct (length selected_topics =? 0)%nat. }
  rewrite Hconfirm. clear Hconfirm.
  unfold store_unless_stopped, store_message_and_labels. simpl.
  destruct (select_by_hash (hash self) (telegram_message st)) as [|d ds];
    [done|]. simpl.
  unfold topics_of, misconceptions_of. simpl.
  rewrite !List.filter_app, !filter_hash_cleared. simpl.
  rewrite String.eqb_refl, app_nil_r. simpl.
  rewrite (filter_hash_written mt_message_hash (hash self)) by done.
  split; [done|]. split; [done|]. split.
  { rewrite <- list_fmap_compose. simpl.
    by rewrite list_fmap_id. }
  split; [done|]. intros h Hh.
  rewrite !List.filter_app.
  rewrite (filter_hash_kept mt_message_hash (hash self) h) by done.
  rewrite (filter_hash_kept mm_message_hash (hash self) h) by done.
  rewrite (filter_hash_foreign mt_message_hash (hash self) h) by done.
  rewrite app_nil_r. simpl.
  destruct (String.eqb_spec (hash self) h) as [Heq|_]; [congruence|].
  by rewrite app_nil_r.
Qed.

(** The scenario of C10: one topic label and one misconception label
    before, an empty and confirmed selection, then no topic label and the
    one label without a misconception. *)
Lemma relabel_confirmed_empty_scenario :
  let '(status, _, st') :=
    label_and_store_message [Examples.nothing_confirmed]
                            Examples.stored_message
                            Examples.labelled_store in
  status = Ok "message stored without labels"
  ∧ topics_of "2cf24d" Examples.labelled_store = [1]
  ∧ misconceptions_of "2cf24d" Examples.labelled_store = [Some 10]
  ∧ topics_of "2cf24d" st' = []
  ∧ misconceptions_of "2cf24d" st' = [None].
Proof. vm_compute. done. Qed.

(** C10, at the input where the code departs from it.  The stored
    message carries topic 1 and misconception 10; the user re-labels it
    with topic 2 and misconception 20.  The call raises
    [UnboundLocalError] before it deletes or writes a label: the message
    keeps topic 1 and misconception 10. *)
Theorem relabel_with_misconception_raises :
  label_and_store_message [Examples.one_of_each] Examples.stored_message
                          Examples.labelled_store
  = (Raise UnboundLocalError, [], Examples.labelled_store)
  ∧ topics_of "2cf24d" Examples.labelled_store = [1]
  ∧ misconceptions_of "2cf24d" Examples.labelled_store = [Some 10].
Proof. repeat split. Qed.

End Relabeling.

(** ** Chat discovery *)

Section ChatDiscovery.
Context `{Collaborators}.
Import Telethon State Models Handlers Crawler.

Lemma or_with_a_text_is_true (b : bool) :
  truthy (py_or (VBool b) (VStr "message stored without labels")) = true.
Proof. by destruct b. Qed.

(** [check_status] asks the loop to stop or hands the crawl state back
    as it was. *)
Lemma check_status_keeps_state (chat_id : Z) (crawl_state : CrawlState)
    (status : string) (message_chat_id : result Z) :
  check_status chat_id crawl_state status message_chat_id = StopCrawl
  ∨ check_status chat_id crawl_state status message_chat_id
    = Continue crawl_state.
Proof.
  unfold check_status. rewrite or_with_a_text_is_true.
  destruct (no_labeling_mode crawl_state); simpl; [by right|].
  destruct (String.eqb status "stop crawl"); [by left | by right].
Qed.




(** X29.  The status block never inserts a chat.  For the status "message
    stored with labels", whatever the chat of the message, the chat being
    crawled and the chats searched, the queue is left as it was: the test
    for the two other statuses is true for every status, so the branch
    that inserts the chat is never taken. *)
Theorem check_status_with_labels_inserts_nothing (chat_id : Z)
    (crawl_state : CrawlState) (message_chat_id : result Z) :
  check_status chat_id crawl_state "message stored with labels"
               message_chat_id
  = Continue crawl_state.
Proof.
  unfold check_status. rewrite or_with_a_text_is_true.
  by destruct (no_labeling_mode crawl_state).
Qed.

End ChatDiscovery.


(** ** Resuming a crawl *)

Section Resume.
Import Telethon State Crawler.

(** The state found or created takes a slot of the collection or the
    one behind its end. *)
Lemma crawl_to_be_resumed_index_bound (test : CrawlState → result bool)
    (crawls : list CrawlState) (i j : nat) :
  BaselineCrawler.crawl_to_be_resumed_index test i crawls = Ok (Some j) →
  (i ≤ j < i + length crawls)%nat.
Proof.
  revert i. induction crawls as [|c crawls IH]; intros i; simpl; [done|].
  destruct (test c) as [[]|]; simpl; [| |done].
  - intros [= ->]. lia.
  - intros Hj. apply IH in Hj. lia.
Qed.

Lemma retrieve_or_initialize_crawl_state_slot (crawls : list CrawlState)
    (now : string) (seed_chat_ids : list Z)
    (min_date max_date : option datetime) (label_message : bool)
    (properties : list (string * Property)) (crawl_state : CrawlState) :
  BaselineCrawler.retrieve_or_initialize_crawl_state
    crawls now seed_chat_ids min_date max_date label_message properties
  = Some (Ok crawl_state) →
  (index crawl_state ≤ length crawls)%nat.
Proof.
  unfold BaselineCrawler.retrieve_or_initialize_crawl_state.
  destruct crawls as [|c crawls]; [by intros [= <-]|].
  cbv beta iota. remember (c :: crawls) as all eqn:Hall. clear Hall.
  destruct (mapM _ _) as [tests|]; simpl; [|done].
  destruct (BaselineCrawler.crawl_to_be_resumed_index _ _ _)
    as [[j|]|] eqn:Hfound; simpl; [| |done].
  - apply crawl_to_be_resumed_index_bound in Hfound.
    destruct (all !! j) eqn:Hj; [|done]. intros [= <-]. simpl in *. lia.
  - by intros [= <-].
Qed.

(** C7, where the code departs from it.  A keyword crawl for the one
    keyword made of a, a backslash and b is created in slot 0 of an
    empty collection and stored.  Asked again with the same seed chats,
    dates, labeling mode and keyword, [retrieve_or_initialize_crawl_state]
    does not resume it: the literal interpolated for the keyword list
    denotes a text with one backslash, [str] of the stored list has two,
    and a new crawl is created in slot 1. *)
Theorem resume_misses_keyword_with_backslash :
  KeywordSearchCrawler.retrieve_or_initialize_crawl_state
    ["a\b"] [] "2021-08-01 08:00:00+00:00" [100]
    (Some Examples.july_first) (Some Examples.july_last) true
  = Some (Ok (Examples.backslash_crawl 0 "2021-08-01 08:00:00+00:00"))
  ∧ BaselineCrawler.store_crawl_state
      (Examples.backslash_crawl 0 "2021-08-01 08:00:00+00:00") []
    = Ok [as_stored (Examples.backslash_crawl 0 "2021-08-01 08:00:00+00:00")]
  ∧ KeywordSearchCrawler.retrieve_or_initialize_crawl_state
      ["a\b"]
      [as_stored (Examples.backslash_crawl 0 "2021-08-01 08:00:00+00:00")]
      "2021-08-02 08:00:00+00:00" [100]
      (Some Examples.july_first) (Some Examples.july_last) true
    = Some (Ok (Examples.backslash_crawl 1 "2021-08-02 08:00:00+00:00")).
Proof. repeat split; vm_compute; reflexivity. Qed.

(** The same two calls for a keyword without a backslash or quote resume
    the stored crawl. *)
Lemma resume_finds_plain_keyword :
  (λ r : result CrawlState, index <$> r)
  <$> KeywordSearchCrawler.retrieve_or_initialize_crawl_state
    ["ab"]
    [as_stored
       (set_properties {[ "keywords" := PList ["ab"] ]}
          (Examples.backslash_crawl 0 "2021-08-01 08:00:00+00:00"))]
    "2021-08-02 08:00:00+00:00" [100]
    (Some Examples.july_first) (Some Examples.july_last) true
  = Some (Ok 0%nat).
Proof. vm_compute. reflexivity. Qed.

End Resume.

Section ResumeLookup.
Import Telethon State Crawler.

(** The loop over the stored crawls stops at the first one the test
    accepts. *)
Lemma crawl_to_be_resumed_index_first (test : CrawlState → result bool)
    (crawls : list CrawlState) (i j : nat) :
  BaselineCrawler.crawl_to_be_resumed_index test i crawls = Ok (Some j) ↔
  ∃ c, (i ≤ j)%nat ∧ crawls !! (j - i)%nat = Some c ∧ test c = Ok true
       ∧ ∀ k c', (k < j - i)%nat → crawls !! k = Some c' → test c' = Ok false.
Proof.
  revert i. induction crawls as [|c crawls IH]; intros i; simpl.
  - split; [done | by intros (c & _ & Hc & _)].
  - destruct (test c) as [[]|e] eqn:Htest; simpl.
    + split.
      * intros [= <-]. exists c. rewrite Nat.sub_diag.
        repeat split; [lia | done | lia].
      * intros (c' & Hle & Hc' & Hyes & Hbefore).
        destruct (j - i)%nat as [|n] eqn:Hn; [f_equal; f_equal; lia|].
        specialize (Hbefore 0%nat c ltac:(lia) eq_refl). congruence.
    + rewrite IH. split.
      * intros (c' & Hle & Hc' & Hyes & Hbefore). exists c'.
        replace (j - i)%nat with (S (j - S i)) by lia.
        repeat split; [lia | done | done |].
        intros [|k] c'' Hk Hc''; [by injection Hc'' as <-|].
        apply (Hbefore k); [lia | done].
      * intros (c' & Hle & Hc' & Hyes & Hbefore).
        destruct (j - i)%nat as [|n] eqn:Hn; [simpl in Hc'; congruence|].
        exists c'. replace (j - S i)%nat with n by lia.
        repeat split; [lia | done | done |].
        intros k c'' Hk Hc''. apply (Hbefore (S k)); [lia | done].
    + split; [done|]. intros (c' & Hle & Hc' & Hyes & Hbefore).
      destruct (j - i)%nat as [|n] eqn:Hn; [simpl in Hc'; congruence|].
      specialize (Hbefore 0%nat c ltac:(lia) eq_refl). congruence.
Qed.

(** With no crawler-specific property, as for the baseline crawler:
    the crawl resumed is the first stored crawl with the same seed chats,
    the same dates under [str] and the same labeling mode; its dates are
    replaced by the caller's and its index is its position. *)
Lemma baseline_resumes_first_match (crawls : list CrawlState) (now : string)
    (seed_chat_ids : list Z) (min_date max_date : option datetime)
    (label_message : bool) (c : CrawlState) (i : nat) :
  crawls !! i = Some c →
  BaselineCrawler.can_be_resumed
    seed_chat_ids (BaselineCrawler.bound_of min_date)
    (BaselineCrawler.bound_of max_date) (negb label_message) [] c = Ok true →
  (∀ k c', (k < i)%nat → crawls !! k = Some c' →
     BaselineCrawler.can_be_resumed
       seed_chat_ids (BaselineCrawler.bound_of min_date)
       (BaselineCrawler.bound_of max_date) (negb label_message) [] c'
     = Ok false) →
  BaselineCrawler.retrieve_or_initialize_crawl_state
    crawls now seed_chat_ids min_date max_date label_message []
  = Some (Ok (set_index_and_dates i (BaselineCrawler.bound_of min_date)
                                  (BaselineCrawler.bound_of max_date) c)).
Proof.
  intros Hc Hyes Hbefore.
  unfold BaselineCrawler.retrieve_or_initialize_crawl_state.
  destruct crawls as [|c0 crawls]; [done|].
  cbv beta iota. remember (c0 :: crawls) as all eqn:Hall. clear Hall.
  simpl.
  assert (Hfound :
            BaselineCrawler.crawl_to_be_resumed_index
              (BaselineCrawler.can_be_resumed
                 seed_chat_ids (BaselineCrawler.bound_of min_date)
                 (BaselineCrawler.bound_of max_date) (negb label_message) [])
              0 all = Ok (Some i)).
  { apply crawl_to_be_resumed_index_first. exists c.
    rewrite Nat.sub_0_r. repeat split; [lia | done | done | done]. }
  rewrite Hfound. simpl. by rewrite Hc.
Qed.

(** The test on one stored crawl, in words. *)
Lemma can_be_resumed_baseline (seed_chat_ids : list Z)
    (min_date max_date : Bound) (no_labeling_mode : bool) (c : CrawlState) :
  BaselineCrawler.can_be_resumed seed_chat_ids min_date max_date
                                 no_labeling_mode [] c
  = Ok (bool_decide
          (seed_chats c = seed_chat_ids
           ∧ str_bound (State.min_date c) = str_bound min_date
           ∧ str_bound (State.max_date c) = str_bound max_date
           ∧ State.no_labeling_mode c = no_labeling_mode)).
Proof.
  unfold BaselineCrawler.can_be_resumed.
  destruct (decide (seed_chats c = seed_chat_ids)) as [Hs|Hs].
  2: { rewrite (bool_decide_eq_false_2 _ Hs). simpl.
       by rewrite bool_decide_eq_false_2 by tauto. }
  rewrite (bool_decide_eq_true_2 _ Hs). simpl.
  destruct (String.eqb_spec (str_bound (State.min_date c))
                            (str_bound min_date)) as [Hlo|Hlo]; simpl.
  2: { by rewrite bool_decide_eq_false_2 by tauto. }
  destruct (String.eqb_spec (str_bound (State.max_date c))
                            (str_bound max_date)) as [Hhi|Hhi]; simpl.
  2: { by rewrite bool_decide_eq_false_2 by tauto. }
  destruct (Bool.eqb_spec (State.no_labeling_mode c) no_labeling_mode)
    as [Hmode|Hmode]; simpl.
  - by rewrite bool_decide_eq_true_2.
  - by rewrite bool_decide_eq_false_2 by tauto.
Qed.

End ResumeLookup.

(** ** The per-chat loop *)

Section PerChat.
Context `{Collaborators}.
Import Telethon State Models Handlers Crawler Wording.

Lemma message_should_be_skipped_keeps_state (self : Crawler)
    (crawl_state crawl_state' : CrawlState) (m : Message) (max_date : Bound)
    (skip : bool) :
  inherits_store_crawl_state self = true →
  message_should_be_skipped self crawl_state m max_date
  = Ok (skip, crawl_state') →
  crawl_state' = crawl_state.
Proof.
  destruct self as [|keywords|base_model model_directory]; [| |done];
    intros _; simpl.
  - destruct (BaselineCrawler.message_should_be_skipped m max_date);
      simpl; congruence.
  - destruct (KeywordSearchCrawler.message_should_be_skipped _ m max_date);
      simpl; congruence.
Qed.

Lemma store_crawl_state_writes (crawl_state : CrawlState)
    (crawls : list CrawlState) :
  (index crawl_state ≤ length crawls)%nat →
  ∃ crawls',
    BaselineCrawler.store_crawl_state crawl_state crawls = Ok crawls'
    ∧ (length crawls ≤ length crawls')%nat
    ∧ crawls' !! index crawl_state = Some (as_stored crawl_state).
Proof.
  intros Hslot. unfold BaselineCrawler.store_crawl_state.
  destruct (Nat.eqb_spec (length crawls) (index crawl_state)) as [Heq|Hne].
  - eexists. split; [done|]. split.
    + rewrite length_app. lia.
    + rewrite <- Heq. by rewrite lookup_app_r, Nat.sub_diag.
  - destruct (Nat.ltb_spec (index crawl_state) (length crawls)) as [Hlt|Hge];
      [|lia].
    eexists. split; [done|]. split.
    + by rewrite length_insert.
    + by apply list_lookup_insert_eq.
Qed.

Lemma checkpoint_writes (self : Crawler) (w : World) :
  inherits_store_crawl_state self = true →
  (index (crawl_state w) ≤ length (crawls w))%nat →
  ∃ crawls',
    checkpoint self w
    = Ok {| crawl_state := crawl_state w; crawls := crawls';
            db := db w; prompts := prompts w |}
    ∧ (length (crawls w) ≤ length crawls')%nat
    ∧ crawls' !! index (crawl_state w) = Some (as_stored (crawl_state w)).
Proof.
  intros Hself Hslot.
  destruct (store_crawl_state_writes _ _ Hslot) as (crawls' & Hst & Hlen & Hl).
  exists crawls'. split; [|done].
  unfold checkpoint, store_crawl_state.
  destruct self; [| |done]; by rewrite Hst.
Qed.

(** The loop of a crawler that inherits [store_crawl_state] leaves the
    crawl state as it was, never shortens the collection, and writes the
    state right after each message the handler handled. *)
Lemma iter_messages_checkpoints (self : Crawler) (chat_id : Z)
    (min_date max_date : Bound) (message_handler : MessageHandler)
    (feed : Feed) :
  inherits_store_crawl_state self = true →
  ∀ (w w' : World) (exit : Exit) (events : list Event),
    (index (crawl_state w) ≤ length (crawls w))%nat →
    iter_messages self chat_id min_date max_date message_handler feed w
    = ((exit, w'), events) →
    crawl_state w' = crawl_state w
    ∧ (length (crawls w) ≤ length (crawls w'))%nat
    ∧ ∀ tail, handled_then_written (written w) tail →
              handled_then_written (written w) (events ++ tail).
Proof.
  intros Hself. induction feed as [|m feed IH|e]; intros w w' exit events Hslot.
  - intros [= <- <- <-]. done.
  - simpl.
    destruct (crawl_should_be_stopped self (crawl_state w) m min_date max_date)
      as [[]|e]; [by intros [= <- <- <-] | | by intros [= <- <- <-]].
    destruct (message_should_be_skipped self (crawl_state w) m max_date)
      as [[skip cs]|e] eqn:Hskip; [|by intros [= <- <- <-]].
    apply message_should_be_skipped_keeps_state in Hskip as ->; [|done].
    destruct skip.
    { destruct (iter_messages self chat_id min_date max_date _ feed _)
        as [[exit1 w1] events1] eqn:Hrest.
      intros [= <- <- <-]. apply IH in Hrest; [|done]. done. }
    destruct (handle_message _ m (prompts w) (db w))
      as [[[[status self_message]|e] prompts'] db'];
      [|by intros [= <- <- <-]].
    destruct (check_status_keeps_state
                chat_id (crawl_state w) status
                (message_chat_id self_message)) as [-> | ->].
    + set (w1 := {| crawl_state := crawl_state w; crawls := crawls w;
                    db := db'; prompts := prompts' |}).
      destruct (checkpoint_writes self w1 Hself Hslot)
        as (crawls' & -> & Hlen & _).
      intros [= <- <- <-]. done.
    + set (w1 := {| crawl_state := crawl_state w; crawls := crawls w;
                    db := db'; prompts := prompts' |}).
      destruct (checkpoint_writes self w1 Hself Hslot)
        as (crawls' & -> & Hlen & _).
      simpl in Hlen.
      destruct (iter_messages self chat_id min_date max_date _ feed _)
        as [[exit1 w2] events1] eqn:Hrest.
      intros [= <- <- <-]. apply IH in Hrest; [|simpl; lia].
      destruct Hrest as (Hcs & Hlen2 & Hhtw). simpl in *.
      split; [done|]. split; [lia|].
      intros tail Htail. split; [done|]. by apply Hhtw.
  - intros [= <- <- <-]. done.
Qed.

End PerChat.

Section Checkpoints.
Context `{Collaborators}.
Import Telethon State Models Handlers Crawler Wording.

Lemma handle_chat_events (self : Crawler) (chat_id : Z) (feed : Feed)
    (w : World) :
  ∃ closing,
    (handle_chat self chat_id feed w).2
    = (loop_over_chat self chat_id feed w).2 ++ closing
    ∧ ∀ m status, Handled m status ∉ closing.
Proof.
  unfold handle_chat.
  destruct (loop_over_chat _ _ _ _) as [[exit w'] events]. simpl.
  assert (Hwrote : ∀ (r : (result Z * World) * list Event),
             (r.2 = [] ∨ ∃ slot record, r.2 = [Wrote slot record]) →
             ∀ m status, Handled m status ∉ r.2).
  { intros r [-> | (slot & record & ->)] m status Hin.
    - inversion Hin.
    - apply list_elem_of_singleton in Hin. discriminate. }
  assert (Hprivate : ∀ m status,
             Handled m status ∉ (channel_private self chat_id w').2).
  { apply Hwrote. unfold channel_private.
    destruct (pop0 _); [|by left].
    destruct (checkpoint _ _); [right; unfold written; eauto | by left]. }
  assert (Hdone : ∀ m status,
             Handled m status
             ∉ (chat_done self chat_id (max_date (crawl_state w)) w').2).
  { apply Hwrote. unfold chat_done.
    destruct (pop0 _); [|by left].
    destruct (checkpoint _ _); [right; unfold written; eauto | by left]. }
  destruct exit as [| |e].
  - eexists. split; [reflexivity | exact Hdone].
  - exists []. split; [reflexivity|]. intros m status Hin. inversion Hin.
  - destruct e;
      try (exists []; split; [reflexivity|]; intros m status Hin;
           inversion Hin).
    eexists. split; [reflexivity | exact Hprivate].
Qed.

Lemma handled_then_written_closing (record : Event)
    (closing : list Event) :
  (∀ m status, Handled m status ∉ closing) →
  handled_then_written record closing.
Proof.
  induction closing as [|e closing IH]; intros Hno; [done|].
  assert (Hrest : handled_then_written record closing).
  { apply IH. intros m status Hin. apply (Hno m status). by right. }
  destruct e; simpl; [done| |done].
  exfalso. apply (Hno m status). by left.
Qed.

(** C2 as amended.  For the baseline and the keyword crawler, in both
    labeling modes and with a slot for the state in the collection: the
    event after each message the handler handled, whatever status it
    returned, is the write of the crawl state to its slot, so the write
    comes before the next message is fetched and before [handle_chat]
    returns; a message that [message_should_be_skipped] skips is followed
    by the fetch of the next message, with no write and the same crawl
    state; and a message at which [crawl_should_be_stopped] fires ends
    the loop with no write of its own. *)
Theorem handled_messages_are_checkpointed (self : Crawler) (chat_id : Z)
    (feed : Feed) (w : World) :
  inherits_store_crawl_state self = true →
  (index (crawl_state w) ≤ length (crawls w))%nat →
  handled_then_written (written w) (handle_chat self chat_id feed w).2
  ∧ (∀ (m : Message) (min_date max_date : Bound)
       (message_handler : MessageHandler),
        crawl_should_be_stopped self (crawl_state w) m min_date max_date
        = Ok false →
        (∃ crawl_state',
            message_should_be_skipped self (crawl_state w) m max_date
            = Ok (true, crawl_state')) →
        iter_messages self chat_id min_date max_date message_handler
                      (Next m feed) w
        = emit (Fetched m)
               (iter_messages self chat_id min_date max_date message_handler
                              feed w))
  ∧ (∀ (m : Message) (min_date max_date : Bound)
       (message_handler : MessageHandler),
        crawl_should_be_stopped self (crawl_state w) m min_date max_date
        = Ok true →
        iter_messages self chat_id min_date max_date message_handler
                      (Next m feed) w
        = ((Completed, w), [Fetched m])).
Proof.
  intros Hself Hslot. split; [|split].
  - destruct (handle_chat_events self chat_id feed w)
      as (closing & -> & Hclosing).
    destruct (loop_over_chat self chat_id feed w)
      as [[exit w'] events] eqn:Hiter.
    destruct (iter_messages_checkpoints self chat_id _ _ _ feed Hself
                                        w w' exit events Hslot Hiter)
      as (_ & _ & Hhtw).
    simpl. apply Hhtw. by apply handled_then_written_closing.
  - intros m min_date max_date message_handler Hstop [cs Hskip]. simpl.
    rewrite Hstop, Hskip.
    apply message_should_be_skipped_keeps_state in Hskip as ->; [|done].
    by destruct w.
  - intros m min_date max_date message_handler Hstop. simpl.
    by rewrite Hstop.
Qed.

End Checkpoints.

(** The witness of the amended C2: one message with text, stored without
    labeling, then the end of the chat. *)
Lemma handled_messages_are_checkpointed_witness :
  Wording.handled_then_written
    (Crawler.written Examples.july_world)
    (@Crawler.handle_chat Examples.relevant_collaborators Crawler.Baseline 100
       (Telethon.Next (Examples.with_text 1 "hello") Telethon.EndOfChat)
       Examples.july_world).2
  ∧ (@Crawler.handle_chat Examples.relevant_collaborators Crawler.Baseline 100
       (Telethon.Next (Examples.with_text 1 "hello") Telethon.EndOfChat)
       Examples.july_world).2
    = [Crawler.Fetched (Examples.with_text 1 "hello");
       Crawler.Handled (Examples.with_text 1 "hello")
                       "message stored without labels";
       Crawler.Wrote 0 (State.as_stored Examples.july_crawl);
       Crawler.Wrote 0
         (State.as_stored
            (State.set_chats_to_search []
               (State.set_chats_searched [100] Examples.july_crawl)))].
Proof.
  split.
  - apply (proj1 (@handled_messages_are_checkpointed
                    Examples.relevant_collaborators Crawler.Baseline 100
                    (Telethon.Next (Examples.with_text 1 "hello")
                                   Telethon.EndOfChat)
                    Examples.july_world eq_refl (le_n 0))).
  - vm_compute. reflexivity.
Defined.

(** C2 as stated fails: two messages without text are fetched one after
    the other, and the only write is the one at the end of the chat. *)
Lemma skipped_messages_are_not_checkpointed :
  (@Crawler.handle_chat Examples.relevant_collaborators Crawler.Baseline 100
     (Telethon.Next (Examples.without_text 1)
        (Telethon.Next (Examples.without_text 2) Telethon.EndOfChat))
     Examples.july_world).2
  = [Crawler.Fetched (Examples.without_text 1);
     Crawler.Fetched (Examples.without_text 2);
     Crawler.Wrote 0
       (State.as_stored
          (State.set_chats_to_search []
             (State.set_chats_searched [100] Examples.july_crawl)))]
  ∧ Wording.written_before_next_fetch false
      [Crawler.Fetched (Examples.without_text 1);
       Crawler.Fetched (Examples.without_text 2);
       Crawler.Wrote 0
         (State.as_stored
            (State.set_chats_to_search []
               (State.set_chats_searched [100] Examples.july_crawl)))]
    = false.
Proof. split; vm_compute; reflexivity. Qed.

Section ChatTransitions.
Context `{Collaborators}.
Import Telethon State Models Handlers Crawler Wording.

(** X27.  With the baseline or the keyword crawler, a slot for the state
    and a queue that is not empty: when the loop over the chat raises
    [ChannelPrivateError], [handle_chat] returns 0 and raises nothing;
    the chat id is appended to [chats_not_searchable] (the empty list when
    the key was absent), the front element of [chats_to_search] is
    removed, and the state is written to its slot.  The pass of the
    controller that crawled the chat from the front of the queue ends in
    the next pass, with the chat noted as crawled. *)
Theorem channel_private_is_recorded (self : Crawler) (chat_id : Z)
    (feed : Feed) (w w' : World) (events : list Event)
    (front : Z) (queue : list Z) :
  inherits_store_crawl_state self = true →
  (index (crawl_state w) ≤ length (crawls w))%nat →
  chats_to_search (crawl_state w) = front :: queue →
  loop_over_chat self chat_id feed w
  = ((Raised ChannelPrivateError, w'), events) →
  let recorded :=
    set_chats_to_search queue
      (set_chats_not_searchable
         (Some (default [] (chats_not_searchable (crawl_state w))
                ++ [chat_id]))
         (crawl_state w)) in
  ∃ crawls',
    let w'' := {| crawl_state := recorded; crawls := crawls';
                  db := db w'; prompts := prompts w' |} in
    handle_chat self chat_id feed w
    = ((Ok 0, w''),
       events ++ [Wrote (index (crawl_state w)) (as_stored recorded)])
    ∧ crawls' !! index (crawl_state w) = Some (as_stored recorded)
    ∧ ∀ (feed_of : Z → Feed) (stop_check : list Z),
        front = chat_id → chat_id ∉ stop_check → feed_of chat_id = feed →
        (crawl_pass self feed_of stop_check w).1
        = (NextPass (stop_check ++ [chat_id]), w'').
Proof.
  intros Hself Hslot Hqueue Hiter recorded.
  destruct (iter_messages_checkpoints self chat_id _ _ _ feed Hself
                                      w w' _ events Hslot Hiter)
    as (Hcs & Hlen & _).
  assert (Hdefault :
            match chats_not_searchable (crawl_state w) with
            | Some l => l
            | None => []
            end = default [] (chats_not_searchable (crawl_state w))).
  { by destruct (chats_not_searchable (crawl_state w)). }
  set (w1 := with_crawl_state recorded w').
  destruct (checkpoint_writes self w1 Hself) as (crawls' & Hwrite & _ & Hl).
  { simpl. lia. }
  exists crawls'.
  assert (Hreturn :
            handle_chat self chat_id feed w
            = ((Ok 0, {| crawl_state := recorded; crawls := crawls';
                         db := db w'; prompts := prompts w' |}),
               events
               ++ [Wrote (index (crawl_state w)) (as_stored recorded)])).
  { unfold handle_chat. rewrite Hiter.
    unfold channel_private. rewrite Hcs, Hdefault. simpl.
    rewrite Hqueue. simpl.
    change (checkpoint self _) with (checkpoint self w1).
    by rewrite Hwrite. }
  split; [exact Hreturn|]. split; [exact Hl|].
  intros feed_of stop_check -> Hnew Hfeed.
  unfold crawl_pass. rewrite Hqueue.
  rewrite bool_decide_eq_false_2 by done.
  assert (Hawait : await_handle_chat self chat_id (feed_of chat_id) w
                   = handle_chat self chat_id feed w).
  { rewrite Hfeed. by destruct self. }
  by rewrite Hawait, Hreturn.
Qed.

(** X28.  With the baseline or the keyword crawler, a slot for the state
    and the chat at the front of the queue: when the loop over the chat
    ends without the user's stop and without an exception, [handle_chat]
    returns 0; with a maximum date the chat id has moved from the front
    of [chats_to_search] to the end of [chats_searched], without one it
    has moved from the front to the back of [chats_to_search]; the rest
    of the queue is as before and the state is written to its slot. *)
Theorem chat_done_moves_the_chat (self : Crawler) (chat_id : Z)
    (feed : Feed) (w w' : World) (events : list Event) (queue : list Z) :
  inherits_store_crawl_state self = true →
  (index (crawl_state w) ≤ length (crawls w))%nat →
  chats_to_search (crawl_state w) = chat_id :: queue →
  loop_over_chat self chat_id feed w = ((Completed, w'), events) →
  let moved :=
    match max_date (crawl_state w) with
    | NoBound => set_chats_to_search (queue ++ [chat_id]) (crawl_state w)
    | _ =>
        set_chats_to_search queue
          (set_chats_searched
             (chats_searched (crawl_state w) ++ [chat_id]) (crawl_state w))
    end in
  ∃ crawls',
    handle_chat self chat_id feed w
    = ((Ok 0, {| crawl_state := moved; crawls := crawls';
                 db := db w'; prompts := prompts w' |}),
       events ++ [Wrote (index (crawl_state w)) (as_stored moved)])
    ∧ crawls' !! index (crawl_state w) = Some (as_stored moved).
Proof.
  intros Hself Hslot Hqueue Hiter moved.
  destruct (iter_messages_checkpoints self chat_id _ _ _ feed Hself
                                      w w' _ events Hslot Hiter)
    as (Hcs & Hlen & _).
  unfold handle_chat. rewrite Hiter.
  unfold chat_done. rewrite Hcs. subst moved.
  destruct (max_date (crawl_state w)) as [|s|d]; simpl; rewrite Hqueue; simpl.
  all: set (w1 := with_crawl_state _ _);
    destruct (checkpoint_writes self w1 Hself) as (crawls' & -> & _ & Hl);
    [simpl; lia|];
    exists crawls'; split; [reflexivity | exact Hl].
Qed.

End ChatTransitions.

Lemma channel_private_is_recorded_witness :
  ∃ crawls',
    let recorded :=
      State.set_chats_to_search []
        (State.set_chats_not_searchable (Some [100]) Examples.july_crawl) in
    let w'' := {| Crawler.crawl_state := recorded;
                  Crawler.crawls := crawls';
                  Crawler.db := Examples.empty_store;
                  Crawler.prompts := [] |} in
    @Crawler.handle_chat Examples.relevant_collaborators Crawler.Baseline 100
      (Telethon.Raises ChannelPrivateError) Examples.july_world
    = ((Ok 0, w''), [Crawler.Wrote 0 (State.as_stored recorded)])
    ∧ crawls' !! 0%nat = Some (State.as_stored recorded)
    ∧ ∀ (feed_of : Z → Telethon.Feed) (stop_check : list Z),
        100 = 100 → 100 ∉ stop_check →
        feed_of 100 = Telethon.Raises ChannelPrivateError →
        (@Crawler.crawl_pass Examples.relevant_collaborators Crawler.Baseline
           feed_of stop_check Examples.july_world).1
        = (Crawler.NextPass (stop_check ++ [100]), w'').
Proof.
  exact (@channel_private_is_recorded
           Examples.relevant_collaborators Crawler.Baseline 100
           (Telethon.Raises ChannelPrivateError)
           Examples.july_world Examples.july_world [] 100 []
           eq_refl (le_n 0) eq_refl eq_refl).
Defined.

Lemma chat_done_moves_the_chat_witness :
  ∃ crawls',
    @Crawler.handle_chat Examples.relevant_collaborators Crawler.Baseline 100
      (Telethon.Next (Examples.without_text 1) Telethon.EndOfChat)
      Examples.july_world
    = ((Ok 0,
        {| Crawler.crawl_state :=
             State.set_chats_to_search []
               (State.set_chats_searched [100] Examples.july_crawl);
           Crawler.crawls := crawls';
           Crawler.db := Examples.empty_store;
           Crawler.prompts := [] |}),
       [Crawler.Fetched (Examples.without_text 1);
        Crawler.Wrote 0
          (State.as_stored
             (State.set_chats_to_search []
                (State.set_chats_searched [100] Examples.july_crawl)))])
    ∧ crawls' !! 0%nat
      = Some (State.as_stored
                (State.set_chats_to_search []
                   (State.set_chats_searched [100] Examples.july_crawl))).
Proof.
  exact (@chat_done_moves_the_chat
           Examples.relevant_collaborators Crawler.Baseline 100
           (Telethon.Next (Examples.without_text 1) Telethon.EndOfChat)
           Examples.july_world Examples.july_world
           [Crawler.Fetched (Examples.without_text 1)] []
           eq_refl (le_n 0) eq_refl eq_refl).
Defined.

(** ** The keyword filter *)

Section KeywordFilter.
Context `{Collaborators}.
Import Telethon State Models Handlers Crawler Wording.

Lemma append_cons (c : ascii) (s t : string) :
  String c s +:+ t = String c (s +:+ t).
Proof. reflexivity. Qed.

Lemma append_empty (t : string) : "" +:+ t = t.
Proof. reflexivity. Qed.

Lemma prefix_starts (keyword text : string) :
  String.prefix keyword text = true ↔ ∃ after, text = keyword +:+ after.
Proof.
  revert keyword. induction text as [|c text IH]; intros [|k keyword]; simpl.
  - split; [by exists "" | done].
  - split; [done | by intros [after Hafter]].
  - split; [by exists (String c text) | done].
  - destruct (ascii_dec k c) as [->|Hne].
    + rewrite IH. split; intros [after Hafter]; exists after;
        rewrite append_cons in *; congruence.
    + split; [done|]. intros [after Hafter].
      rewrite append_cons in Hafter. congruence.
Qed.

Lemma str_contains_occurs (keyword text : string) :
  str_contains keyword text = true ↔ occurs_in keyword text.
Proof.
  unfold occurs_in. induction text as [|c text IH].
  - unfold str_contains. rewrite prefix_starts. split.
    + intros [after Hafter]. by exists "", after.
    + intros ([|b before] & after & Hoccurs); [by exists after | done].
  - cbn [str_contains]. rewrite orb_true_iff, prefix_starts, IH. split.
    + intros [[after Hafter] | (before & after & Hoccurs)].
      * by exists "", after.
      * exists (String c before), after.
        by rewrite append_cons, <- Hoccurs.
    + intros ([|b before] & after & Hoccurs).
      * left. by exists after.
      * right. exists before, after.
        rewrite append_cons in Hoccurs. congruence.
Qed.

Lemma no_keyword_occurs (keywords : list string) (text : string) :
  negb (existsb (fun keyword => str_contains keyword text) keywords) = false
  ↔ ∃ keyword, keyword ∈ keywords ∧ occurs_in keyword text.
Proof.
  rewrite negb_false_iff, existsb_exists. split.
  - intros (keyword & Hin & Hcontains). exists keyword.
    split; [by apply list_elem_of_In | by apply str_contains_occurs].
  - intros (keyword & Hin & Hoccurs). exists keyword.
    split; [by apply list_elem_of_In | by apply str_contains_occurs].
Qed.

Lemma keyword_filter_answer (keywords : list string) (m : Message)
    (text : string) (max_date : Bound) :
  message m = Some text →
  KeywordSearchCrawler.message_should_be_skipped keywords m max_date
  = Ok false
  ↔ BaselineCrawler.message_should_be_skipped m max_date = Ok false
    ∧ ∃ keyword, keyword ∈ keywords ∧ occurs_in keyword text.
Proof.
  intros Htext. unfold KeywordSearchCrawler.message_should_be_skipped.
  rewrite Htext.
  destruct (BaselineCrawler.message_should_be_skipped m max_date)
    as [[]|e]; simpl.
  - split; [done | by intros [? _]].
  - rewrite <- no_keyword_occurs. split; [intros [= ->]; done|].
    by intros [_ ->].
  - split; [done | by intros [? _]].
Qed.

(** Every message the keyword crawler hands to the handler holds a
    keyword. *)
Lemma keyword_crawler_handles_keyword_messages (keywords : list string)
    (chat_id : Z) (min_date max_date : Bound)
    (message_handler : MessageHandler) (feed : Feed) (w : World)
    (m : Message) (status : string) :
  Handled m status
  ∈ (iter_messages (KeywordSearch keywords) chat_id min_date max_date
                   message_handler feed w).2 →
  ∃ text keyword,
    message m = Some text ∧ keyword ∈ keywords ∧ occurs_in keyword text.
Proof.
  revert w. induction feed as [|m' feed IH|e]; intros w; simpl;
    [intros Hin; inversion Hin | | intros Hin; inversion Hin].
  destruct (BaselineCrawler.crawl_should_be_stopped m' min_date)
    as [[]|e]; simpl.
  1, 3: intros Hin; apply elem_of_cons in Hin as [Hin|Hin];
    [discriminate | inversion Hin].
  destruct (KeywordSearchCrawler.message_should_be_skipped
              keywords m' max_date) as [[]|e] eqn:Hskip; simpl.
  - intros Hin; apply elem_of_cons in Hin as [Hin|Hin]; [discriminate|].
    by apply IH in Hin.
  - assert (Hkeyword : ∃ text keyword,
               message m' = Some text ∧ keyword ∈ keywords
               ∧ occurs_in keyword text).
    { destruct (message m') as [text|] eqn:Htext.
      - destruct (proj1 (keyword_filter_answer keywords m' text max_date
                                               Htext) Hskip)
          as [_ (keyword & Hin & Hoccurs)]. eauto.
      - unfold KeywordSearchCrawler.message_should_be_skipped,
          BaselineCrawler.message_should_be_skipped in Hskip.
        rewrite Htext in Hskip. discriminate. }
    destruct (handle_message _ m' (prompts w) (db w))
      as [[[[status' self_message]|e] prompts'] db']; simpl.
    2: { intros Hin; apply elem_of_cons in Hin as [Hin|Hin];
           [discriminate | inversion Hin]. }
    intros Hin; apply elem_of_cons in Hin as [Hin|Hin]; [discriminate|].
    apply elem_of_cons in Hin as [Hin|Hin]; [by injection Hin as -> _|].
    destruct (check_status _ _ _ _).
    + destruct (checkpoint _ _); simpl in Hin.
      * apply list_elem_of_singleton in Hin. discriminate.
      * inversion Hin.
    + destruct (checkpoint _ _); simpl in Hin; [|inversion Hin].
      apply elem_of_cons in Hin as [Hin|Hin]; [discriminate|].
      by apply IH in Hin.
    + inversion Hin.
  - intros Hin; apply elem_of_cons in Hin as [Hin|Hin];
      [discriminate | inversion Hin].
Qed.

(** C8.  For a message with a text and a keyword list that is not empty,
    [KeywordSearchCrawler.message_should_be_skipped] answers [False]
    exactly when no baseline skip condition holds and some keyword
    occurs in the text, letter case included; and every message the
    keyword crawler passes to the message handler holds a keyword. *)
Theorem keyword_filter_passes_only_keyword_messages
    (keywords : list string) :
  (∀ (m : Message) (text : string) (max_date : Bound),
      message m = Some text → keywords ≠ [] →
      KeywordSearchCrawler.message_should_be_skipped keywords m max_date
      = Ok false
      ↔ BaselineCrawler.message_should_be_skipped m max_date = Ok false
        ∧ ∃ keyword, keyword ∈ keywords ∧ occurs_in keyword text)
  ∧ (∀ (chat_id : Z) (feed : Feed) (w : World) (m : Message)
       (status : string),
      Handled m status
      ∈ (handle_chat (KeywordSearch keywords) chat_id feed w).2 →
      ∃ text keyword,
        message m = Some text ∧ keyword ∈ keywords
        ∧ occurs_in keyword text).
Proof.
  split.
  - intros m text max_date Htext _. by apply keyword_filter_answer.
  - intros chat_id feed w m status Hin.
    destruct (handle_chat_events (KeywordSearch keywords) chat_id feed w)
      as (closing & Hevents & Hclosing).
    rewrite Hevents in Hin. apply elem_of_app in Hin as [Hin|Hin].
    + by apply keyword_crawler_handles_keyword_messages in Hin.
    + by apply Hclosing in Hin.
Qed.

End KeywordFilter.

Lemma keyword_filter_passes_only_keyword_messages_witness :
  Crawler.KeywordSearchCrawler.message_should_be_skipped
    ["Impf"; "5G"] (Examples.with_text 1 "Die Impfung") State.NoBound
  = Ok false
  ↔ Crawler.BaselineCrawler.message_should_be_skipped
      (Examples.with_text 1 "Die Impfung") State.NoBound = Ok false
    ∧ ∃ keyword, keyword ∈ ["Impf"; "5G"]
                 ∧ Wording.occurs_in keyword "Die Impfung".
Proof.
  apply (proj1 (@keyword_filter_passes_only_keyword_messages
                  Examples.relevant_collaborators ["Impf"; "5G"])
               (Examples.with_text 1 "Die Impfung") "Die Impfung"
               State.NoBound eq_refl).
  discriminate.
Defined.

(** The keyword test is case-sensitive. *)
Lemma keyword_filter_is_case_sensitive :
  Crawler.KeywordSearchCrawler.message_should_be_skipped
    ["Impf"] (Examples.with_text 1 "Die Impfung") State.NoBound = Ok false
  ∧ Crawler.KeywordSearchCrawler.message_should_be_skipped
      ["impf"] (Examples.with_text 1 "Die Impfung") State.NoBound = Ok true.
Proof. split; reflexivity. Qed.

(** ** Failures while a chat is crawled *)

Section Failures.
Context `{Collaborators}.
Import Telethon State Models Handlers Crawler Wording.

Lemma message_without_text_is_skipped (self : Crawler)
    (crawl_state : CrawlState) (m : Message) (max_date : Bound) :
  message m = None →
  message_should_be_skipped self crawl_state m max_date
  = Ok (true, crawl_state).
Proof.
  intros Htext.
  destruct self; simpl;
    unfold BinaryClassifierCrawler.message_should_be_skipped,
      KeywordSearchCrawler.message_should_be_skipped,
      BaselineCrawler.message_should_be_skipped;
    by rewrite Htext.
Qed.

(** C9 as amended.  For every crawler: a message without text is
    skipped and the loop goes on with the next message, the world
    unchanged.  A failure of the classifier or of the message handler
    for one message is not turned into a skip: unless it is
    [ChannelPrivateError] it leaves [handle_chat] as the exception
    raised, and the messages after it are not fetched. *)
Theorem failures_are_not_skipped :
  (∀ (self : Crawler) (chat_id : Z) (min_date max_date : Bound)
     (message_handler : MessageHandler) (m : Message) (feed : Feed)
     (w : World),
      message m = None →
      crawl_should_be_stopped self (crawl_state w) m min_date max_date
      = Ok false →
      iter_messages self chat_id min_date max_date message_handler
                    (Next m feed) w
      = emit (Fetched m)
             (iter_messages self chat_id min_date max_date message_handler
                            feed w))
  ∧ (∀ (base_model model_directory : string) (chat_id : Z) (m : Message)
       (text : string) (feed : Feed) (w : World) (ids : list Z) (e : exn),
      let self := BinaryClassifier base_model model_directory in
      crawl_should_be_stopped self (crawl_state w) m
                              (min_date (crawl_state w))
                              (max_date (crawl_state w))
      = Ok false →
      BaselineCrawler.message_should_be_skipped
        m (max_date (crawl_state w)) = Ok false →
      message m = Some text →
      current_chat_classified_messages_ids (crawl_state w) = Some ids →
      id m ∉ ids →
      classify_message_binary base_model text = Raise e →
      e ≠ ChannelPrivateError →
      handle_chat self chat_id (Next m feed) w
      = ((Raise e, w), [Fetched m]))
  ∧ (∀ (self : Crawler) (chat_id : Z) (m : Message) (feed : Feed)
       (w : World) (crawl_state' : CrawlState) (prompts' : list Answers)
       (db' : Store) (e : exn),
      crawl_should_be_stopped self (crawl_state w) m
                              (min_date (crawl_state w))
                              (max_date (crawl_state w))
      = Ok false →
      message_should_be_skipped self (crawl_state w) m
                                (max_date (crawl_state w))
      = Ok (false, crawl_state') →
      handle_message
        (if no_labeling_mode (crawl_state w) then NoLabeling else Labeling)
        m (prompts w) (db w)
      = (Raise e, prompts', db') →
      e ≠ ChannelPrivateError →
      handle_chat self chat_id (Next m feed) w
      = ((Raise e, {| crawl_state := crawl_state'; crawls := crawls w;
                      db := db'; prompts := prompts' |}),
         [Fetched m])).
Proof.
  split; [|split].
  - intros self chat_id min_date max_date message_handler m feed w
           Htext Hstop. simpl.
    rewrite Hstop, (message_without_text_is_skipped _ _ _ _ Htext).
    by destruct w.
  - intros base_model model_directory chat_id m text feed w ids e self
           Hstop Hbase Htext Hids Hnew Hfails Hother.
    unfold handle_chat, loop_over_chat. simpl. simpl in Hstop. rewrite Hstop.
    unfold BinaryClassifierCrawler.message_should_be_skipped.
    rewrite Hbase, Htext, Hids. simpl.
    rewrite bool_decide_eq_false_2 by done.
    rewrite Hfails. simpl. by destruct e.
  - intros self chat_id m feed w crawl_state' prompts' db' e
           Hstop Hskip Hhandle Hother.
    unfold handle_chat, loop_over_chat. simpl.
    rewrite Hstop, Hskip, Hhandle. simpl.
    by destruct e.
Qed.

End Failures.

(** The witness of the amended C9: the loop over a message without text
    and the end of the chat is the fetch of that message and then the loop
    over the end of the chat. *)
Lemma failures_are_not_skipped_witness :
  @Crawler.iter_messages Examples.failing_collaborators
    (Crawler.BinaryClassifier "bert" "models/bert") 100
    State.NoBound State.NoBound Crawler.NoLabeling
    (Telethon.Next (Examples.without_text 1) Telethon.EndOfChat)
    Examples.july_world
  = Crawler.emit (Crawler.Fetched (Examples.without_text 1))
      (@Crawler.iter_messages Examples.failing_collaborators
         (Crawler.BinaryClassifier "bert" "models/bert") 100
         State.NoBound State.NoBound Crawler.NoLabeling
         Telethon.EndOfChat Examples.july_world).
Proof.
  exact (proj1 (@failures_are_not_skipped Examples.failing_collaborators)
               (Crawler.BinaryClassifier "bert" "models/bert") 100
               State.NoBound State.NoBound Crawler.NoLabeling
               (Examples.without_text 1)
               Telethon.EndOfChat Examples.july_world eq_refl eq_refl).
Defined.

(** C9 as stated fails: the classifier fails on the first of two
    messages; [handle_chat] raises that failure, the message is not
    treated as skipped and the second message is never fetched. *)
Lemma classifier_failure_aborts_handle_chat :
  (@Crawler.handle_chat Examples.failing_collaborators
     (Crawler.BinaryClassifier "bert" "models/bert") 100
     (Telethon.Next (Examples.with_text 1 "hello")
        (Telethon.Next (Examples.with_text 2 "world") Telethon.EndOfChat))
     Examples.july_world)
  = ((Raise (CollaboratorError "classifier"), Examples.july_world),
     [Crawler.Fetched (Examples.with_text 1 "hello")]).
Proof. vm_compute. reflexivity. Qed.

(** ** The chats of a crawl *)

Section ChatLists.
Context `{Collaborators}.
Import Telethon State Models Handlers Crawler Wording Views.

Lemma differs_in_classified_ids_refl (c : CrawlState) :
  differs_in_classified_ids c c.
Proof. by destruct c. Qed.

Lemma differs_in_classified_ids_trans (a b c : CrawlState) :
  differs_in_classified_ids a b → differs_in_classified_ids b c →
  differs_in_classified_ids a c.
Proof.
  unfold differs_in_classified_ids. intros -> ->. by destruct a.
Qed.

Lemma message_should_be_skipped_differs (self : Crawler)
    (crawl_state crawl_state' : CrawlState) (m : Message) (max_date : Bound)
    (skip : bool) :
  message_should_be_skipped self crawl_state m max_date
  = Ok (skip, crawl_state') →
  differs_in_classified_ids crawl_state crawl_state'.
Proof.
  destruct self as [|keywords|base_model model_directory]; simpl.
  - destruct (BaselineCrawler.message_should_be_skipped m max_date);
      simpl; [|done]. intros [= _ <-]. apply differs_in_classified_ids_refl.
  - destruct (KeywordSearchCrawler.message_should_be_skipped _ m max_date);
      simpl; [|done]. intros [= _ <-]. apply differs_in_classified_ids_refl.
  - unfold BinaryClassifierCrawler.message_should_be_skipped.
    destruct (BaselineCrawler.message_should_be_skipped m max_date)
      as [[]|]; simpl; [| |done].
    { intros [= _ <-]. apply differs_in_classified_ids_refl. }
    destruct (message m); [|intros [= _ <-];
                            apply differs_in_classified_ids_refl].
    destruct (current_chat_classified_messages_ids crawl_state)
      as [ids|] eqn:Hids; [|done].
    destruct (bool_decide (id m ∈ ids)).
    { intros [= _ <-]. apply differs_in_classified_ids_refl. }
    destruct (classify_message_binary base_model s); simpl; [|done].
    destruct (String.eqb a "irrelevant"); intros [= _ <-].
    + by destruct crawl_state.
    + apply differs_in_classified_ids_refl.
Qed.

Lemma checkpoint_keeps_crawl_state (self : Crawler) (w w' : World) :
  checkpoint self w = Ok w' →
  crawl_state w' = crawl_state w ∧ db w' = db w ∧ prompts w' = prompts w.
Proof.
  unfold checkpoint.
  destruct (store_crawl_state self (crawl_state w) (crawls w)); simpl;
    [|done]. by intros [= <-].
Qed.

(** The loop changes nothing in the crawl state but the classified
    ids. *)
Lemma iter_messages_differs (self : Crawler) (chat_id : Z)
    (min_date max_date : Bound) (message_handler : MessageHandler)
    (feed : Feed) (w : World) :
  differs_in_classified_ids
    (crawl_state w)
    (crawl_state (iter_messages self chat_id min_date max_date
                                message_handler feed w).1.2).
Proof.
  revert w. induction feed as [|m feed IH|e]; intros w; simpl;
    [apply differs_in_classified_ids_refl | |
     apply differs_in_classified_ids_refl].
  destruct (crawl_should_be_stopped self (crawl_state w) m min_date max_date)
    as [[]|e]; simpl; try apply differs_in_classified_ids_refl.
  destruct (message_should_be_skipped self (crawl_state w) m max_date)
    as [[skip cs]|e] eqn:Hskip; simpl;
    [|apply differs_in_classified_ids_refl].
  apply message_should_be_skipped_differs in Hskip.
  destruct skip; simpl.
  { eapply differs_in_classified_ids_trans; [exact Hskip|]. apply IH. }
  destruct (handle_message message_handler m (prompts w) (db w))
    as [[[[status self_message]|e] prompts'] db']; simpl; [|done].
  destruct (check_status_keeps_state
              chat_id cs status (message_chat_id self_message))
    as [-> | ->]; simpl.
  - destruct (checkpoint self _) as [w1|e] eqn:Hwrite; simpl; [|done].
    apply checkpoint_keeps_crawl_state in Hwrite as (-> & _). done.
  - destruct (checkpoint self _) as [w1|e] eqn:Hwrite; simpl; [|done].
    apply checkpoint_keeps_crawl_state in Hwrite as (Hcs & _).
    eapply differs_in_classified_ids_trans; [exact Hskip|].
    simpl in Hcs. rewrite <- Hcs. apply IH.
Qed.

End ChatLists.

Section ChatListsOutcome.
Context `{Collaborators}.
Import Telethon State Models Handlers Crawler Wording Views.

Lemma handle_chat_files (self : Crawler) (chat_id : Z) (queue : list Z)
    (feed : Feed) (w : World) :
  chats_to_search (crawl_state w) = chat_id :: queue →
  ∃ base,
    differs_in_classified_ids (crawl_state w) base
    ∧ Filed chat_id queue base
            (handle_chat self chat_id feed w).1.1
            (crawl_state (handle_chat self chat_id feed w).1.2).
Proof.
  intros Hqueue. unfold handle_chat, loop_over_chat.
  pose proof (iter_messages_differs
                self chat_id (min_date (crawl_state w))
                (max_date (crawl_state w))
                (if no_labeling_mode (crawl_state w)
                 then NoLabeling else Labeling) feed w) as Hbase.
  destruct (iter_messages _ _ _ _ _ _ _) as [[exit w1] events].
  simpl in Hbase. exists (crawl_state w1). split; [exact Hbase|].
  assert (Hq1 : chats_to_search (crawl_state w1) = chat_id :: queue).
  { rewrite Hbase. simpl. exact Hqueue. }
  assert (Hmax : max_date (crawl_state w1) = max_date (crawl_state w)).
  { by rewrite Hbase. }
  assert (Hdefault :
            match chats_not_searchable (crawl_state w1) with
            | Some l => l
            | None => []
            end = default [] (chats_not_searchable (crawl_state w1))).
  { by destruct (chats_not_searchable (crawl_state w1)). }
  destruct exit as [| |e]; simpl.
  - unfold chat_done. rewrite <- Hmax.
    destruct (max_date (crawl_state w1)) as [|s|d] eqn:Hbound; simpl;
      rewrite Hq1; simpl.
    + assert (Hfiled : ∀ r, returns_or_raises 0 r →
                Filed chat_id queue (crawl_state w1) r
                      (set_chats_to_search (queue ++ [chat_id])
                         (set_chats_to_search (chat_id :: queue ++ [chat_id])
                                              (crawl_state w1)))).
      { intros r Hr.
        change (Filed chat_id queue (crawl_state w1) r
                      (set_chats_to_search (queue ++ [chat_id])
                                           (crawl_state w1))).
        by apply FiledForLater. }
      destruct (checkpoint self _) as [w2|e] eqn:Hwrite; simpl.
      * apply checkpoint_keeps_crawl_state in Hwrite as (-> & _).
        apply Hfiled. by left.
      * apply Hfiled. right. eauto.
    + assert (Hfiled : ∀ r, returns_or_raises 0 r →
                Filed chat_id queue (crawl_state w1) r
                      (set_chats_to_search queue
                         (set_chats_searched
                            (chats_searched (crawl_state w1) ++ [chat_id])
                            (crawl_state w1)))).
      { intros r Hr. apply (FiledSearched chat_id queue _ r); [done|].
        by rewrite Hbound. }
      destruct (checkpoint self _) as [w2|e] eqn:Hwrite; simpl.
      * apply checkpoint_keeps_crawl_state in Hwrite as (-> & _).
        apply Hfiled. by left.
      * apply Hfiled. right. eauto.
    + assert (Hfiled : ∀ r, returns_or_raises 0 r →
                Filed chat_id queue (crawl_state w1) r
                      (set_chats_to_search queue
                         (set_chats_searched
                            (chats_searched (crawl_state w1) ++ [chat_id])
                            (crawl_state w1)))).
      { intros r Hr. apply (FiledSearched chat_id queue _ r); [done|].
        by rewrite Hbound. }
      destruct (checkpoint self _) as [w2|e] eqn:Hwrite; simpl.
      * apply checkpoint_keeps_crawl_state in Hwrite as (-> & _).
        apply Hfiled. by left.
      * apply Hfiled. right. eauto.
  - apply FiledNowhere. by left.
  - destruct e; simpl; try (apply FiledNowhere; right; eauto).
    unfold channel_private. simpl. rewrite Hq1, Hdefault. simpl.
    assert (Hfiled : ∀ r, returns_or_raises 0 r →
              Filed chat_id queue (crawl_state w1) r
                    (set_chats_to_search queue
                       (set_chats_not_searchable
                          (Some (default []
                                   (chats_not_searchable (crawl_state w1))
                                 ++ [chat_id]))
                          (crawl_state w1)))).
    { intros r Hr. by apply (FiledNotSearchable chat_id queue _ r). }
    destruct (checkpoint self _) as [w2|e] eqn:Hwrite; simpl.
    + apply checkpoint_keeps_crawl_state in Hwrite as (-> & _).
      apply Hfiled. by left.
    + apply Hfiled. right. eauto.
Qed.

End ChatListsOutcome.

Section ChatMoves.
Context `{Collaborators}.
Import Telethon State Models Handlers Crawler Wording Views.

Lemma all_chats_differs (c c' : CrawlState) :
  differs_in_classified_ids c c' → all_chats c' = all_chats c.
Proof. by intros ->. Qed.

Lemma chats_to_search_differs (c c' : CrawlState) :
  differs_in_classified_ids c c' → chats_to_search c' = chats_to_search c.
Proof. by intros ->. Qed.

Lemma filed_rearranges (chat_id : Z) (queue : list Z) (base c' : CrawlState)
    (r : result Z) :
  chats_to_search base = chat_id :: queue →
  Filed chat_id queue base r c' →
  all_chats c' ≡ₚ all_chats base.
Proof.
  intros Hqueue Hfiled. unfold all_chats.
  destruct Hfiled; simpl; rewrite Hqueue; simpl.
  - done.
  - rewrite !app_assoc. symmetry. apply Permutation_cons_append.
  - rewrite <- (app_assoc _ [chat_id]). simpl. rewrite !app_assoc.
    symmetry. apply Permutation_middle.
  - rewrite <- app_assoc. simpl. symmetry. apply Permutation_middle.
Qed.

Lemma filed_queue (chat_id : Z) (queue : list Z) (base c' : CrawlState)
    (r : result Z) :
  chats_to_search base = chat_id :: queue →
  Filed chat_id queue base r c' →
  ∀ x, x ∈ chats_to_search c' → x ∈ chat_id :: queue.
Proof.
  intros Hqueue Hfiled x. destruct Hfiled; simpl.
  - by rewrite Hqueue.
  - by right.
  - by right.
  - intros Hx. apply elem_of_app in Hx as [Hx|Hx]; [by right|].
    apply list_elem_of_singleton in Hx as ->. by left.
Qed.

(** The call of the controller files the chat like [handle_chat]. *)
Lemma await_handle_chat_files (self : Crawler) (chat_id : Z)
    (queue : list Z) (feed : Feed) (w : World) :
  chats_to_search (crawl_state w) = chat_id :: queue →
  ∃ base,
    chats_to_search base = chat_id :: queue
    ∧ all_chats base = all_chats (crawl_state w)
    ∧ (identity base = identity (crawl_state w)
       ∧ finished base = finished (crawl_state w))
    ∧ Filed chat_id queue base
            (await_handle_chat self chat_id feed w).1.1
            (crawl_state (await_handle_chat self chat_id feed w).1.2).
Proof.
  intros Hqueue.
  assert (Hplain : ∀ w0, chats_to_search (crawl_state w0) = chat_id :: queue →
            ∃ base,
              chats_to_search base = chat_id :: queue
              ∧ all_chats base = all_chats (crawl_state w0)
              ∧ (identity base = identity (crawl_state w0)
                 ∧ finished base = finished (crawl_state w0))
              ∧ Filed chat_id queue base
                      (handle_chat self chat_id feed w0).1.1
                      (crawl_state (handle_chat self chat_id feed w0).1.2)).
  { intros w0 Hq0.
    destruct (handle_chat_files self chat_id queue feed w0 Hq0)
      as (base & Hbase & Hfiled).
    exists base. split; [|split; [|split]]; [| | |exact Hfiled].
    - by rewrite (chats_to_search_differs _ _ Hbase).
    - by apply all_chats_differs.
    - by rewrite Hbase. }
  destruct self as [|keywords|base_model model_directory]; simpl;
    [by apply Hplain | by apply Hplain |].
  unfold note_classified.
  set (until := match classified_chat_until (crawl_state w) with
                | Some until => until
                | None => ∅
                end).
  destruct (current_chat_classified_messages_ids
              (set_classified_chat_until (Some until) (crawl_state w)))
    as [[|first ids]|] eqn:Hids; simpl.
  - destruct (Hplain (with_crawl_state
                        (set_classified_chat_until (Some until)
                                                   (crawl_state w)) w))
      as (base & ? & ? & ? & ?); [done|]. by exists base.
  - destruct (Hplain (with_crawl_state
                        (set_current_chat_classified_messages_ids (Some [])
                           (set_classified_chat_until
                              (Some (<[str_int chat_id := first]> until))
                              (set_classified_chat_until (Some until)
                                                         (crawl_state w))))
                        w))
      as (base & ? & ? & ? & ?); [done|]. by exists base.
  - exists (set_classified_chat_until (Some until) (crawl_state w)).
    split; [done|]. split; [done|]. split; [done|].
    apply FiledNowhere. right. eauto.
Qed.

End ChatMoves.

(** ** The controller's loop *)

Section Runs.
Context `{Collaborators}.
Import Telethon State Models Handlers Crawler Wording Views.

Lemma filed_identity (chat_id : Z) (queue : list Z) (base c' : CrawlState)
    (r : result Z) :
  Filed chat_id queue base r c' →
  identity c' = identity base ∧ finished c' = finished base.
Proof. by intros []. Qed.

(** One pass of the loop: the chats are rearranged, and the queue after
    the pass is the queue before it, possibly without its front or with
    its front moved to the back. *)
Lemma crawl_pass_cases (self : Crawler) (feed_of : Z → Feed)
    (stop_check : list Z) (w : World) :
  let cs := crawl_state w in
  let cs' := crawl_state (crawl_pass self feed_of stop_check w).1.2 in
  all_chats cs' ≡ₚ all_chats cs
  ∧ (identity cs' = identity cs ∧ finished cs' = finished cs)
  ∧ match (crawl_pass self feed_of stop_check w).1.1 with
    | NextPass stop_check' =>
        ∃ chat_id queue,
          chats_to_search cs = chat_id :: queue
          ∧ (chat_id ∉ stop_check)
          ∧ stop_check' = stop_check ++ [chat_id]
          ∧ (chats_to_search cs' = queue
             ∨ (max_date cs = NoBound
                ∧ chats_to_search cs' = queue ++ [chat_id]))
    | LoopEnds no_new_messages =>
        (crawl_pass self feed_of stop_check w).1.2 = w
        ∧ if no_new_messages
          then ∃ chat_id queue,
                 chats_to_search cs = chat_id :: queue
                 ∧ chat_id ∈ stop_check
          else chats_to_search cs = []
    | CrawlStopped =>
        chats_to_search cs' = chats_to_search cs
        ∧ chats_to_search cs ≠ []
        ∧ ∃ chat_id,
            (await_handle_chat self chat_id (feed_of chat_id) w).1.1 = Ok 1
            ∧ (∃ queue, chats_to_search cs = chat_id :: queue)
            ∧ (crawl_pass self feed_of stop_check w).1.2
              = (await_handle_chat self chat_id (feed_of chat_id) w).1.2
    | PassRaised _ => True
    end.
Proof.
  unfold crawl_pass.
  destruct (chats_to_search (crawl_state w)) as [|chat_id queue] eqn:Hqueue;
    simpl; [done|].
  destruct (decide (chat_id ∈ stop_check)) as [Hin|Hnew].
  { rewrite (bool_decide_eq_true_2 _ Hin). simpl. eauto 10. }
  rewrite (bool_decide_eq_false_2 _ Hnew).
  destruct (await_handle_chat_files self chat_id queue (feed_of chat_id) w
                                    Hqueue)
    as (base & Hbq & Hball & [Hbid Hbfin] & Hfiled).
  pose proof (filed_rearranges chat_id queue base _ _ Hbq Hfiled) as Hperm.
  pose proof (filed_identity chat_id queue base _ _ Hfiled) as [Hid Hfin].
  rewrite Hball in Hperm. rewrite Hbid in Hid. rewrite Hbfin in Hfin.
  assert (Hbmax : max_date base = max_date (crawl_state w)).
  { by injection Hbid. }
  destruct (await_handle_chat self chat_id (feed_of chat_id) w)
    as [[r w'] events] eqn:Hcall. simpl in *.
  destruct r as [v|e]; simpl.
  2: { done. }
  destruct (Z.eqb_spec v 1) as [->|Hv]; simpl.
  - split; [done|]. split; [done|].
    inversion Hfiled as [r Hr| r [Hr|[e Hr]] | r [Hr|[e Hr]] | r [Hr|[e Hr]]];
      subst; try discriminate. rewrite Hbq. repeat split; [done|].
    exists chat_id. rewrite Hcall. eauto.
  - split; [done|]. split; [done|].
    exists chat_id, queue. repeat split; [done|].
    inversion Hfiled
      as [r [Hr|[e Hr]] | r Hr | r Hr Hb | r Hr Hb]; subst;
      try discriminate; simpl.
    + congruence.
    + by left.
    + by left.
    + right. by rewrite <- Hbmax.
Qed.

(** The loop ends once every chat of the queue has been crawled: a stop
    list without duplicates, inside the chats of the queue, cannot grow
    past them. *)
Lemma crawl_passes_end (self : Crawler) (feed_of : Z → Feed)
    (universe : list Z) (fuel : nat) :
  ∀ (stop_check : list Z) (w : World),
    NoDup stop_check →
    (∀ x, x ∈ stop_check → x ∈ universe) →
    (∀ x, x ∈ chats_to_search (crawl_state w) → x ∈ universe) →
    (length universe < fuel + length stop_check)%nat →
    ∀ stop_check',
      (crawl_passes fuel self feed_of stop_check w).1.1
      ≠ NextPass stop_check'.
Proof.
  induction fuel as [|fuel IH]; intros stop_check w Hnodup Hsub Hqueue Hfuel.
  - exfalso.
    assert (stop_check ⊆+ universe) as Hle%submseteq_length
      by by apply NoDup_submseteq.
    simpl in Hfuel. lia.
  - intros stop_check'. simpl.
    pose proof (crawl_pass_cases self feed_of stop_check w)
      as (Hperm & Hmax & Hpass).
    destruct (crawl_pass self feed_of stop_check w) as [[pass w'] events].
    simpl in *.
    destruct pass as [b| |sc|e]; simpl; try done.
    destruct Hpass as (chat_id & queue & Hq & Hnew & -> & Hq').
    apply IH.
    + apply NoDup_app. split; [done|]. split; [|apply NoDup_singleton].
      intros x Hx Hx'. apply list_elem_of_singleton in Hx' as ->. done.
    + intros x Hx. apply elem_of_app in Hx as [Hx|Hx]; [by apply Hsub|].
      apply list_elem_of_singleton in Hx as ->. apply Hqueue.
      rewrite Hq. by left.
    + intros x Hx. apply Hqueue. rewrite Hq.
      destruct Hq' as [Hq'|[_ Hq']]; rewrite Hq' in Hx.
      * by right.
      * apply elem_of_app in Hx as [Hx|Hx]; [by right|].
        apply list_elem_of_singleton in Hx as ->. by left.
    + rewrite length_app. simpl. lia.
Qed.

(** The passes of the loop rearrange the chats and keep the crawl's
    identity and its [finished] entry. *)
Lemma crawl_passes_rearrange (self : Crawler) (feed_of : Z → Feed)
    (fuel : nat) :
  ∀ (stop_check : list Z) (w : World),
    let cs' := crawl_state (crawl_passes fuel self feed_of stop_check w).1.2
    in
    all_chats cs' ≡ₚ all_chats (crawl_state w)
    ∧ identity cs' = identity (crawl_state w)
    ∧ finished cs' = finished (crawl_state w).
Proof.
  induction fuel as [|fuel IH]; intros stop_check w; simpl; [done|].
  pose proof (crawl_pass_cases self feed_of stop_check w)
    as (Hperm & [Hid Hfin] & _).
  destruct (crawl_pass self feed_of stop_check w) as [[pass w'] events].
  simpl in *.
  destruct pass as [b| |sc|e]; simpl; try done.
  destruct (IH sc w') as (Hperm' & Hid' & Hfin').
  split; [by etrans|]. split; congruence.
Qed.

(** How the loop can end. *)
Lemma crawl_passes_exit (self : Crawler) (feed_of : Z → Feed) (fuel : nat) :
  ∀ (stop_check : list Z) (w : World),
    let w' := (crawl_passes fuel self feed_of stop_check w).1.2 in
    match (crawl_passes fuel self feed_of stop_check w).1.1 with
    | LoopEnds no_new_messages =>
        if no_new_messages
        then chats_to_search (crawl_state w') ≠ []
        else chats_to_search (crawl_state w') = []
    | CrawlStopped =>
        chats_to_search (crawl_state w') ≠ []
        ∧ ∃ w0 chat_id,
            (await_handle_chat self chat_id (feed_of chat_id) w0).1.1 = Ok 1
            ∧ no_labeling_mode (crawl_state w0)
              = no_labeling_mode (crawl_state w)
            ∧ (∃ queue,
                 chats_to_search (crawl_state w0) = chat_id :: queue
                 ∧ chats_to_search (crawl_state w') = chat_id :: queue)
            ∧ w' = (await_handle_chat self chat_id (feed_of chat_id) w0).1.2
    | _ => True
    end.
Proof.
  induction fuel as [|fuel IH]; intros stop_check w; simpl; [done|].
  pose proof (crawl_pass_cases self feed_of stop_check w)
    as (_ & [Hid _] & Hpass).
  destruct (crawl_pass self feed_of stop_check w) as [[pass w'] events].
  simpl in *.
  destruct pass as [b| |sc|e]; simpl; try done.
  - destruct Hpass as [-> Hpass]. destruct b; [|done].
    destruct Hpass as (chat_id & queue & -> & _). done.
  - destruct Hpass as (Hsame & Hne & chat_id & Hcall & [queue Hq] & Hw').
    split; [by rewrite Hsame|]. exists w, chat_id.
    split; [done|]. split; [done|]. split; [|done].
    exists queue. by rewrite Hsame.
  - specialize (IH sc w'). simpl in IH.
    destruct (crawl_passes fuel self feed_of sc w') as [[pass w''] events'].
    simpl in *. destruct pass as [b| |sc'|e]; try done.
    destruct IH as (Hne & w0 & chat_id & Hcall & Hmode & Hq & Hw'').
    split; [done|]. exists w0, chat_id. split; [done|].
    split; [|done]. rewrite Hmode. by injection Hid.
Qed.

End Runs.

Section Unattended.
Context `{Collaborators}.
Import Telethon State Models Handlers Crawler Wording Views.

(** Without labeling no status stops the crawl. *)
Lemma iter_messages_no_labeling (self : Crawler) (chat_id : Z)
    (min_date max_date : Bound) (message_handler : MessageHandler)
    (feed : Feed) :
  ∀ w : World,
    no_labeling_mode (crawl_state w) = true →
    (iter_messages self chat_id min_date max_date message_handler feed w).1.1
    ≠ Returned1.
Proof.
  induction feed as [|m feed IH|e]; intros w Hmode; simpl; [done| |done].
  destruct (crawl_should_be_stopped self (crawl_state w) m min_date max_date)
    as [[]|e]; simpl; try done.
  destruct (message_should_be_skipped self (crawl_state w) m max_date)
    as [[skip cs]|e] eqn:Hskip; simpl; [|done].
  apply message_should_be_skipped_differs in Hskip.
  assert (Hcs : no_labeling_mode cs = true) by by rewrite Hskip.
  destruct skip; simpl; [by apply IH|].
  destruct (handle_message message_handler m (prompts w) (db w))
    as [[[[status self_message]|e] prompts'] db']; simpl; [|done].
  unfold check_status. rewrite Hcs. simpl.
  destruct (checkpoint self _) as [w1|e] eqn:Hwrite; simpl; [|done].
  apply checkpoint_keeps_crawl_state in Hwrite as (Hw1 & _).
  apply IH. by rewrite Hw1.
Qed.

Lemma await_handle_chat_no_labeling (self : Crawler) (chat_id : Z)
    (feed : Feed) (w : World) :
  no_labeling_mode (crawl_state w) = true →
  (await_handle_chat self chat_id feed w).1.1 ≠ Ok 1.
Proof.
  intros Hmode.
  assert (Hplain : ∀ w0, no_labeling_mode (crawl_state w0) = true →
            (handle_chat self chat_id feed w0).1.1 ≠ Ok 1).
  { intros w0 Hmode0. unfold handle_chat, loop_over_chat.
    pose proof (iter_messages_no_labeling
                  self chat_id (min_date (crawl_state w0))
                  (max_date (crawl_state w0))
                  (if no_labeling_mode (crawl_state w0)
                   then NoLabeling else Labeling) feed w0 Hmode0) as Hexit.
    destruct (iter_messages _ _ _ _ _ _ _) as [[exit w1] events].
    simpl in *. destruct exit as [| |e]; simpl; [|done|].
    - unfold chat_done.
      destruct (pop0 _); simpl; [|done].
      by destruct (checkpoint self _).
    - destruct e; simpl; try done. unfold channel_private.
      destruct (pop0 _); simpl; [|done].
      by destruct (checkpoint self _). }
  destruct self as [|keywords|base_model model_directory]; simpl;
    [by apply Hplain | by apply Hplain |].
  unfold note_classified.
  destruct (current_chat_classified_messages_ids _) as [[|first ids]|];
    simpl; [by apply Hplain | by apply Hplain | done].
Qed.

End Unattended.
(** ** Runs of the controller *)

Section WholeRuns.
Context `{Collaborators}.
Import Telethon State Models Handlers Crawler Wording Views.

Lemma checkpoint_slot (self : Crawler) (w w' : World) :
  checkpoint self w = Ok w' →
  crawl_state w' = crawl_state w
  ∧ crawls w' !! index (crawl_state w) = Some (as_stored (crawl_state w)).
Proof.
  unfold checkpoint.
  destruct (store_crawl_state self (crawl_state w) (crawls w))
    as [crawls'|e] eqn:Hstore; simpl; [|done].
  intros [= <-]. simpl. split; [done|].
  destruct self; simpl in Hstore; try done;
    unfold BaselineCrawler.store_crawl_state in Hstore;
    destruct (Nat.eqb_spec (length (crawls w)) (index (crawl_state w)))
      as [Heq|Hne];
    try (injection Hstore as <-; rewrite <- Heq;
         by rewrite lookup_app_r, Nat.sub_diag);
    destruct (Nat.ltb_spec (index (crawl_state w)) (length (crawls w)));
    try done; injection Hstore as <-; by apply list_lookup_insert_eq.
Qed.

(** X1.  [handle_chat], awaited on the chat at the front of the queue,
    loses no chat and invents none: whatever the chat yields and whatever
    the crawler, the queue, the chats searched and the chats not
    searchable hold afterwards the chats they held before, each as often;
    and the slot, the seed chats, the dates, the mode, the
    crawler-specific properties, the start time and the [finished] entry
    of the crawl state are untouched. *)
Theorem handle_chat_rearranges_chats (self : Crawler) (chat_id : Z)
    (queue : list Z) (feed : Feed) (w : World) :
  chats_to_search (crawl_state w) = chat_id :: queue →
  let crawl_state' :=
    crawl_state (await_handle_chat self chat_id feed w).1.2 in
  all_chats crawl_state' ≡ₚ all_chats (crawl_state w)
  ∧ identity crawl_state' = identity (crawl_state w)
  ∧ finished crawl_state' = finished (crawl_state w).
Proof.
  intros Hqueue.
  destruct (await_handle_chat_files self chat_id queue feed w Hqueue)
    as (base & Hbq & Hball & [Hbid Hbfin] & Hfiled).
  pose proof (filed_rearranges chat_id queue base _ _ Hbq Hfiled) as Hperm.
  pose proof (filed_identity chat_id queue base _ _ Hfiled) as [Hid Hfin].
  simpl. rewrite Hperm, Hball, Hid, Hfin. done.
Qed.

(** X2.  [start_or_resume_crawl] comes to an end: with more passes
    allowed than the queue holds chats, the loop is left and the call
    returns or raises, whatever the chats yield and also without a
    maximum date, when every crawled chat goes back into the queue. *)
Theorem start_or_resume_crawl_ends (fuel : nat) (self : Crawler)
    (feed_of : Z → Feed) (now : string) (w : World) :
  (length (chats_to_search (crawl_state w)) < fuel)%nat →
  is_Some (start_or_resume_crawl fuel self feed_of now w).
Proof.
  intros Hfuel. unfold start_or_resume_crawl.
  pose proof (crawl_passes_end self feed_of
                (chats_to_search (crawl_state w)) fuel [] w
                (NoDup_nil_2) ltac:(by intros x ?%elem_of_nil)
                ltac:(done) ltac:(simpl; lia)) as Hends.
  destruct (crawl_passes fuel self feed_of [] w) as [[pass w'] events].
  simpl in Hends.
  destruct pass as [b| |sc|e]; [| |by destruct (Hends sc)|done].
  - by destruct (checkpoint self _).
  - by destruct (checkpoint self _).
Qed.

(** X3.  A whole run of [start_or_resume_crawl] loses no chat: when it
    returns or raises, the three chat lists of the crawl state hold the
    chats they held at the start, each as often, and the crawl is the
    same crawl. *)
Theorem start_or_resume_crawl_rearranges_chats (fuel : nat) (self : Crawler)
    (feed_of : Z → Feed) (now : string) (w w' : World)
    (r : result unit) (events : list Event) :
  start_or_resume_crawl fuel self feed_of now w = Some ((r, w'), events) →
  all_chats (crawl_state w') ≡ₚ all_chats (crawl_state w)
  ∧ identity (crawl_state w') = identity (crawl_state w).
Proof.
  unfold start_or_resume_crawl.
  pose proof (crawl_passes_rearrange self feed_of fuel [] w)
    as (Hperm & Hid & _).
  destruct (crawl_passes fuel self feed_of [] w) as [[pass w1] events1].
  simpl in *.
  assert (Hfinish : ∀ b : bool,
            match
              checkpoint self
                (with_crawl_state
                   (if (length (chats_to_search (crawl_state w1)) =? 0)%nat
                       || b
                    then set_finished (Some now) (crawl_state w1)
                    else crawl_state w1) w1)
            with
            | Ok w0 => Some (Ok (), w0, events1 ++ [written w0])
            | Raise e =>
                Some
                  (Raise e,
                   with_crawl_state
                     (if (length (chats_to_search (crawl_state w1)) =? 0)%nat
                         || b
                      then set_finished (Some now) (crawl_state w1)
                      else crawl_state w1) w1, events1)
            end = Some (r, w', events) →
            all_chats (crawl_state w') ≡ₚ all_chats (crawl_state w)
            ∧ identity (crawl_state w') = identity (crawl_state w)).
  { intros b.
    destruct (checkpoint self _) as [w2|e] eqn:Hwrite.
    - apply checkpoint_slot in Hwrite as [Hcs _]. intros [= _ <- _].
      rewrite Hcs. simpl. rewrite <- Hperm, <- Hid.
      by destruct (_ || _).
    - intros [= _ <- _]. simpl. rewrite <- Hperm, <- Hid.
      by destruct (_ || _). }
  destruct pass as [b| |sc|e]; [apply Hfinish | apply Hfinish | done |].
  by intros [= _ <- _].
Qed.

(** X4.  A run without labeling that returns has finished the crawl: no
    status stops it, so the loop was left because the queue was empty or
    its front chat had been crawled in this run, and the state stored in
    the crawl's slot carries the time of the call as [finished]. *)
Theorem unattended_crawl_is_finished (fuel : nat) (self : Crawler)
    (feed_of : Z → Feed) (now : string) (w w' : World)
    (events : list Event) :
  no_labeling_mode (crawl_state w) = true →
  start_or_resume_crawl fuel self feed_of now w
  = Some ((Ok tt, w'), events) →
  finished (crawl_state w') = Some now
  ∧ crawls w' !! index (crawl_state w')
    = Some (as_stored (crawl_state w')).
Proof.
  intros Hmode. unfold start_or_resume_crawl.
  pose proof (crawl_passes_exit self feed_of fuel [] w) as Hexit.
  destruct (crawl_passes fuel self feed_of [] w) as [[pass w1] events1].
  simpl in *.
  destruct pass as [b| |sc|e]; [| |done|done].
  - destruct (checkpoint self _) as [w2|e] eqn:Hwrite; [|done].
    apply checkpoint_slot in Hwrite as [Hcs Hslot]. intros [= <- _].
    rewrite Hcs. split; [|exact Hslot]. simpl.
    destruct b; [by rewrite orb_true_r|].
    by rewrite Hexit.
  - destruct Hexit as (_ & w0 & chat_id & Hcall & Hmode0 & _).
    rewrite Hmode in Hmode0.
    by destruct (await_handle_chat_no_labeling
                   self chat_id (feed_of chat_id) w0 Hmode0).
Qed.

End WholeRuns.

Section BoundedRuns.
Context `{Collaborators}.
Import Telethon State Models Handlers Crawler Wording Views.

(** With a maximum date every pass takes the front chat off the queue, so
    a queue without duplicates never shows a chat of the stop list. *)
Lemma crawl_passes_bounded (self : Crawler) (feed_of : Z → Feed)
    (fuel : nat) :
  ∀ (stop_check : list Z) (w : World),
    max_date (crawl_state w) ≠ NoBound →
    NoDup (chats_to_search (crawl_state w)) →
    (∀ x, x ∈ stop_check → x ∉ chats_to_search (crawl_state w)) →
    ∀ no_new_messages,
      (crawl_passes fuel self feed_of stop_check w).1.1
      = LoopEnds no_new_messages →
      no_new_messages = false.
Proof.
  induction fuel as [|fuel IH];
    intros stop_check w Hmax Hnodup Hfresh b; simpl; [done|].
  pose proof (crawl_pass_cases self feed_of stop_check w)
    as (_ & [Hid _] & Hpass).
  destruct (crawl_pass self feed_of stop_check w) as [[pass w'] events].
  simpl in *.
  destruct pass as [b'| |sc|e]; simpl; try done.
  - intros [= ->]. destruct Hpass as [_ Hpass]. destruct b; [|done].
    destruct Hpass as (chat_id & queue & Hq & Hin).
    destruct (Hfresh chat_id Hin). rewrite Hq. by left.
  - destruct Hpass as (chat_id & queue & Hq & Hnew & -> & Hq').
    assert (Hmax' : max_date (crawl_state w') = max_date (crawl_state w))
      by by injection Hid.
    destruct Hq' as [Hq'|[Hno _]]; [|done].
    rewrite Hq in Hnodup. apply NoDup_cons in Hnodup as [Hfront Hnodup].
    apply IH.
    + by rewrite Hmax'.
    + by rewrite Hq'.
    + rewrite Hq'. intros x Hx. apply elem_of_app in Hx as [Hx|Hx].
      * intros Hxq. destruct (Hfresh x Hx). rewrite Hq. by right.
      * by apply list_elem_of_singleton in Hx as ->.
Qed.

(** X5.  A crawl with a maximum date, without labeling and with no chat
    twice in its queue, that returns, has emptied the queue: every chat
    is then filed as searched or as not searchable. *)
Theorem bounded_crawl_empties_queue (fuel : nat) (self : Crawler)
    (feed_of : Z → Feed) (now : string) (w w' : World)
    (events : list Event) :
  no_labeling_mode (crawl_state w) = true →
  max_date (crawl_state w) ≠ NoBound →
  NoDup (chats_to_search (crawl_state w)) →
  start_or_resume_crawl fuel self feed_of now w
  = Some ((Ok tt, w'), events) →
  chats_to_search (crawl_state w') = []
  ∧ chats_searched (crawl_state w')
    ++ default [] (chats_not_searchable (crawl_state w'))
    ≡ₚ all_chats (crawl_state w).
Proof.
  intros Hmode Hmax Hnodup. unfold start_or_resume_crawl.
  pose proof (crawl_passes_exit self feed_of fuel [] w) as Hexit.
  pose proof (crawl_passes_rearrange self feed_of fuel [] w)
    as (Hperm & _ & _).
  pose proof (crawl_passes_bounded self feed_of fuel [] w Hmax Hnodup
                ltac:(by intros x ?%elem_of_nil)) as Hbounded.
  destruct (crawl_passes fuel self feed_of [] w) as [[pass w1] events1].
  simpl in *.
  destruct pass as [b| |sc|e]; [| |done|done].
  - rewrite (Hbounded b eq_refl) in *.
    destruct (checkpoint self _) as [w2|e] eqn:Hwrite; [|done].
    apply checkpoint_slot in Hwrite as [Hcs _]. intros [= <- _].
    rewrite Hcs, <- Hperm. unfold all_chats. simpl.
    rewrite Hexit. by destruct (_ || _).
  - destruct Hexit as (_ & w0 & chat_id & Hcall & Hmode0 & _).
    rewrite Hmode in Hmode0.
    by destruct (await_handle_chat_no_labeling
                   self chat_id (feed_of chat_id) w0 Hmode0).
Qed.

(** X6.  When the user stops the crawl, the run does not mark it
    finished: the loop is left by a call of [handle_chat] that returned 1
    for the chat at the front of the queue, the state this call left is
    the state the run ends with, with the chat still at the front of the
    queue and the queue behind it as it was on entry to the call; the
    [finished] entry stays as it was, and this state is what the call
    stores; it can only happen with labeling. *)
Theorem stopped_crawl_is_not_finished (fuel : nat) (self : Crawler)
    (feed_of : Z → Feed) (now : string) (w : World) :
  (crawl_passes fuel self feed_of [] w).1.1 = CrawlStopped →
  no_labeling_mode (crawl_state w) = false
  ∧ ∃ (r : result unit) (w' : World) (events : list Event),
      start_or_resume_crawl fuel self feed_of now w = Some ((r, w'), events)
      ∧ (∃ (w0 : World) (chat_id : Z) (queue : list Z),
           chats_to_search (crawl_state w0) = chat_id :: queue
           ∧ (await_handle_chat self chat_id (feed_of chat_id) w0).1.1
             = Ok 1
           ∧ crawl_state w'
             = crawl_state
                 (await_handle_chat self chat_id (feed_of chat_id) w0).1.2
           ∧ chats_to_search (crawl_state w') = chat_id :: queue)
      ∧ finished (crawl_state w') = finished (crawl_state w)
      ∧ (r = Ok tt →
         crawls w' !! index (crawl_state w')
         = Some (as_stored (crawl_state w'))).
Proof.
  unfold start_or_resume_crawl.
  pose proof (crawl_passes_exit self feed_of fuel [] w) as Hexit.
  pose proof (crawl_passes_rearrange self feed_of fuel [] w)
    as (_ & _ & Hfin).
  destruct (crawl_passes fuel self feed_of [] w) as [[pass w1] events1].
  simpl in *. intros ->.
  destruct Hexit
    as (Hne & w0 & chat_id & Hcall & Hmode0 & (queue & Hq0 & Hq1) & Hw1).
  split.
  { destruct (no_labeling_mode (crawl_state w)) eqn:Hmode; [|done].
    by destruct (await_handle_chat_no_labeling
                   self chat_id (feed_of chat_id) w0 Hmode0). }
  assert (Hlen : (length (chats_to_search (crawl_state w1)) =? 0)%nat
                 = false).
  { by rewrite Hq1. }
  rewrite Hlen. simpl.
  assert (Hstopped :
            ∀ cs, cs = crawl_state w1 →
              ∃ (w0 : World) (chat_id : Z) (queue : list Z),
                chats_to_search (crawl_state w0) = chat_id :: queue
                ∧ (await_handle_chat self chat_id (feed_of chat_id) w0).1.1
                  = Ok 1
                ∧ cs = crawl_state
                         (await_handle_chat
                            self chat_id (feed_of chat_id) w0).1.2
                ∧ chats_to_search cs = chat_id :: queue).
  { intros cs ->. exists w0, chat_id, queue. by rewrite <- Hw1. }
  destruct (checkpoint self _) as [w2|e] eqn:Hwrite.
  - apply checkpoint_slot in Hwrite as [Hcs Hslot].
    eexists _, _, _. split; [done|]. rewrite Hcs. simpl.
    split; [by apply Hstopped|]. done.
  - eexists _, _, _. split; [done|]. simpl.
    split; [by apply Hstopped|]. done.
Qed.

End BoundedRuns.

Section ClassifierRuns.
Context `{Collaborators}.
Import Telethon State Models Handlers Crawler Wording Views.

Lemma iter_messages_binary_classifier (base_model model_directory : string)
    (chat_id : Z) (min_date max_date : Bound)
    (message_handler : MessageHandler) (feed : Feed) :
  ∀ w : World,
    let out :=
      iter_messages (BinaryClassifier base_model model_directory) chat_id
                    min_date max_date message_handler feed w in
    out.1.1 ≠ Returned1 ∧ crawls out.1.2 = crawls w.
Proof.
  induction feed as [|m feed IH|e]; intros w; simpl; [done| |done].
  destruct (BinaryClassifierCrawler.crawl_should_be_stopped _ _ _ _)
    as [[]|e]; simpl; try done.
  destruct (BinaryClassifierCrawler.message_should_be_skipped _ _ _ _)
    as [[skip cs]|e]; simpl; [|done].
  destruct skip; simpl.
  { exact (IH {| crawl_state := cs; crawls := crawls w;
                 db := db w; prompts := prompts w |}). }
  destruct (handle_message message_handler m (prompts w) (db w))
    as [[[[status self_message]|e] prompts'] db']; simpl; [|done].
  by destruct (check_status _ _ _ _).
Qed.

(** C5, where the code departs from it.  With
    [BinaryClassifierCrawler] and a queue that is not empty: when the
    loop over the chat raises [ChannelPrivateError], the [except] clause
    of [handle_chat] appends the chat id to [chats_not_searchable] and
    removes the front of [chats_to_search] in the crawl state it holds,
    and then [self.store_crawl_state(crawl_state)] raises [TypeError]:
    0 is not returned, the exception leaves [handle_chat], and the file
    of the crawls is as it was on entry. *)
Theorem channel_private_is_lost_by_the_classifier
    (base_model model_directory : string) (chat_id : Z) (feed : Feed)
    (w w' : World) (events : list Event) (front : Z) (queue : list Z) :
  chats_to_search (crawl_state w) = front :: queue →
  loop_over_chat (BinaryClassifier base_model model_directory)
                 chat_id feed w
  = ((Raised ChannelPrivateError, w'), events) →
  let recorded :=
    set_chats_to_search queue
      (set_chats_not_searchable
         (Some (default [] (chats_not_searchable (crawl_state w'))
                ++ [chat_id]))
         (crawl_state w')) in
  handle_chat (BinaryClassifier base_model model_directory) chat_id feed w
  = ((Raise TypeError, with_crawl_state recorded w'), events)
  ∧ crawls w' = crawls w.
Proof.
  intros Hqueue Hloop recorded.
  pose proof (iter_messages_differs
                (BinaryClassifier base_model model_directory) chat_id
                (min_date (crawl_state w)) (max_date (crawl_state w))
                (if no_labeling_mode (crawl_state w)
                 then NoLabeling else Labeling) feed w) as Hdiffers.
  pose proof (iter_messages_binary_classifier
                base_model model_directory chat_id
                (min_date (crawl_state w)) (max_date (crawl_state w))
                (if no_labeling_mode (crawl_state w)
                 then NoLabeling else Labeling) feed w) as [_ Hsame].
  unfold handle_chat. unfold loop_over_chat in Hloop.
  unfold loop_over_chat. rewrite Hloop in *. simpl in Hdiffers, Hsame.
  split; [|done].
  assert (Hq : chats_to_search (crawl_state w') = front :: queue).
  { rewrite Hdiffers. simpl. done. }
  unfold channel_private, append_events. simpl. rewrite Hq. simpl.
  rewrite app_nil_r. subst recorded.
  by destruct (chats_not_searchable (crawl_state w')).
Qed.

(** C6, where the code departs from it.  With
    [BinaryClassifierCrawler] and the chat at the front of the queue:
    when the loop over the chat ends without the user's stop and without
    an exception, [handle_chat] moves the chat id in the crawl state it
    holds (to [chats_searched] with a maximum date, to the back of the
    queue without one), and then [self.store_crawl_state(crawl_state)]
    raises [TypeError]: 0 is not returned and the file of the crawls is
    as it was on entry. *)
Theorem chat_done_is_lost_by_the_classifier
    (base_model model_directory : string) (chat_id : Z) (feed : Feed)
    (w w' : World) (events : list Event) (queue : list Z) :
  chats_to_search (crawl_state w) = chat_id :: queue →
  loop_over_chat (BinaryClassifier base_model model_directory)
                 chat_id feed w
  = ((Completed, w'), events) →
  let moved :=
    match max_date (crawl_state w) with
    | NoBound => set_chats_to_search (queue ++ [chat_id]) (crawl_state w')
    | _ =>
        set_chats_to_search queue
          (set_chats_searched
             (chats_searched (crawl_state w') ++ [chat_id])
             (crawl_state w'))
    end in
  handle_chat (BinaryClassifier base_model model_directory) chat_id feed w
  = ((Raise TypeError, with_crawl_state moved w'), events)
  ∧ crawls w' = crawls w.
Proof.
  intros Hqueue Hloop moved.
  pose proof (iter_messages_differs
                (BinaryClassifier base_model model_directory) chat_id
                (min_date (crawl_state w)) (max_date (crawl_state w))
                (if no_labeling_mode (crawl_state w)
                 then NoLabeling else Labeling) feed w) as Hdiffers.
  pose proof (iter_messages_binary_classifier
                base_model model_directory chat_id
                (min_date (crawl_state w)) (max_date (crawl_state w))
                (if no_labeling_mode (crawl_state w)
                 then NoLabeling else Labeling) feed w) as [_ Hsame].
  unfold handle_chat. unfold loop_over_chat in Hloop.
  unfold loop_over_chat. rewrite Hloop in *. simpl in Hdiffers, Hsame.
  split; [|done].
  assert (Hq : chats_to_search (crawl_state w') = chat_id :: queue).
  { rewrite Hdiffers. simpl. done. }
  unfold chat_done, append_events. subst moved.
  destruct (max_date (crawl_state w)); simpl; rewrite Hq; simpl;
    by rewrite app_nil_r.
Qed.

(** X7.  [BinaryClassifierCrawler] never gets through a chat.  Its
    [store_crawl_state] takes three arguments and is called with one, so
    [handle_chat] raises at the first message it has handled, at the end
    of the chat or at a private channel, and writes nothing to the file
    of the crawls; a run of [start_or_resume_crawl] with this crawler
    raises as well. *)
Theorem binary_classifier_crawl_always_raises
    (base_model model_directory : string) :
  (∀ (chat_id : Z) (feed : Feed) (w : World),
      ∃ e,
        (await_handle_chat (BinaryClassifier base_model model_directory)
                           chat_id feed w).1.1 = Raise e
        ∧ crawls (await_handle_chat
                    (BinaryClassifier base_model model_directory)
                    chat_id feed w).1.2 = crawls w)
  ∧ (∀ (fuel : nat) (feed_of : Z → Feed) (now : string) (w : World),
      ∃ e w' events,
        start_or_resume_crawl (S fuel)
          (BinaryClassifier base_model model_directory) feed_of now w
        = Some ((Raise e, w'), events)
        ∧ crawls w' = crawls w).
Proof.
  assert (Hchat : ∀ (chat_id : Z) (feed : Feed) (w : World),
      ∃ e,
        (await_handle_chat (BinaryClassifier base_model model_directory)
                           chat_id feed w).1.1 = Raise e
        ∧ crawls (await_handle_chat
                    (BinaryClassifier base_model model_directory)
                    chat_id feed w).1.2 = crawls w).
  { intros chat_id feed w. simpl.
    assert (Hplain : ∀ w0,
              ∃ e,
                (handle_chat (BinaryClassifier base_model model_directory)
                             chat_id feed w0).1.1 = Raise e
                ∧ crawls (handle_chat
                            (BinaryClassifier base_model model_directory)
                            chat_id feed w0).1.2 = crawls w0).
    { intros w0. unfold handle_chat, loop_over_chat.
      pose proof (iter_messages_binary_classifier
                    base_model model_directory chat_id
                    (min_date (crawl_state w0)) (max_date (crawl_state w0))
                    (if no_labeling_mode (crawl_state w0)
                     then NoLabeling else Labeling) feed w0) as [Hexit Hsame].
      destruct (iter_messages _ _ _ _ _ _ _) as [[exit w1] events].
      simpl in *. destruct exit as [| |e]; simpl; [|done|].
      - unfold chat_done. destruct (pop0 _); simpl; eauto.
      - destruct e; simpl; eauto. unfold channel_private.
        destruct (pop0 _); simpl; eauto. }
    destruct (note_classified chat_id (crawl_state w)) as [[[]|e] cs];
      simpl; [|eauto].
    destruct (Hplain (with_crawl_state cs w)) as (e & He & Hsame). eauto. }
  split; [exact Hchat|].
  intros fuel feed_of now w.
  unfold start_or_resume_crawl, crawl_passes; fold crawl_passes.
  unfold crawl_pass.
  destruct (chats_to_search (crawl_state w)) as [|chat_id queue];
    cbv beta iota.
  { by eexists _, _, _. }
  rewrite bool_decide_eq_false_2 by apply not_elem_of_nil.
  destruct (Hchat chat_id (feed_of chat_id) w) as (e & He & Hsame).
  destruct (await_handle_chat _ chat_id (feed_of chat_id) w)
    as [[r w'] events]. cbv beta iota. cbn [fst snd] in He, Hsame.
  subst r. by eexists _, _, _.
Qed.

End ClassifierRuns.

Lemma handle_chat_rearranges_chats_witness :
  Views.all_chats
    (Crawler.crawl_state
       (@Crawler.await_handle_chat Examples.relevant_collaborators
          Crawler.Baseline 100 (Examples.july_feed 100)
          Examples.july_world).1.2)
  ≡ₚ Views.all_chats Examples.july_crawl.
Proof.
  exact (proj1 (@handle_chat_rearranges_chats
                  Examples.relevant_collaborators Crawler.Baseline 100 []
                  (Examples.july_feed 100) Examples.july_world eq_refl)).
Defined.

Lemma start_or_resume_crawl_ends_witness :
  is_Some
    (@Crawler.start_or_resume_crawl Examples.relevant_collaborators 2
       Crawler.Baseline Examples.july_feed "2021-08-03 08:00:00+00:00"
       Examples.july_world).
Proof.
  apply (@start_or_resume_crawl_ends Examples.relevant_collaborators 2
           Crawler.Baseline Examples.july_feed "2021-08-03 08:00:00+00:00"
           Examples.july_world).
  simpl. lia.
Defined.

(** The run of the examples. *)
Lemma july_run :
  @Crawler.start_or_resume_crawl Examples.relevant_collaborators 2
    Crawler.Baseline Examples.july_feed "2021-08-03 08:00:00+00:00"
    Examples.july_world
  = Some ((Ok tt, Examples.july_world_finished), Examples.july_events).
Proof. vm_compute. reflexivity. Qed.

Lemma start_or_resume_crawl_rearranges_chats_witness :
  @Crawler.start_or_resume_crawl Examples.relevant_collaborators 2
    Crawler.Baseline Examples.july_feed "2021-08-03 08:00:00+00:00"
    Examples.july_world
  = Some ((Ok tt, Examples.july_world_finished), Examples.july_events)
  ∧ Views.all_chats Examples.july_finished
    ≡ₚ Views.all_chats Examples.july_crawl.
Proof.
  split; [exact july_run|].
  exact (proj1 (@start_or_resume_crawl_rearranges_chats
                  Examples.relevant_collaborators 2 Crawler.Baseline
                  Examples.july_feed "2021-08-03 08:00:00+00:00"
                  Examples.july_world Examples.july_world_finished
                  (Ok tt) Examples.july_events july_run)).
Defined.

Lemma unattended_crawl_is_finished_witness :
  @Crawler.start_or_resume_crawl Examples.relevant_collaborators 2
    Crawler.Baseline Examples.july_feed "2021-08-03 08:00:00+00:00"
    Examples.july_world
  = Some ((Ok tt, Examples.july_world_finished), Examples.july_events)
  ∧ State.finished Examples.july_finished
    = Some "2021-08-03 08:00:00+00:00"
  ∧ [State.as_stored Examples.july_finished] !! 0%nat
    = Some (State.as_stored Examples.july_finished).
Proof.
  split; [exact july_run|].
  exact (@unattended_crawl_is_finished
           Examples.relevant_collaborators 2 Crawler.Baseline
           Examples.july_feed "2021-08-03 08:00:00+00:00"
           Examples.july_world Examples.july_world_finished
           Examples.july_events eq_refl july_run).
Defined.

Lemma bounded_crawl_empties_queue_witness :
  @Crawler.start_or_resume_crawl Examples.relevant_collaborators 2
    Crawler.Baseline Examples.july_feed "2021-08-03 08:00:00+00:00"
    Examples.july_world
  = Some ((Ok tt, Examples.july_world_finished), Examples.july_events)
  ∧ State.chats_to_search Examples.july_finished = []
  ∧ State.chats_searched Examples.july_finished
    ++ default [] (State.chats_not_searchable Examples.july_finished)
    ≡ₚ Views.all_chats Examples.july_crawl.
Proof.
  split; [exact july_run|].
  exact (@bounded_crawl_empties_queue
           Examples.relevant_collaborators 2 Crawler.Baseline
           Examples.july_feed "2021-08-03 08:00:00+00:00"
           Examples.july_world Examples.july_world_finished
           Examples.july_events eq_refl ltac:(discriminate)
           (NoDup_singleton 100) july_run).
Defined.

Lemma stopped_crawl_is_not_finished_witness :
  State.no_labeling_mode Examples.labeling_crawl = false
  ∧ ∃ (r : result unit) (w' : Crawler.World) (events : list Crawler.Event),
      @Crawler.start_or_resume_crawl Examples.relevant_collaborators 2
        Crawler.Baseline Examples.july_feed "2021-08-03 08:00:00+00:00"
        Examples.labeling_world
      = Some ((r, w'), events)
      ∧ (∃ (w0 : Crawler.World) (chat_id : Z) (queue : list Z),
           State.chats_to_search (Crawler.crawl_state w0) = chat_id :: queue
           ∧ (@Crawler.await_handle_chat Examples.relevant_collaborators
                Crawler.Baseline chat_id (Examples.july_feed chat_id)
                w0).1.1
             = Ok 1
           ∧ Crawler.crawl_state w'
             = Crawler.crawl_state
                 (@Crawler.await_handle_chat Examples.relevant_collaborators
                    Crawler.Baseline chat_id (Examples.july_feed chat_id)
                    w0).1.2
           ∧ State.chats_to_search (Crawler.crawl_state w')
             = chat_id :: queue)
      ∧ State.finished (Crawler.crawl_state w') = None
      ∧ (r = Ok tt →
         Crawler.crawls w' !! State.index (Crawler.crawl_state w')
         = Some (State.as_stored (Crawler.crawl_state w'))).
Proof.
  exact (@stopped_crawl_is_not_finished
           Examples.relevant_collaborators 2 Crawler.Baseline
           Examples.july_feed "2021-08-03 08:00:00+00:00"
           Examples.labeling_world eq_refl).
Defined.

Lemma channel_private_is_lost_by_the_classifier_witness :
  @Crawler.handle_chat Examples.relevant_collaborators
    (Crawler.BinaryClassifier "bert" "models/bert") 100
    (Telethon.Raises ChannelPrivateError) Examples.july_world
  = ((Raise TypeError,
      Crawler.with_crawl_state
        (State.set_chats_to_search []
           (State.set_chats_not_searchable
              (Some (default [] (State.chats_not_searchable
                                   Examples.july_crawl) ++ [100]))
              Examples.july_crawl))
        Examples.july_world),
     [])
  ∧ Crawler.crawls Examples.july_world = Crawler.crawls Examples.july_world.
Proof.
  exact (@channel_private_is_lost_by_the_classifier
           Examples.relevant_collaborators "bert" "models/bert" 100
           (Telethon.Raises ChannelPrivateError)
           Examples.july_world Examples.july_world [] 100 []
           eq_refl eq_refl).
Defined.

Lemma chat_done_is_lost_by_the_classifier_witness :
  @Crawler.handle_chat Examples.relevant_collaborators
    (Crawler.BinaryClassifier "bert" "models/bert") 100
    (Telethon.Next (Examples.without_text 1) Telethon.EndOfChat)
    Examples.july_world
  = ((Raise TypeError,
      Crawler.with_crawl_state
        (State.set_chats_to_search []
           (State.set_chats_searched
              (State.chats_searched Examples.july_crawl ++ [100])
              Examples.july_crawl))
        Examples.july_world),
     [Crawler.Fetched (Examples.without_text 1)])
  ∧ Crawler.crawls Examples.july_world = Crawler.crawls Examples.july_world.
Proof.
  exact (@chat_done_is_lost_by_the_classifier
           Examples.relevant_collaborators "bert" "models/bert" 100
           (Telethon.Next (Examples.without_text 1) Telethon.EndOfChat)
           Examples.july_world Examples.july_world
           [Crawler.Fetched (Examples.without_text 1)] []
           eq_refl eq_refl).
Defined.
(** ** Storing a crawl and resuming it *)

Section StoreAndResume.
Import Telethon State Crawler Views.

(** X8.  [store_crawl_state] writes the state, with its dates as text,
    into the slot its index names and leaves every other slot alone: it
    appends when the index is the length of the collection, replaces
    when it is smaller, and raises [IndexError], writing nothing, when it
    is larger. *)
Theorem store_crawl_state_slots (crawl_state : CrawlState)
    (crawls : list CrawlState) :
  match BaselineCrawler.store_crawl_state crawl_state crawls with
  | Ok crawls' =>
      (index crawl_state ≤ length crawls)%nat
      ∧ crawls' !! index crawl_state = Some (as_stored crawl_state)
      ∧ (∀ i, i ≠ index crawl_state → crawls' !! i = crawls !! i)
      ∧ length crawls' = (length crawls `max` S (index crawl_state))%nat
  | Raise e => e = IndexError ∧ (length crawls < index crawl_state)%nat
  end.
Proof.
  unfold BaselineCrawler.store_crawl_state.
  destruct (Nat.eqb_spec (length crawls) (index crawl_state)) as [Heq|Hne].
  - split; [lia|]. split; [|split].
    + rewrite <- Heq. by rewrite lookup_app_r, Nat.sub_diag.
    + intros i Hi. destruct (decide (i < length crawls)%nat) as [Hlt|Hge].
      * by rewrite lookup_app_l.
      * rewrite lookup_app_r by lia.
        rewrite (lookup_ge_None_2 crawls) by lia.
        destruct (i - length crawls)%nat as [|n] eqn:Hn; [lia|done].
    + rewrite length_app. simpl. lia.
  - destruct (Nat.ltb_spec (index crawl_state) (length crawls)) as [Hlt|Hge].
    + split; [lia|]. split; [|split].
      * by apply list_lookup_insert_eq.
      * intros i Hi. by apply list_lookup_insert_ne.
      * rewrite length_insert. lia.
    + split; [done|lia].
Qed.

Lemma properties_match_ext (c c' : CrawlState)
    (tests : list (string * string)) :
  properties c' = properties c →
  BaselineCrawler.properties_match c' tests
  = BaselineCrawler.properties_match c tests.
Proof.
  intros Hp. induction tests as [|[key expected] tests IH]; [done|].
  simpl. rewrite Hp, IH. done.
Qed.

Lemma str_bound_as_stored (c : CrawlState) :
  str_bound (min_date (as_stored c)) = str_bound (min_date c)
  ∧ str_bound (max_date (as_stored c)) = str_bound (max_date c).
Proof. by destruct c as [? ? [] [] ? ? ? ? ? ? ? ? ?]. Qed.

(** The test of the lookup reads the seed chats, the dates as text, the
    mode and the crawler-specific properties. *)
Lemma can_be_resumed_ext (seed_chat_ids : list Z) (lo hi : Bound)
    (mode : bool) (tests : list (string * string)) (c c' : CrawlState) :
  seed_chats c' = seed_chats c →
  str_bound (min_date c') = str_bound (min_date c) →
  str_bound (max_date c') = str_bound (max_date c) →
  no_labeling_mode c' = no_labeling_mode c →
  properties c' = properties c →
  BaselineCrawler.can_be_resumed seed_chat_ids lo hi mode tests c'
  = BaselineCrawler.can_be_resumed seed_chat_ids lo hi mode tests c.
Proof.
  intros Hs Hlo Hhi Hm Hp. unfold BaselineCrawler.can_be_resumed.
  rewrite Hs, Hlo, Hhi, Hm, (properties_match_ext c c' tests Hp). done.
Qed.

Lemma crawl_to_be_resumed_index_none (test : CrawlState → result bool)
    (crawls : list CrawlState) (i : nat) :
  BaselineCrawler.crawl_to_be_resumed_index test i crawls = Ok None ↔
  ∀ k c, crawls !! k = Some c → test c = Ok false.
Proof.
  revert i. induction crawls as [|c crawls IH]; intros i; simpl.
  - split; [by intros _ k c' ?|done].
  - destruct (test c) as [[]|e] eqn:Hc; simpl.
    + split; [done|]. intros Hall. specialize (Hall 0%nat c eq_refl).
      congruence.
    + rewrite IH. split.
      * intros Hall [|k] c' Hk; [by injection Hk as <-|]. by apply (Hall k).
      * intros Hall k c' Hk. by apply (Hall (S k)).
    + split; [done|]. intros Hall. specialize (Hall 0%nat c eq_refl).
      congruence.
Qed.

(** The state found or created by the lookup, by what the lookup saw:
    either no stored crawl passes the test and the state is a new one
    behind the collection, or it is the first stored crawl that
    passes. *)
Lemma retrieve_or_initialize_crawl_state_cases (crawls : list CrawlState)
    (now : string) (seed_chat_ids : list Z)
    (min_date max_date : option datetime) (label_message : bool)
    (props : list (string * Property)) (tests : list (string * string))
    (crawl_state : CrawlState) :
  let test :=
    BaselineCrawler.can_be_resumed
      seed_chat_ids (BaselineCrawler.bound_of min_date)
      (BaselineCrawler.bound_of max_date) (negb label_message) tests in
  mapM BaselineCrawler.interpolated props = Some tests →
  BaselineCrawler.retrieve_or_initialize_crawl_state
    crawls now seed_chat_ids min_date max_date label_message props
  = Some (Ok crawl_state) →
  State.min_date crawl_state = BaselineCrawler.bound_of min_date
  ∧ State.max_date crawl_state = BaselineCrawler.bound_of max_date
  ∧ seed_chats crawl_state = seed_chat_ids
  ∧ no_labeling_mode crawl_state = negb label_message
  ∧ (∀ k c, (k < index crawl_state)%nat → crawls !! k = Some c →
       test c = Ok false)
  ∧ ((index crawl_state = length crawls
      ∧ properties crawl_state
        = foldl (fun m property => <[property.1 := property.2]> m) ∅ props)
     ∨ ∃ c, crawls !! index crawl_state = Some c
            ∧ test c = Ok true
            ∧ properties crawl_state = properties c).
Proof.
  intros test Htests. unfold BaselineCrawler.retrieve_or_initialize_crawl_state.
  destruct crawls as [|c0 crawls0].
  { intros [= <-]. simpl. repeat split; [|by left]. intros k c Hk. lia. }
  cbv beta iota. remember (c0 :: crawls0) as crawls eqn:Hall. clear Hall.
  rewrite Htests. simpl. fold test.
  destruct (BaselineCrawler.crawl_to_be_resumed_index test 0 crawls)
    as [[j|]|] eqn:Hfound; simpl; [| |done].
  - apply crawl_to_be_resumed_index_first in Hfound
      as (c & _ & Hc & Hyes & Hbefore).
    rewrite Nat.sub_0_r in Hc, Hbefore. rewrite Hc. intros [= <-]. simpl.
    pose proof Hyes as Hyes'. unfold test, BaselineCrawler.can_be_resumed in Hyes'.
    destruct (decide (seed_chats c = seed_chat_ids)) as [Hs|Hs].
    2: { rewrite (bool_decide_eq_false_2 _ Hs) in Hyes'. done. }
    rewrite (bool_decide_eq_true_2 _ Hs) in Hyes'. simpl in Hyes'.
    destruct (String.eqb _ _); [|done]. simpl in Hyes'.
    destruct (String.eqb _ _); [|done]. simpl in Hyes'.
    destruct (Bool.eqb_spec (State.no_labeling_mode c) (negb label_message))
      as [Hm|Hm]; [|done].
    repeat split; [done | done | done |]. right. by exists c.
  - rewrite crawl_to_be_resumed_index_none in Hfound.
    intros [= <-]. simpl. repeat split; [|by left].
    intros k c _ Hk. by apply (Hfound k).
Qed.

(** What a successful [store_crawl_state] leaves in the collection. *)
Lemma store_crawl_state_written (crawl_state : CrawlState)
    (crawls crawls' : list CrawlState) :
  BaselineCrawler.store_crawl_state crawl_state crawls = Ok crawls' →
  crawls' !! index crawl_state = Some (as_stored crawl_state)
  ∧ ∀ i, i ≠ index crawl_state → crawls' !! i = crawls !! i.
Proof.
  unfold BaselineCrawler.store_crawl_state.
  destruct (Nat.eqb_spec (length crawls) (index crawl_state)) as [Heq|Hne].
  - intros [= <-]. split.
    + rewrite <- Heq. by rewrite lookup_app_r, Nat.sub_diag.
    + intros i Hi. destruct (decide (i < length crawls)%nat) as [Hlt|Hge].
      * by rewrite lookup_app_l.
      * rewrite lookup_app_r by lia.
        rewrite (lookup_ge_None_2 crawls) by lia.
        destruct (i - length crawls)%nat as [|n] eqn:Hn; [lia|done].
  - destruct (Nat.ltb_spec (index crawl_state) (length crawls)) as [Hlt|Hge];
      [|done].
    intros [= <-]. split.
    + by apply list_lookup_insert_eq.
    + intros i Hi. by apply list_lookup_insert_ne.
Qed.

(** The lookup in a collection that holds a state of the crawl found or
    created in its slot, and in front of this slot what the collection
    held when the crawl was found or created, returns this state,
    provided the first lookup resumed a stored crawl or a new crawl
    passes its own test. *)
Lemma resumed_from_slots (crawls crawls' : list CrawlState)
    (now : string) (seed_chat_ids : list Z)
    (min_date max_date : option datetime) (label_message : bool)
    (props : list (string * Property)) (tests : list (string * string))
    (crawl_state later : CrawlState) :
  mapM BaselineCrawler.interpolated props = Some tests →
  BaselineCrawler.properties_match
    (set_properties
       (foldl (fun m property => <[property.1 := property.2]> m) ∅ props)
       crawl_state) tests = Ok true →
  BaselineCrawler.retrieve_or_initialize_crawl_state
    crawls now seed_chat_ids min_date max_date label_message props
  = Some (Ok crawl_state) →
  identity later = identity crawl_state →
  crawls' !! index later = Some (as_stored later) →
  (∀ k, (k < index later)%nat → crawls' !! k = crawls !! k) →
  ∀ now',
    BaselineCrawler.retrieve_or_initialize_crawl_state
      crawls' now' seed_chat_ids min_date max_date label_message props
    = Some (Ok later).
Proof.
  intros Htests Hown Hfound Hid Hwritten Hothers now'.
  destruct (retrieve_or_initialize_crawl_state_cases
              crawls now seed_chat_ids min_date max_date label_message
              props tests crawl_state Htests Hfound)
    as (Hlo & Hhi & Hseeds & Hmode & Hbefore & Hcase).
  injection Hid as Hi Hs Hl Hh Hm Hp _.
  set (test := BaselineCrawler.can_be_resumed
      seed_chat_ids (BaselineCrawler.bound_of min_date)
      (BaselineCrawler.bound_of max_date) (negb label_message) tests)
    in *.
  assert (Hyes : test (as_stored later) = Ok true).
  { destruct (str_bound_as_stored later) as [Hlo' Hhi'].
    destruct Hcase as [[_ Hprops]|(c & Hc & Hyes & Hprops)].
    - unfold test, BaselineCrawler.can_be_resumed.
      rewrite Hlo', Hhi', Hl, Hh, Hlo, Hhi, !String.eqb_refl. simpl.
      change (seed_chats (as_stored later)) with (seed_chats later).
      change (no_labeling_mode (as_stored later))
        with (no_labeling_mode later).
      rewrite Hs, Hseeds, Hm, Hmode, bool_decide_eq_true_2 by done.
      rewrite Bool.eqb_reflx. simpl.
      rewrite <- Hown. apply properties_match_ext. simpl.
      by rewrite Hp, Hprops.
    - rewrite <- Hyes. pose proof Hyes as Hyes'.
      unfold test, BaselineCrawler.can_be_resumed in Hyes'.
      destruct (decide (seed_chats c = seed_chat_ids)) as [Hsc|Hsc].
      2: { rewrite (bool_decide_eq_false_2 _ Hsc) in Hyes'. done. }
      rewrite (bool_decide_eq_true_2 _ Hsc) in Hyes'. simpl in Hyes'.
      destruct (String.eqb_spec (str_bound (State.min_date c))
                  (str_bound (BaselineCrawler.bound_of min_date)))
        as [Hcl|]; [|done]. simpl in Hyes'.
      destruct (String.eqb_spec (str_bound (State.max_date c))
                  (str_bound (BaselineCrawler.bound_of max_date)))
        as [Hch|]; [|done]. simpl in Hyes'.
      destruct (Bool.eqb_spec (State.no_labeling_mode c)
                              (negb label_message)) as [Hcm|]; [|done].
      apply can_be_resumed_ext.
      + change (seed_chats (as_stored later)) with (seed_chats later).
        congruence.
      + rewrite Hlo', Hl, Hlo. done.
      + rewrite Hhi', Hh, Hhi. done.
      + change (no_labeling_mode (as_stored later))
          with (no_labeling_mode later). congruence.
      + change (properties (as_stored later)) with (properties later).
        congruence. }
  assert (Hlookup :
            BaselineCrawler.crawl_to_be_resumed_index test 0 crawls'
            = Ok (Some (index later))).
  { apply crawl_to_be_resumed_index_first. exists (as_stored later).
    rewrite Nat.sub_0_r. repeat split; [lia | done | done |].
    intros k c Hk Hc. rewrite Hothers in Hc by lia.
    apply (Hbefore k); [lia | done]. }
  unfold BaselineCrawler.retrieve_or_initialize_crawl_state.
  destruct crawls' as [|c0' crawls0'] eqn:Hcrawls'.
  { by rewrite lookup_nil in Hwritten. }
  rewrite <- Hcrawls' in *. cbv beta iota.
  rewrite Htests. simpl. fold test. rewrite Hlookup. simpl.
  rewrite Hwritten. f_equal. f_equal.
  rewrite <- Hlo, <- Hhi, <- Hl, <- Hh.
  by destruct later.
Qed.

(** Storing a state of the crawl found or created, and asking again with
    the same arguments, gives this state back, under the same
    proviso. *)
Lemma stored_crawl_is_resumed (crawls : list CrawlState)
    (now : string) (seed_chat_ids : list Z)
    (min_date max_date : option datetime) (label_message : bool)
    (props : list (string * Property)) (tests : list (string * string))
    (crawl_state later : CrawlState) :
  mapM BaselineCrawler.interpolated props = Some tests →
  BaselineCrawler.properties_match
    (set_properties
       (foldl (fun m property => <[property.1 := property.2]> m) ∅ props)
       crawl_state) tests = Ok true →
  BaselineCrawler.retrieve_or_initialize_crawl_state
    crawls now seed_chat_ids min_date max_date label_message props
  = Some (Ok crawl_state) →
  identity later = identity crawl_state →
  ∃ crawls',
    BaselineCrawler.store_crawl_state later crawls = Ok crawls'
    ∧ ∀ now',
        BaselineCrawler.retrieve_or_initialize_crawl_state
          crawls' now' seed_chat_ids min_date max_date label_message props
        = Some (Ok later).
Proof.
  intros Htests Hown Hfound Hid.
  assert (Hslot : (index later ≤ length crawls)%nat).
  { replace (index later) with (index crawl_state) by by injection Hid.
    by eapply retrieve_or_initialize_crawl_state_slot. }
  destruct (store_crawl_state_writes later crawls Hslot)
    as (crawls' & Hstore & _ & _).
  exists crawls'. split; [done|].
  destruct (store_crawl_state_written later crawls crawls' Hstore)
    as [Hwritten Hothers].
  apply (resumed_from_slots crawls crawls' now seed_chat_ids min_date
           max_date label_message props tests crawl_state later);
    try done.
  intros k Hk. apply Hothers. lia.
Qed.

End StoreAndResume.

Section PlainKeywords.
Import Telethon State Crawler Views.

Lemma literal_value_copied (s : string) :
  copied s = true → Text.literal_value s = Some s.
Proof.
  induction s as [|c s IH]; [done|]. simpl. unfold copied_char.
  intros [Hc Hs]%andb_true_iff. apply negb_true_iff in Hc.
  apply orb_false_iff in Hc as [Hc Hback].
  rewrite Hc, Hback, (IH Hs). done.
Qed.

Lemma copied_append (s t : string) :
  copied (s +:+ t) = copied s && copied t.
Proof.
  induction s as [|c s IH]; [by rewrite append_empty|].
  rewrite append_cons. simpl. rewrite IH. by rewrite andb_assoc.
Qed.

Lemma plain_char_copied (c : ascii) :
  plain_char c = true →
  copied_char c = true ∧ Text.repr_char Text.single_quote c = Text.str1 c.
Proof.
  unfold plain_char, copied_char, Text.repr_char. cbv zeta.
  intros Hc. apply negb_true_iff in Hc.
  apply orb_false_iff in Hc as [Hc Hhyphen].
  apply orb_false_iff in Hc as [Hc Hcontrol].
  apply orb_false_iff in Hc as [Hc Hlow].
  apply orb_false_iff in Hc as [Hc Hdouble].
  apply orb_false_iff in Hc as [Hback Hsingle].
  pose proof Hlow as Hn. apply Nat.ltb_ge in Hn.
  assert (Htab : Ascii.eqb c Text.tab = false).
  { apply Ascii.eqb_neq. intros ->. vm_compute in Hn. lia. }
  assert (Hlf : Ascii.eqb c Text.line_feed = false).
  { apply Ascii.eqb_neq. intros ->. vm_compute in Hn. lia. }
  assert (Hcr : Ascii.eqb c Text.carriage_return = false).
  { apply Ascii.eqb_neq. intros ->. vm_compute in Hn. lia. }
  split.
  - by rewrite Hdouble, Hlf, Hcr, Hback.
  - by rewrite Hback, Hsingle, Htab, Hlf, Hcr, Hlow, Hcontrol, Hhyphen.
Qed.

Lemma plain_text (s : string) :
  plain s = true →
  copied s = true
  ∧ Text.repr_body Text.single_quote s = s
  ∧ Text.mentions Text.single_quote s = false.
Proof.
  induction s as [|c s IH]; [done|].
  cbn [plain copied Text.repr_body Text.mentions].
  intros [Hc Hs]%andb_true_iff.
  destruct (IH Hs) as (Hcopied & Hbody & Hquote).
  destruct (plain_char_copied c Hc) as [Hcc Hrepr].
  rewrite Hcc, Hcopied, Hrepr, Hbody, Hquote. repeat split.
  unfold plain_char in Hc. apply negb_true_iff in Hc.
  repeat (apply orb_false_iff in Hc as [Hc ?]).
  rewrite orb_false_r, Ascii.eqb_sym. done.
Qed.

Lemma repr_str_plain (s : string) :
  plain s = true → copied (Text.repr_str s) = true.
Proof.
  intros (Hcopied & Hbody & Hquote)%plain_text.
  unfold Text.repr_str. rewrite Hquote. simpl.
  rewrite Hbody, copied_append, Hcopied. done.
Qed.

Lemma concat_repr_str_plain (keywords : list string) :
  forallb plain keywords = true →
  copied (String.concat ", " (List.map Text.repr_str keywords)) = true.
Proof.
  induction keywords as [|k keywords IH]; [done|].
  simpl. intros [Hk Hks]%andb_true_iff.
  destruct (List.map Text.repr_str keywords) as [|k' rest] eqn:Hrest.
  - by apply repr_str_plain.
  - rewrite !copied_append, (repr_str_plain k Hk), (IH Hks). done.
Qed.

(** [str] of a list of keywords made of printable characters other
    than the backslash and the quotes, put between double quotes, is a
    literal that denotes this very text. *)
Lemma literal_value_str_list (keywords : list string) :
  forallb plain keywords = true →
  Text.literal_value (Text.str_list keywords)
  = Some (Text.str_list keywords).
Proof.
  intros Hplain. apply literal_value_copied. unfold Text.str_list.
  rewrite !copied_append, (concat_repr_str_plain keywords Hplain). done.
Qed.

End PlainKeywords.

Section RoundTrips.
Import Telethon State Crawler Views.

(** X9.  A baseline crawl that is found or created, worked on and
    stored is the crawl the next call with the same arguments resumes,
    and it comes back as it was stored but for its dates, which are the
    caller's again: whatever [later] state of the same crawl is written
    with [store_crawl_state], [retrieve_or_initialize_crawl_state]
    returns it. *)
Theorem baseline_crawl_is_resumed_as_stored (crawls : list CrawlState)
    (now : string) (seed_chat_ids : list Z)
    (min_date max_date : option datetime) (label_message : bool)
    (crawl_state later : CrawlState) :
  BaselineCrawler.retrieve_or_initialize_crawl_state
    crawls now seed_chat_ids min_date max_date label_message []
  = Some (Ok crawl_state) →
  identity later = identity crawl_state →
  ∃ crawls',
    BaselineCrawler.store_crawl_state later crawls = Ok crawls'
    ∧ ∀ now',
        BaselineCrawler.retrieve_or_initialize_crawl_state
          crawls' now' seed_chat_ids min_date max_date label_message []
        = Some (Ok later).
Proof.
  intros Hfound Hid.
  by apply (stored_crawl_is_resumed crawls now seed_chat_ids min_date
              max_date label_message [] [] crawl_state later).
Qed.

(** X10.  The same round trip holds for a keyword crawl whose keywords
    are made of printable characters other than the backslash and the
    quotes: [repr] copies these characters, the text interpolated for
    the keyword list then denotes [str] of the stored list, and the
    stored crawl is found again. *)
Theorem plain_keyword_crawl_is_resumed_as_stored (keywords : list string)
    (crawls : list CrawlState) (now : string) (seed_chat_ids : list Z)
    (min_date max_date : option datetime) (label_message : bool)
    (crawl_state later : CrawlState) :
  forallb plain keywords = true →
  KeywordSearchCrawler.retrieve_or_initialize_crawl_state
    keywords crawls now seed_chat_ids min_date max_date label_message
  = Some (Ok crawl_state) →
  identity later = identity crawl_state →
  ∃ crawls',
    BaselineCrawler.store_crawl_state later crawls = Ok crawls'
    ∧ ∀ now',
        KeywordSearchCrawler.retrieve_or_initialize_crawl_state
          keywords crawls' now' seed_chat_ids min_date max_date
          label_message
        = Some (Ok later).
Proof.
  intros Hplain Hfound Hid.
  unfold KeywordSearchCrawler.retrieve_or_initialize_crawl_state in *.
  apply (stored_crawl_is_resumed crawls now seed_chat_ids min_date
           max_date label_message [("keywords", PList keywords)]
           [("keywords", Text.str_list keywords)] crawl_state later);
    [| |done|done].
  - cbn [mapM]. unfold BaselineCrawler.interpolated.
    cbn [fst snd str_property].
    rewrite (literal_value_str_list keywords Hplain). done.
  - simpl. rewrite lookup_insert_eq. simpl.
    by rewrite String.eqb_refl.
Qed.

End RoundTrips.

Lemma baseline_crawl_is_resumed_as_stored_witness :
  ∃ crawls',
    Crawler.BaselineCrawler.store_crawl_state
      (State.set_chats_to_search []
         (State.set_chats_searched [100] Examples.july_crawl)) []
    = Ok crawls'
    ∧ ∀ now',
        Crawler.BaselineCrawler.retrieve_or_initialize_crawl_state
          crawls' now' [100] (Some Examples.july_first)
          (Some Examples.july_last) false []
        = Some (Ok (State.set_chats_to_search []
                      (State.set_chats_searched [100]
                                                Examples.july_crawl))).
Proof.
  exact (baseline_crawl_is_resumed_as_stored
           [] "2021-08-01 08:00:00+00:00" [100]
           (Some Examples.july_first) (Some Examples.july_last) false _
           (State.set_chats_to_search []
              (State.set_chats_searched [100] Examples.july_crawl))
           eq_refl eq_refl).
Defined.

Lemma plain_keyword_crawl_is_resumed_as_stored_witness :
  ∃ crawls',
    Crawler.BaselineCrawler.store_crawl_state
      (State.set_chats_to_search []
         (State.set_chats_searched [100]
            (State.set_properties {[ "keywords" := State.PList ["ab"] ]}
               (Examples.backslash_crawl 0 "2021-08-01 08:00:00+00:00"))))
      []
    = Ok crawls'
    ∧ ∀ now',
        Crawler.KeywordSearchCrawler.retrieve_or_initialize_crawl_state
          ["ab"] crawls' now' [100] (Some Examples.july_first)
          (Some Examples.july_last) true
        = Some
            (Ok (State.set_chats_to_search []
                   (State.set_chats_searched [100]
                      (State.set_properties
                         {[ "keywords" := State.PList ["ab"] ]}
                         (Examples.backslash_crawl
                            0 "2021-08-01 08:00:00+00:00"))))).
Proof.
  exact (plain_keyword_crawl_is_resumed_as_stored
           ["ab"] [] "2021-08-01 08:00:00+00:00" [100]
           (Some Examples.july_first) (Some Examples.july_last) true _
           (State.set_chats_to_search []
              (State.set_chats_searched [100]
                 (State.set_properties
                    {[ "keywords" := State.PList ["ab"] ]}
                    (Examples.backslash_crawl
                       0 "2021-08-01 08:00:00+00:00"))))
           eq_refl eq_refl eq_refl).
Defined.
(** ** What the handlers leave in the store *)

Section HandlerStore.
Import Models Handlers Handlers.LabelingMessageHandler Wording Views.

Lemma select_by_hash_appended (self : TelegramMessage)
    (rows : list TelegramMessage) :
  select_by_hash (hash self) rows = [] →
  select_by_hash (hash self) (rows ++ [self]) = [self].
Proof.
  intros Hnone. unfold select_by_hash in *.
  rewrite List.filter_app, Hnone. simpl. by rewrite String.eqb_refl.
Qed.

(** [store_message_and_labels] never fails: it inserts only after it
    has seen that the key is free. *)
Lemma store_message_and_labels_table (self : TelegramMessage)
    (selected_topics selected_misconceptions : list Z) (st : Store) :
  let out := store_message_and_labels
               self selected_topics selected_misconceptions st in
  out.1 = Ok tt
  ∧ message_to_skip out.2 = message_to_skip st
  ∧ messages_marked_for_later out.2 = messages_marked_for_later st
  ∧ ((select_by_hash (hash self) (telegram_message st) ≠ []
      ∧ telegram_message out.2 = telegram_message st)
     ∨ (select_by_hash (hash self) (telegram_message st) = []
        ∧ telegram_message out.2 = telegram_message st ++ [self])).
Proof.
  unfold store_message_and_labels, save_force_insert.
  destruct (select_by_hash (hash self) (telegram_message st))
    as [|d ds] eqn:Hsel; simpl.
  - destruct (length selected_misconceptions =? 0)%nat; simpl;
      repeat split; by right.
  - destruct (length selected_misconceptions =? 0)%nat; simpl;
      repeat split; by left.
Qed.

Lemma confirm_empty_selection_table
    (relabel : Store → interaction string) (answer : option Choice)
    (self : TelegramMessage) (script : list Answers) (st : Store) :
  (let out := relabel st in
   appends_at_most self st out.2
   ∧ match out.1.1 with
     | Ok status =>
         (status = "stop crawl" ∧ out.2 = st)
         ∨ (status ≠ "stop crawl"
            ∧ select_by_hash (hash self) (telegram_message out.2) ≠ [])
     | Raise _ => True
     end) →
  let out := confirm_empty_selection relabel answer self script st in
  appends_at_most self st out.2
  ∧ match out.1.1 with
    | Ok status =>
        (status = "stop crawl" ∧ out.2 = st)
        ∨ (status ≠ "stop crawl"
           ∧ (telegram_message out.2 = telegram_message st
              ∨ select_by_hash (hash self) (telegram_message out.2) ≠ []))
    | Raise _ => True
    end.
Proof.
  intros Hrelabel. unfold confirm_empty_selection.
  destruct answer as [[]|]; simpl.
  - split; [by left|]. right. split; [done|by left].
  - destruct Hrelabel as [Htable Hstatus]. split; [done|].
    destruct (relabel st) as [[[status|e] script'] st']; simpl in *; [|done].
    destruct Hstatus as [?|[? ?]]; [by left|]. right. split; [done|by right].
  - split; [by left|]. right. split; [done|by left].
  - destruct (_ !! str_int (chat self)); simpl; [|split; [by left|done]].
    split; [by left|]. right. split; [done|by left].
  - split; [by left|]. by left.
  - split; [by left|done].
Qed.

(** One call of [label_and_store_message]: it returns "stop crawl" with
    the store untouched, or "message stored without labels" with the
    message in the table; the table grows by this message at most. *)
Lemma label_and_store_message_table (self : TelegramMessage)
    (script : list Answers) :
  ∀ st : Store,
    let out := label_and_store_message script self st in
    appends_at_most self st out.2
    ∧ match out.1.1 with
      | Ok status =>
          (status = "stop crawl" ∧ out.2 = st)
          ∨ (status = "message stored without labels"
             ∧ select_by_hash (hash self) (telegram_message out.2) ≠ [])
      | Raise _ => True
      end.
Proof.
  induction script as [|a script IH]; intros st.
  { split; [by left|done]. }
  unfold label_and_store_message; fold label_and_store_message.
  destruct (get_topic_and_misconception_labels_from_user a)
    as [[selected_topics selected_misconceptions]|e] eqn:Hselected.
  2: { split; [by left|done]. }
  assert (Hmenu :
            let out := confirm_empty_selection
                         (label_and_store_message script self)
                         (menu_choice a) self script st in
            appends_at_most self st out.2
            ∧ match out.1.1 with
              | Ok status =>
                  (status = "stop crawl" ∧ out.2 = st)
                  ∨ (status ≠ "stop crawl"
                     ∧ (telegram_message out.2 = telegram_message st
                        ∨ select_by_hash (hash self)
                                          (telegram_message out.2) ≠ []))
              | Raise _ => True
              end).
  { apply confirm_empty_selection_table. specialize (IH st). simpl in IH.
    destruct IH as [Htable Hstatus]. split; [done|].
    destruct (label_and_store_message script self st)
      as [[[status|e] script'] st']; simpl in *; [|done].
    destruct Hstatus as [?|[-> ?]]; [by left|]. by right. }
  assert (Hstep : ∀ selected_misconceptions',
            let out := store_unless_stopped
                         self selected_topics selected_misconceptions'
                         (assigned
                            (confirm_empty_selection
                               (label_and_store_message script self)
                               (menu_choice a) self script st)) in
            selected_misconceptions' = [] →
            appends_at_most self st out.2
            ∧ match out.1.1 with
              | Ok status =>
                  (status = "stop crawl" ∧ out.2 = st)
                  ∨ (status = "message stored without labels"
                     ∧ select_by_hash (hash self)
                                       (telegram_message out.2) ≠ [])
              | Raise _ => True
              end).
  { intros ? out ->. subst out. simpl in Hmenu.
    destruct Hmenu as [Htable Hstatus].
    destruct (confirm_empty_selection _ _ _ _ _)
      as [[[status|e] script'] st1]; simpl in *; [|done].
    destruct (String.eqb_spec status "stop crawl") as [->|Hne]; simpl.
    { split; [done|]. destruct Hstatus as [[_ ->]|[? _]]; [by left|done]. }
    destruct Hstatus as [[? _]|[_ Hst1]]; [done|].
    pose proof (store_message_and_labels_table self selected_topics [] st1)
      as (Hok & _ & _ & Hinsert).
    destruct (store_message_and_labels self selected_topics [] st1)
      as [r st2]. simpl in *. subst r. simpl.
    unfold appends_at_most in *.
    destruct Hinsert as [[Hthere Heq2]|[Hfree Heq2]]; rewrite Heq2.
    - split; [done|]. right. done.
    - split.
      + destruct Htable as [Heq|[Hnew Heq]].
        * right. by rewrite <- Heq.
        * rewrite Heq in Hfree.
          by rewrite (select_by_hash_appended self _ Hnew) in Hfree.
      + right. split; [done|].
        by rewrite (select_by_hash_appended self _ Hfree). }
  destruct (Nat.eqb_spec (length selected_topics) 0) as [Htopics|Htopics].
  { apply Hstep. destruct selected_topics; [|done].
    by apply (no_topic_no_misconception a). }
  destruct (Nat.eqb_spec (length selected_misconceptions) 0)
    as [Hmisconceptions|Hmisconceptions].
  { apply Hstep. by destruct selected_misconceptions. }
  split; [by left|done].
Qed.

End HandlerStore.

Section LabelingOutcomes.
Import Models Handlers Handlers.LabelingMessageHandler Wording Views.

(** X11.  Whatever the user answers, a call of
    [label_and_store_message] that returns has either stopped the crawl
    and left the store as it was, or stored the message: also the menu
    entries that skip the message or mark it for later end with the
    message in the table and the status "message stored without labels".
    The table gains this one row at most. *)
Theorem label_and_store_message_stores_unless_stopped
    (script script' : list Answers) (self : TelegramMessage)
    (st st' : Store) (status : string) :
  label_and_store_message script self st = (Ok status, script', st') →
  (status = "stop crawl" ∧ st' = st)
  ∨ (status = "message stored without labels"
     ∧ stored (hash self) st'
     ∧ appends_at_most self st st').
Proof.
  intros Hcall.
  pose proof (label_and_store_message_table self script st) as Htable.
  rewrite Hcall in Htable. simpl in Htable.
  destruct Htable as [Happend [?|[? ?]]]; [by left|by right].
Qed.

Lemma menu_is_shown (a : Answers) (selected_topics : list Z)
    (script : list Answers) (self : TelegramMessage) (st : Store) :
  get_topic_and_misconception_labels_from_user a = Ok (selected_topics, []) →
  label_and_store_message (a :: script) self st
  = store_unless_stopped self selected_topics []
      (assigned (confirm_empty_selection
                   (label_and_store_message script self)
                   (menu_choice a) self script st)).
Proof.
  intros Hselected.
  unfold label_and_store_message; fold label_and_store_message.
  rewrite Hselected. by destruct (length selected_topics =? 0)%nat.
Qed.

(** X12.  "Mark the message for later inspection" forgets what was
    marked before: the test reads the message id where the chat id is
    meant, so unless the message id happens to be a key of the index the
    chat's list is reset, and after the call it holds this message only.
    The message is then stored like any other, with a row in the table
    of the messages to skip. *)
Theorem mark_for_later_forgets_earlier_marks (a : Answers)
    (script : list Answers) (self : TelegramMessage) (st : Store)
    (selected_topics : list Z) :
  get_topic_and_misconception_labels_from_user a = Ok (selected_topics, []) →
  menu_choice a = Some MarkForLater →
  messages_marked_for_later st !! str_int (message_id self) = None →
  let out := label_and_store_message (a :: script) self st in
  out.1.1 = Ok "message stored without labels"
  ∧ messages_marked_for_later out.2
    = <[str_int (chat self) := [message_id self]]>
        (messages_marked_for_later st)
  ∧ message_to_skip out.2
    = message_to_skip st
      ++ [{| ms_message_hash := hash self; ms_chat := chat self;
             ms_added := clock st |}]
  ∧ stored (hash self) out.2.
Proof.
  intros Hselected Hmenu Hfresh out. subst out.
  rewrite (menu_is_shown a selected_topics) by done.
  rewrite Hmenu. unfold confirm_empty_selection. rewrite Hfresh.
  rewrite lookup_insert_eq. cbn [assigned fmap result_fmap Py.bind].
  unfold store_unless_stopped.
  cbn [String.eqb Ascii.eqb Bool.eqb]. cbv iota.
  match goal with
  | |- context [store_message_and_labels self selected_topics [] ?s] =>
      pose proof (store_message_and_labels_table self selected_topics [] s)
        as (Hok & Hskip & Hmarked & Hinsert);
      destruct (store_message_and_labels self selected_topics [] s)
        as [r st2]
  end.
  simpl in Hok, Hskip, Hmarked, Hinsert. subst r. simpl.
  rewrite Hskip, Hmarked. simpl. rewrite insert_insert_eq.
  repeat split. unfold stored.
  destruct Hinsert as [[Hthere ->]|[Hfree ->]]; [done|].
  by rewrite (select_by_hash_appended self _ Hfree).
Qed.

(** X13.  The same menu entry raises [KeyError] when the message id is a
    key of the index and the chat id is not: the list of the chat is
    read without having been created.  Nothing is written. *)
Theorem mark_for_later_key_error (a : Answers)
    (script : list Answers) (self : TelegramMessage) (st : Store)
    (selected_topics : list Z) (marked : list Z) :
  get_topic_and_misconception_labels_from_user a = Ok (selected_topics, []) →
  menu_choice a = Some MarkForLater →
  messages_marked_for_later st !! str_int (message_id self) = Some marked →
  messages_marked_for_later st !! str_int (chat self) = None →
  label_and_store_message (a :: script) self st
  = (Raise KeyError, script, st).
Proof.
  intros Hselected Hmenu Hkey Hchat.
  rewrite (menu_is_shown a selected_topics) by done.
  rewrite Hmenu. unfold confirm_empty_selection. rewrite Hkey, Hchat.
  reflexivity.
Qed.

End LabelingOutcomes.

Lemma label_and_store_message_stores_unless_stopped_witness :
  Views.stored "2cf24d"
    (Handlers.LabelingMessageHandler.label_and_store_message
       [Examples.skip_it] Examples.stored_message Examples.empty_store).2.
Proof.
  destruct (label_and_store_message_stores_unless_stopped
              [Examples.skip_it] [] Examples.stored_message
              Examples.empty_store _ "message stored without labels"
              eq_refl) as [[Hstop _]|(_ & Hstored & _)].
  - discriminate Hstop.
  - exact Hstored.
Defined.

Lemma mark_for_later_forgets_earlier_marks_witness :
  Handlers.messages_marked_for_later Examples.marked_store !! "100"
  = Some [5]
  ∧ Handlers.messages_marked_for_later
      (Handlers.LabelingMessageHandler.label_and_store_message
         [Examples.mark_it] Examples.stored_message
         Examples.marked_store).2 !! "100"
    = Some [7].
Proof.
  split; [reflexivity|].
  destruct (mark_for_later_forgets_earlier_marks
              Examples.mark_it [] Examples.stored_message
              Examples.marked_store [] eq_refl eq_refl eq_refl)
    as (_ & Hmarked & _).
  rewrite Hmarked. apply lookup_insert_eq.
Defined.

Lemma mark_for_later_key_error_witness :
  Handlers.LabelingMessageHandler.label_and_store_message
    [Examples.mark_it] Examples.stored_message
    (Handlers.set_messages_marked_for_later_index
       {[ "7" := [1] ]} Examples.empty_store)
  = (Raise KeyError, [],
     Handlers.set_messages_marked_for_later_index
       {[ "7" := [1] ]} Examples.empty_store).
Proof.
  exact (mark_for_later_key_error
           Examples.mark_it [] Examples.stored_message
           (Handlers.set_messages_marked_for_later_index
              {[ "7" := [1] ]} Examples.empty_store)
           [] [1] eq_refl eq_refl eq_refl eq_refl).
Defined.

Section LabelAgain.
Import Models Handlers Handlers.LabelingMessageHandler Wording Views.

(** On a stored message, storing a selection without a misconception
    replaces the labels of the message by the topics selected and the one
    label without a misconception. *)
Lemma store_message_and_labels_replaces (self : TelegramMessage)
    (selected_topics : list Z) (st : Store) :
  select_by_hash (hash self) (telegram_message st) ≠ [] →
  let out := store_message_and_labels self selected_topics [] st in
  topics_of (hash self) out.2 = selected_topics
  ∧ misconceptions_of (hash self) out.2 = [None].
Proof.
  intros Hstored. unfold store_message_and_labels. simpl.
  destruct (select_by_hash (hash self) (telegram_message st)) as [|d ds];
    [done|]. simpl.
  unfold topics_of, misconceptions_of. simpl.
  rewrite !List.filter_app, !filter_hash_cleared. simpl.
  rewrite String.eqb_refl. simpl.
  rewrite (filter_hash_written mt_message_hash (hash self)) by done.
  split; [|done].
  rewrite <- list_fmap_compose. simpl. by rewrite list_fmap_id.
Qed.

(** X14.  "Label the message again" does not change what is stored for
    the first selection: when the call returns without a stop, the second
    pass has stored the message, and the first pass then deletes the
    labels just written and writes its own, the topics of the first
    selection and the label without a misconception. *)
Theorem label_again_keeps_first_selection (a : Answers)
    (script script' : list Answers) (self : TelegramMessage)
    (st st' : Store) (selected_topics : list Z) (status : string) :
  get_topic_and_misconception_labels_from_user a = Ok (selected_topics, []) →
  menu_choice a = Some LabelAgain →
  label_and_store_message (a :: script) self st = (Ok status, script', st') →
  status ≠ "stop crawl" →
  topics_of (hash self) st' = selected_topics
  ∧ misconceptions_of (hash self) st' = [None].
Proof.
  intros Hselected Hmenu.
  rewrite (menu_is_shown a selected_topics) by done.
  rewrite Hmenu. unfold confirm_empty_selection.
  pose proof (label_and_store_message_table self script st)
    as [_ Hinner].
  destruct (label_and_store_message script self st)
    as [[[status1|e] script1] st1]; simpl in *; [|done].
  destruct (String.eqb_spec status1 "stop crawl") as [->|Hne]; simpl.
  { by intros [= <- _ _]. }
  destruct Hinner as [[? _]|[_ Hstored]]; [done|].
  pose proof (store_message_and_labels_replaces self selected_topics st1
                Hstored) as Hreplaced.
  destruct (store_message_and_labels self selected_topics [] st1)
    as [[[]|e] st2]; simpl in *.
  - by intros [= _ _ <-] _.
  - done.
Qed.

End LabelAgain.

Lemma label_again_keeps_first_selection_witness :
  Wording.topics_of "2cf24d"
    (Handlers.LabelingMessageHandler.label_and_store_message
       [Examples.label_it_again; Examples.topic_two_confirmed]
       Examples.stored_message Examples.empty_store).2 = []
  ∧ Wording.misconceptions_of "2cf24d"
      (Handlers.LabelingMessageHandler.label_and_store_message
         [Examples.label_it_again; Examples.topic_two_confirmed]
         Examples.stored_message Examples.empty_store).2 = [None].
Proof.
  exact (label_again_keeps_first_selection
           Examples.label_it_again [Examples.topic_two_confirmed] []
           Examples.stored_message Examples.empty_store _ []
           "message stored without labels" eq_refl eq_refl eq_refl
           ltac:(discriminate)).
Defined.
(** ** A message is handled once *)

Section HandledOnce.
Import Models Handlers Wording Views.

Lemma select_by_hash_saved (row : TelegramMessage)
    (rows : list TelegramMessage) :
  select_by_hash (hash row) (save row rows)
  = (λ _, row) <$> select_by_hash (hash row) rows.
Proof.
  unfold select_by_hash, save.
  induction rows as [|r rows IH]; [done|].
  cbn [List.map List.filter].
  destruct (String.eqb (hash r) (hash row)) eqn:Hr.
  - rewrite String.eqb_refl, fmap_cons. by rewrite IH.
  - by rewrite Hr.
Qed.

Lemma select_by_hash_hash (h : string) (rows : list TelegramMessage)
    (d : TelegramMessage) (ds : list TelegramMessage) :
  select_by_hash h rows = d :: ds → hash d = h.
Proof.
  intros Hsel.
  assert (Hin : d ∈ select_by_hash h rows) by (rewrite Hsel; by left).
  unfold select_by_hash in Hin. apply list_elem_of_In, filter_In in Hin.
  destruct Hin as [_ Hd]. by apply String.eqb_eq.
Qed.

(** A message that is not skipped has text and a fingerprint no row
    has; the check leaves the tables as they are. *)
Lemma message_should_be_skipped_not (self : TelegramMessage)
    (st st' : Store) :
  Handlers.message_should_be_skipped self true st = (Ok false, st') →
  String.eqb (content self) "" = false
  ∧ select_by_hash (hash self) (telegram_message st) = []
  ∧ st' = set_telegram_message (telegram_message st) st.
Proof.
  unfold Handlers.message_should_be_skipped, duplicate_exists.
  destruct (String.eqb (content self) ""); [done|].
  destruct (select_by_hash (hash self) (telegram_message st)) as [|d ds].
  - by intros [= <-].
  - destruct (String.eqb (content d) (content self)
              || (Z.eqb (chat d) (chat self)
                  && Z.eqb (message_id d) (message_id self))); [|done].
    by intros [= ?].
Qed.

End HandledOnce.

Section Settled.
Import Models Handlers Wording Views.

(** [TelegramMessageHandler.message_should_be_skipped] answers [True]
    for a message without text or with a row of its fingerprint and
    text. *)
Lemma message_should_be_skipped_settles (self : TelegramMessage)
    (st st' : Store) :
  Handlers.message_should_be_skipped self true st = (Ok true, st') →
  settled false (content self) (hash self) st'
  ∧ message_to_skip st' = message_to_skip st.
Proof.
  unfold Handlers.message_should_be_skipped, duplicate_exists, settled.
  destruct (String.eqb_spec (content self) "") as [Hempty|_].
  { intros [= <-]. split; [by left|done]. }
  destruct (select_by_hash (hash self) (telegram_message st))
    as [|d ds] eqn:Hsel; [done|].
  pose proof (select_by_hash_hash _ _ _ _ Hsel) as Hd.
  destruct (String.eqb (content d) (content self)
            || (Z.eqb (chat d) (chat self)
                && Z.eqb (message_id d) (message_id self))); [|done].
  intros [= <-]. split; [|done]. right. left. simpl.
  rewrite <- Hd in Hsel |- *.
  match goal with
  | |- context [save ?row _] =>
      pose proof (select_by_hash_saved row (telegram_message st))
        as Hsaved;
      cbn [hash] in Hsaved
  end.
  rewrite Hsaved, Hsel. simpl. eauto.
Qed.

Lemma message_should_be_skipped_chatless_settles (self : Chatless)
    (st st' : Store) :
  message_should_be_skipped_chatless self true st = (Ok true, st') →
  settled false (cl_content self) (cl_hash self) st'
  ∧ message_to_skip st' = message_to_skip st.
Proof.
  unfold message_should_be_skipped_chatless, duplicate_exists_chatless,
    settled.
  destruct (String.eqb_spec (cl_content self) "") as [Hempty|_].
  { intros [= <-]. split; [by left|done]. }
  destruct (select_by_hash (cl_hash self) (telegram_message st))
    as [|d ds] eqn:Hsel; [done|].
  pose proof (select_by_hash_hash _ _ _ _ Hsel) as Hd.
  destruct (String.eqb (content d) (cl_content self)); [|done].
  intros [= <-]. split; [|done]. right. left. simpl.
  rewrite <- Hd in Hsel |- *.
  match goal with
  | |- context [save ?row _] =>
      pose proof (select_by_hash_saved row (telegram_message st))
        as Hsaved;
      cbn [hash] in Hsaved
  end.
  rewrite Hsaved, Hsel. simpl. eauto.
Qed.

Lemma message_should_be_skipped_chatless_not (self : Chatless)
    (st st' : Store) :
  message_should_be_skipped_chatless self true st = (Ok false, st') →
  String.eqb (cl_content self) "" = false
  ∧ select_by_hash (cl_hash self) (telegram_message st) = []
  ∧ st' = set_telegram_message (telegram_message st) st.
Proof.
  unfold message_should_be_skipped_chatless, duplicate_exists_chatless.
  destruct (String.eqb (cl_content self) ""); [done|].
  destruct (select_by_hash (cl_hash self) (telegram_message st))
    as [|d ds].
  - by intros [= <-].
  - destruct (String.eqb (content d) (cl_content self)); [|done].
    by intros [= ?].
Qed.

(** On a settled message both forms of the test answer [True], unless
    it is the table of the skipped messages that settles it: then
    they answer [False] and leave the tables alone. *)
Lemma settled_message_should_be_skipped (labels : bool)
    (self : TelegramMessage) (st : Store) :
  settled labels (content self) (hash self) st →
  (∃ st', Handlers.message_should_be_skipped self true st = (Ok true, st'))
  ∨ (labels = true
     ∧ skipped_before (hash self) st = true
     ∧ Handlers.message_should_be_skipped self true st
       = (Ok false, set_telegram_message (telegram_message st) st)).
Proof.
  unfold settled, Handlers.message_should_be_skipped, duplicate_exists.
  intros [Hempty|[(d & ds & Hsel & Hcontent)|(Hlabels & Hsel & Hrows)]].
  - left. rewrite Hempty. simpl. eauto.
  - left. destruct (String.eqb (content self) ""); [eauto|].
    rewrite Hsel, Hcontent, String.eqb_refl. simpl. eauto.
  - destruct (String.eqb (content self) ""); [left; eauto|].
    right. rewrite Hsel. done.
Qed.

Lemma settled_message_should_be_skipped_chatless (labels : bool)
    (self : Chatless) (st : Store) :
  settled labels (cl_content self) (cl_hash self) st →
  (∃ st', message_should_be_skipped_chatless self true st = (Ok true, st'))
  ∨ (labels = true
     ∧ skipped_before (cl_hash self) st = true
     ∧ message_should_be_skipped_chatless self true st
       = (Ok false, set_telegram_message (telegram_message st) st)).
Proof.
  unfold settled, message_should_be_skipped_chatless,
    duplicate_exists_chatless.
  intros [Hempty|[(d & ds & Hsel & Hcontent)|(Hlabels & Hsel & Hrows)]].
  - left. rewrite Hempty. simpl. eauto.
  - left. destruct (String.eqb (cl_content self) ""); [eauto|].
    rewrite Hsel, Hcontent, String.eqb_refl. simpl. eauto.
  - destruct (String.eqb (cl_content self) ""); [left; eauto|].
    right. rewrite Hsel. done.
Qed.

(** What a handler has handled without stopping the crawl is
    settled. *)
Lemma no_labeling_settles (self : TelegramMessage) (st st' : Store)
    (status : string) :
  NoLabelingMessageHandler.handle_message self st = (Ok status, st') →
  settled false (content self) (hash self) st'.
Proof.
  unfold NoLabelingMessageHandler.handle_message.
  destruct (Handlers.message_should_be_skipped self true st)
    as [[[]|e] st1] eqn:Hskip; [| |done].
  - intros [= _ <-]. by apply message_should_be_skipped_settles in Hskip as [? _].
  - apply message_should_be_skipped_not in Hskip as (_ & Hfree & ->).
    unfold save_force_insert. simpl. rewrite Hfree.
    intros [= _ <-]. right. left. simpl.
    rewrite (select_by_hash_appended self _ Hfree). eauto.
Qed.

Lemma no_labeling_chatless_settles (self : Chatless) (st st' : Store)
    (status : string) :
  NoLabelingMessageHandler.handle_message_chatless self st
  = (Ok status, st') →
  settled false (cl_content self) (cl_hash self) st'.
Proof.
  unfold NoLabelingMessageHandler.handle_message_chatless.
  destruct (message_should_be_skipped_chatless self true st)
    as [[[]|e] st1] eqn:Hskip; [|done|done].
  intros [= _ <-].
  by apply message_should_be_skipped_chatless_settles in Hskip as [? _].
Qed.

Lemma settled_with_labels (text h : string) (st : Store) :
  settled false text h st → settled true text h st.
Proof. unfold settled. intros [?|[?|(? & _)]]; [by left|by right; left|done]. Qed.

Lemma labeling_settles (self : TelegramMessage)
    (script script' : list Answers) (st st' : Store) (status : string) :
  LabelingMessageHandler.handle_message script self true st
  = (Ok status, script', st') →
  status ≠ "stop crawl" →
  settled true (content self) (hash self) st'.
Proof.
  intros Hfirst Hstatus.
  unfold LabelingMessageHandler.handle_message,
    LabelingMessageHandler.message_should_be_skipped in Hfirst.
  destruct (Handlers.message_should_be_skipped self true st)
    as [[[]|e] st1] eqn:Hskip; [| |done].
  - injection Hfirst as _ _ <-. apply settled_with_labels.
    by apply message_should_be_skipped_settles in Hskip as [? _].
  - pose proof (message_should_be_skipped_not self st st1 Hskip)
      as (_ & Hfree & Hst1).
    destruct (negb (length (List.filter _ (message_to_skip st1)) =? 0)%nat)
      eqn:Hrows.
    + injection Hfirst as _ _ <-. right. right.
      split; [done|]. split; [by rewrite Hst1|exact Hrows].
    + pose proof (label_and_store_message_table self script st1)
        as [Htable Hout].
      rewrite Hfirst in Htable, Hout. simpl in Htable, Hout.
      destruct Hout as [[? _]|[_ Hstored]]; [done|].
      right. left.
      rewrite Hst1 in Htable. unfold appends_at_most in Htable.
      simpl in Htable.
      destruct Htable as [Heq|[_ Heq]]; rewrite Heq in *.
      * by rewrite Hfree in Hstored.
      * rewrite (select_by_hash_appended self _ Hfree). eauto.
Qed.

Lemma labeling_chatless_settles (self : Chatless)
    (script script' : list Answers) (st st' : Store) (status : string) :
  LabelingMessageHandler.handle_message_chatless script self true st
  = (Ok status, script', st') →
  settled true (cl_content self) (cl_hash self) st'.
Proof.
  unfold LabelingMessageHandler.handle_message_chatless.
  destruct (message_should_be_skipped_chatless self true st)
    as [[[]|e] st1] eqn:Hskip; [| |done].
  - intros [= _ _ <-]. apply settled_with_labels.
    by apply message_should_be_skipped_chatless_settles in Hskip as [? _].
  - pose proof (message_should_be_skipped_chatless_not self st st1 Hskip)
      as (_ & Hfree & Hst1).
    destruct (negb (length (List.filter _ (message_to_skip st1)) =? 0)%nat)
      eqn:Hrows; [|done].
    intros [= _ _ <-]. right. right.
    split; [done|]. split; [by rewrite Hst1|exact Hrows].
Qed.

Lemma settled_same_tables (labels : bool) (text h : string)
    (st st' : Store) :
  telegram_message st' = telegram_message st →
  message_to_skip st' = message_to_skip st →
  settled labels text h st → settled labels text h st'.
Proof.
  unfold settled, skipped_before. by intros -> ->.
Qed.

End Settled.

Section ChatsKept.
Import Models Handlers Handlers.LabelingMessageHandler Wording Views.

(** The handlers leave the table of the chats alone. *)
Lemma message_should_be_skipped_chats (self : TelegramMessage)
    (skip : bool) (st : Store) :
  telegram_chat (Handlers.message_should_be_skipped self skip st).2
  = telegram_chat st.
Proof.
  unfold Handlers.message_should_be_skipped.
  destruct (String.eqb (content self) ""); [done|].
  by destruct (duplicate_exists self (telegram_message st)) as [[]|].
Qed.

Lemma message_should_be_skipped_chatless_chats (self : Chatless)
    (skip : bool) (st : Store) :
  telegram_chat (message_should_be_skipped_chatless self skip st).2
  = telegram_chat st.
Proof.
  unfold message_should_be_skipped_chatless.
  destruct (String.eqb (cl_content self) ""); [done|].
  by destruct (duplicate_exists_chatless self (telegram_message st))
    as [[]|].
Qed.

Lemma no_labeling_chats (self : TelegramMessage) (st : Store) :
  telegram_chat (NoLabelingMessageHandler.handle_message self st).2
  = telegram_chat st.
Proof.
  unfold NoLabelingMessageHandler.handle_message.
  pose proof (message_should_be_skipped_chats self true st) as Hskip.
  destruct (Handlers.message_should_be_skipped self true st)
    as [[[]|e] st1]; simpl in *; [done| |done].
  by destruct (save_force_insert self (telegram_message st1)).
Qed.

Lemma store_message_and_labels_chats (self : TelegramMessage)
    (selected_topics selected_misconceptions : list Z) (st : Store) :
  telegram_chat
    (store_message_and_labels
       self selected_topics selected_misconceptions st).2
  = telegram_chat st.
Proof.
  unfold store_message_and_labels, save_force_insert.
  destruct (select_by_hash (hash self) (telegram_message st)); simpl;
    by destruct (length selected_misconceptions =? 0)%nat.
Qed.

Lemma store_unless_stopped_chats (self : TelegramMessage)
    (selected_topics selected_misconceptions : list Z)
    (r : interaction (option string)) (st : Store) :
  telegram_chat r.2 = telegram_chat st →
  telegram_chat
    (store_unless_stopped self selected_topics selected_misconceptions r).2
  = telegram_chat st.
Proof.
  destruct r as [[[[status|]|e] script] st1]; simpl; try done.
  intros Hkept. destruct (String.eqb status "stop crawl"); [done|].
  pose proof (store_message_and_labels_chats
                self selected_topics selected_misconceptions st1) as Hst.
  destruct (store_message_and_labels _ _ _ st1) as [[[]|e] st2];
    simpl in *; [|congruence].
  destruct (0 <? length selected_misconceptions)%nat; simpl; congruence.
Qed.

Lemma confirm_empty_selection_chats
    (relabel : Store → interaction string) (answer : option Choice)
    (self : TelegramMessage) (script : list Answers) (st : Store) :
  telegram_chat (relabel st).2 = telegram_chat st →
  telegram_chat (confirm_empty_selection relabel answer self script st).2
  = telegram_chat st.
Proof.
  intros Hrelabel. unfold confirm_empty_selection.
  destruct answer as [[]|]; simpl; try done.
  by destruct (_ !! str_int (chat self)).
Qed.

Lemma label_and_store_message_chats (self : TelegramMessage)
    (script : list Answers) :
  ∀ st : Store,
    telegram_chat (label_and_store_message script self st).2
    = telegram_chat st.
Proof.
  induction script as [|a script IH]; intros st; [done|].
  unfold label_and_store_message; fold label_and_store_message.
  destruct (get_topic_and_misconception_labels_from_user a)
    as [[selected_topics selected_misconceptions]|e]; [|done].
  apply store_unless_stopped_chats.
  pose proof (confirm_empty_selection_chats
                (label_and_store_message script self) (menu_choice a)
                self script st (IH st)) as Hmenu.
  destruct (length selected_topics =? 0)%nat;
    [|destruct (length selected_misconceptions =? 0)%nat; [|done]].
  all: by destruct (confirm_empty_selection _ _ _ _ _) as [[[]] ?].
Qed.

Lemma labeling_chats (self : TelegramMessage) (script : list Answers)
    (skip : bool) (st : Store) :
  telegram_chat
    (LabelingMessageHandler.handle_message script self skip st).2
  = telegram_chat st.
Proof.
  unfold LabelingMessageHandler.handle_message,
    LabelingMessageHandler.message_should_be_skipped.
  pose proof (message_should_be_skipped_chats self skip st) as Hskip.
  destruct (Handlers.message_should_be_skipped self skip st)
    as [[[]|e] st1]; simpl in *; [done| |done].
  destruct (negb _); simpl; [done|].
  by rewrite label_and_store_message_chats.
Qed.

Lemma chatless_chats (self : Chatless) (script : list Answers)
    (skip : bool) (st : Store) :
  telegram_chat (NoLabelingMessageHandler.handle_message_chatless self st).2
  = telegram_chat st
  ∧ telegram_chat
      (LabelingMessageHandler.handle_message_chatless
         script self skip st).2
    = telegram_chat st.
Proof.
  unfold NoLabelingMessageHandler.handle_message_chatless,
    LabelingMessageHandler.handle_message_chatless.
  split.
  - pose proof (message_should_be_skipped_chatless_chats self true st)
      as Hskip.
    by destruct (message_should_be_skipped_chatless self true st)
      as [[[]|e] st1].
  - pose proof (message_should_be_skipped_chatless_chats self skip st)
      as Hskip.
    destruct (message_should_be_skipped_chatless self skip st)
      as [[[]|e] st1]; simpl in *; [done| |done].
    by destruct (negb _).
Qed.

(** The chat [get_or_create_by_id] returns is in the table it
    leaves. *)
Lemma get_or_create_by_id_stores
    (get_chat_info : Z → result (list Chats.ChatInfo)) (now : string)
    (chat_id : Z) (table table' : gmap Z Chats.TelegramChat)
    (chat : Chats.TelegramChat) :
  Chats.get_or_create_by_id get_chat_info now chat_id table
  = (Ok (Some chat), table') →
  is_Some (table' !! chat_id).
Proof.
  unfold Chats.get_or_create_by_id.
  destruct (table !! chat_id) as [stored|] eqn:Hstored.
  - intros [= <- <-]. by rewrite Hstored.
  - destruct (Chats.get_chat_metadata (get_chat_info chat_id))
      as [chat_metadata|e].
    + destruct (Chats.meta_username chat_metadata) as [username|]; [|done].
      intros [= <- <-]. by rewrite lookup_insert_eq.
    + by destruct (Chats.caught e).
Qed.

End ChatsKept.

Section HandledOnceByTheCrawl.
Context `{Collaborators}.
Import Telethon Models Handlers Crawler Wording Views.

Lemma from_telethon_message_text (m : Message) (db db' : Store)
    (message : HandlerMessage) :
  from_telethon_message m db = (Ok message, db') →
  ∃ text, Telethon.message m = Some text
          ∧ text_of message = (text, get_hash text)
          ∧ telegram_message db' = telegram_message db
          ∧ message_to_skip db' = message_to_skip db.
Proof.
  unfold from_telethon_message.
  destruct (Chats.get_or_create_by_id _ _ _ _) as [[chat|e] table];
    [|done].
  destruct (Telethon.message m) as [text|]; [|done].
  intros [= <- <-]. exists text. by destruct chat.
Qed.

(** A settled message is skipped, without a prompt. *)
Lemma settled_is_skipped (message_handler : MessageHandler)
    (message : HandlerMessage) (prompts : list Answers) (db : Store) :
  settled (handler_labels message_handler)
          (text_of message).1 (text_of message).2 db →
  ∃ db',
    match message_handler, message with
    | NoLabeling, OfChat self =>
        let '(status, db) :=
          NoLabelingMessageHandler.handle_message self db in
        (status, prompts, db)
    | NoLabeling, OfNoChat self =>
        let '(status, db) :=
          NoLabelingMessageHandler.handle_message_chatless self db in
        (status, prompts, db)
    | Labeling, OfChat self =>
        LabelingMessageHandler.handle_message prompts self true db
    | Labeling, OfNoChat self =>
        LabelingMessageHandler.handle_message_chatless prompts self true db
    end = (Ok "message skipped", prompts, db').
Proof.
  intros Hsettled.
  destruct message as [self|self]; simpl in Hsettled.
  - destruct (settled_message_should_be_skipped _ self db Hsettled)
      as [[st' Hskip]|(Hlabels & Hrows & Hskip)];
      destruct message_handler; try done;
      unfold NoLabelingMessageHandler.handle_message,
        LabelingMessageHandler.handle_message,
        LabelingMessageHandler.message_should_be_skipped;
      rewrite Hskip; [eauto|eauto|].
    unfold skipped_before in Hrows. simpl. rewrite Hrows. eauto.
  - destruct (settled_message_should_be_skipped_chatless _ self db
                Hsettled)
      as [[st' Hskip]|(Hlabels & Hrows & Hskip)];
      destruct message_handler; try done;
      unfold NoLabelingMessageHandler.handle_message_chatless,
        LabelingMessageHandler.handle_message_chatless;
      rewrite Hskip; [eauto|eauto|].
    unfold skipped_before in Hrows. simpl. rewrite Hrows. eauto.
Qed.

(** What [handle_message] has handled without stopping the crawl is
    settled in the store it leaves. *)
Lemma handle_message_settles (message_handler : MessageHandler)
    (m : Message) (prompts prompts' : list Answers) (db db' : Store)
    (status : string) (message : HandlerMessage) :
  handle_message message_handler m prompts db
  = (Ok (status, message), prompts', db') →
  status ≠ "stop crawl" →
  ∃ text, Telethon.message m = Some text
          ∧ settled (handler_labels message_handler)
                    text (get_hash text) db'.
Proof.
  intros Hfirst Hstatus. unfold handle_message in Hfirst.
  destruct (from_telethon_message m db) as [[first|e] db1] eqn:Hrow;
    [|done].
  apply from_telethon_message_text in Hrow
    as (text & Htext & Hfirst_text & _).
  exists text. split; [done|].
  destruct message_handler, first as [self|self];
    simpl in Hfirst_text; injection Hfirst_text as <- <-; simpl.
  - destruct (NoLabelingMessageHandler.handle_message self db1)
      as [[status1|e] db2] eqn:Hcall; simpl in Hfirst; [|done].
    injection Hfirst as _ _ _ <-. by eapply no_labeling_settles.
  - destruct (NoLabelingMessageHandler.handle_message_chatless self db1)
      as [[status1|e] db2] eqn:Hcall; simpl in Hfirst; [|done].
    injection Hfirst as _ _ _ <-. by eapply no_labeling_chatless_settles.
  - destruct (LabelingMessageHandler.handle_message prompts self true db1)
      as [[[status1|e] prompts1] db2] eqn:Hcall; simpl in Hfirst; [|done].
    injection Hfirst as -> _ _ <-. by eapply labeling_settles.
  - destruct (LabelingMessageHandler.handle_message_chatless
                prompts self true db1)
      as [[[status1|e] prompts1] db2] eqn:Hcall; simpl in Hfirst; [|done].
    injection Hfirst as _ _ _ <-. by eapply labeling_chatless_settles.
Qed.

(** [handle_message] leaves the table of the chats as the conversion
    of the message left it. *)
Lemma handle_message_chats (message_handler : MessageHandler)
    (m : Message) (prompts : list Answers) (db : Store) :
  telegram_chat (handle_message message_handler m prompts db).2
  = telegram_chat (from_telethon_message m db).2.
Proof.
  unfold handle_message.
  destruct (from_telethon_message m db) as [[message|e] db1]; [|done].
  destruct message_handler, message as [self|self]; simpl.
  - pose proof (no_labeling_chats self db1) as Hkept.
    by destruct (NoLabelingMessageHandler.handle_message self db1).
  - pose proof (proj1 (chatless_chats self prompts true db1)) as Hkept.
    by destruct (NoLabelingMessageHandler.handle_message_chatless self db1).
  - pose proof (labeling_chats self prompts true db1) as Hkept.
    by destruct (LabelingMessageHandler.handle_message prompts self true db1)
      as [[? ?] ?].
  - pose proof (proj2 (chatless_chats self prompts true db1)) as Hkept.
    by destruct (LabelingMessageHandler.handle_message_chatless
                   prompts self true db1) as [[? ?] ?].
Qed.

(** A message that was handled with its chat has left the chat in the
    table. *)
Lemma handle_message_chat_stored (message_handler : MessageHandler)
    (m : Message) (prompts prompts' : list Answers) (db db' : Store)
    (status : string) (self : TelegramMessage) :
  handle_message message_handler m prompts db
  = (Ok (status, OfChat self), prompts', db') →
  is_Some (telegram_chat db' !! peer_channel_id m).
Proof.
  intros Hfirst.
  pose proof (handle_message_chats message_handler m prompts db) as Hkept.
  rewrite Hfirst in Hkept. simpl in Hkept. rewrite Hkept.
  unfold handle_message in Hfirst.
  unfold from_telethon_message in Hfirst |- *.
  pose proof (get_or_create_by_id_stores
                get_chat_info (clock db) (peer_channel_id m)
                (telegram_chat db)) as Hstores.
  destruct (Chats.get_or_create_by_id
              get_chat_info (clock db) (peer_channel_id m)
              (telegram_chat db)) as [[[chat|]|e] table]; [| |done].
  - destruct (Telethon.message m); simpl; by eapply Hstores.
  - destruct (Telethon.message m); [|done]. exfalso.
    destruct message_handler.
    + by destruct (NoLabelingMessageHandler.handle_message_chatless _ _)
        as [[]].
    + by destruct (LabelingMessageHandler.handle_message_chatless _ _ _ _)
        as [[[]]].
Qed.

End HandledOnceByTheCrawl.

Section HandledOnceWhateverTelegramAnswers.
Context `{Collaborators}.
Import Telethon Models Handlers Crawler Wording Views.

(** X15.  A message is handled once.  When a handler has handled a
    message without stopping the crawl (stored it, skipped it, or had the
    user decide), the same handler skips every message with the same
    text whose conversion by [from_telethon_message] does not raise,
    without a prompt: the user is not asked twice.  This holds whatever
    Telegram answers for a chat by then ([other] has the same [get_hash]
    and is free otherwise).  For a message of the same chat the
    conversion does not raise when the first message was handled with
    its chat. *)
Theorem handled_message_is_skipped_next_time
    (message_handler : MessageHandler) (m again : Message)
    (prompts prompts' prompts2 : list Answers) (db db' : Store)
    (status : string) (message : HandlerMessage) :
  handle_message message_handler m prompts db
  = (Ok (status, message), prompts', db') →
  status ≠ "stop crawl" →
  Telethon.message again = Telethon.message m →
  ∀ other : Collaborators,
    @get_hash other = @get_hash H →
    (∀ (message2 : HandlerMessage) (db2 : Store),
       @from_telethon_message other again db' = (Ok message2, db2) →
       ∃ db'',
         @handle_message other message_handler again prompts2 db'
         = (Ok ("message skipped", message2), prompts2, db''))
    ∧ (peer_channel_id again = peer_channel_id m →
       (∃ self, message = OfChat self) →
       ∃ (message2 : HandlerMessage) (db2 : Store),
         @from_telethon_message other again db' = (Ok message2, db2)).
Proof.
  intros Hfirst Hstatus Htext other Hhash.
  destruct (handle_message_settles _ _ _ _ _ _ _ _ Hfirst Hstatus)
    as (text & Hm & Hsettled).
  split.
  - intros message2 db2 Hagain.
    unfold handle_message. rewrite Hagain.
    apply (@from_telethon_message_text other) in Hagain
      as (text2 & Hagain_text & Hmessage2 & Htable & Hskips).
    rewrite Htext, Hm in Hagain_text. injection Hagain_text as <-.
    destruct (settled_is_skipped message_handler message2 prompts2 db2)
      as [db'' ->].
    { rewrite Hmessage2, Hhash. simpl.
      by apply (settled_same_tables _ _ _ db'). }
    simpl. eauto.
  - intros Hchat [self ->]. rewrite Hm in Htext.
    apply handle_message_chat_stored in Hfirst as [chat Hchat_row].
    unfold from_telethon_message, Chats.get_or_create_by_id.
    rewrite Hchat, Hchat_row, Htext. eauto.
Qed.

End HandledOnceWhateverTelegramAnswers.


Lemma handled_message_is_skipped_next_time_witness :
  (∀ (message2 : Crawler.HandlerMessage) (db2 : Handlers.Store),
     @Crawler.from_telethon_message Examples.failing_collaborators
       (Examples.with_text 2 "hello")
       (Handlers.set_telegram_message [Examples.hello_row]
                                      Examples.empty_store)
     = (Ok message2, db2) →
     ∃ db'',
       @Crawler.handle_message Examples.failing_collaborators
         Crawler.NoLabeling (Examples.with_text 2 "hello") []
         (Handlers.set_telegram_message [Examples.hello_row]
                                        Examples.empty_store)
       = (Ok ("message skipped", message2), [], db''))
  ∧ (100 = 100 →
     (∃ self, Crawler.OfChat Examples.hello_row = Crawler.OfChat self) →
     ∃ (message2 : Crawler.HandlerMessage) (db2 : Handlers.Store),
       @Crawler.from_telethon_message Examples.failing_collaborators
         (Examples.with_text 2 "hello")
         (Handlers.set_telegram_message [Examples.hello_row]
                                        Examples.empty_store)
       = (Ok message2, db2)).
Proof.
  exact (@handled_message_is_skipped_next_time
           Examples.relevant_collaborators Crawler.NoLabeling
           (Examples.with_text 1 "hello") (Examples.with_text 2 "hello")
           [] [] [] Examples.empty_store
           (Handlers.set_telegram_message [Examples.hello_row]
                                          Examples.empty_store)
           "message stored without labels"
           (Crawler.OfChat Examples.hello_row)
           eq_refl ltac:(discriminate) eq_refl
           Examples.failing_collaborators eq_refl).
Defined.
(** ** What a crawl keeps *)

(** Every step of a crawl is a change of the crawl state that keeps its
    index, a call of a message handler, or a write of the crawl state.  A
    relation between worlds that is reflexive and transitive and holds
    across these three steps holds across [handle_chat] and across a whole
    run. *)
Section Lifting.
Context `{Collaborators}.
Import Telethon State Models Handlers Crawler Wording Views.

Variable R : World → World → Prop.
Hypothesis Rrefl : ∀ w, R w w.
Hypothesis Rtrans : ∀ a b c, R a b → R b c → R a c.
Hypothesis Rstate :
  ∀ w crawl_state',
    index crawl_state' = index (crawl_state w) →
    R w (with_crawl_state crawl_state' w).
Hypothesis Rhandle :
  ∀ w message_handler m,
    R w {| crawl_state := crawl_state w; crawls := crawls w;
           db := (handle_message message_handler m (prompts w) (db w)).2;
           prompts :=
             (handle_message message_handler m (prompts w) (db w)).1.2 |}.
Hypothesis Rcheckpoint :
  ∀ self w w', checkpoint self w = Ok w' → R w w'.

Lemma iter_messages_lift (self : Crawler) (chat_id : Z)
    (min_date max_date : Bound) (message_handler : MessageHandler)
    (feed : Feed) :
  ∀ w : World,
    R w (iter_messages self chat_id min_date max_date message_handler
                       feed w).1.2.
Proof.
  induction feed as [|m feed IH|e]; intros w; simpl; [done| |done].
  destruct (crawl_should_be_stopped self (crawl_state w) m min_date max_date)
    as [[]|e]; simpl; try done.
  destruct (message_should_be_skipped self (crawl_state w) m max_date)
    as [[skip cs]|e] eqn:Hskip; simpl; [|done].
  apply message_should_be_skipped_differs in Hskip.
  assert (Hindex : index cs = index (crawl_state w)) by by rewrite Hskip.
  pose proof (Rstate w cs Hindex) as Hstep.
  destruct skip; simpl.
  { eapply Rtrans; [exact Hstep|]. apply IH. }
  pose proof (Rhandle (with_crawl_state cs w) message_handler m) as Hhandled.
  simpl in Hhandled.
  destruct (handle_message message_handler m (prompts w) (db w))
    as [[[[status self_message]|e] prompts'] db']; simpl in *.
  2: { by eapply Rtrans. }
  assert (Hw1 : R w {| crawl_state := cs; crawls := crawls w;
                       db := db'; prompts := prompts' |})
    by by eapply Rtrans.
  destruct (check_status_keeps_state
              chat_id cs status (message_chat_id self_message))
    as [-> | ->]; simpl.
  - destruct (checkpoint self _) as [w2|e] eqn:Hwrite; simpl; [|done].
    eapply Rtrans; [exact Hw1|]. by eapply Rcheckpoint.
  - destruct (checkpoint self _) as [w2|e] eqn:Hwrite; simpl; [|done].
    eapply Rtrans; [exact Hw1|].
    eapply Rtrans; [by eapply Rcheckpoint|]. apply IH.
Qed.

Lemma chat_done_lift (self : Crawler) (chat_id : Z) (max_date : Bound)
    (w : World) :
  R w (chat_done self chat_id max_date w).1.2.
Proof.
  unfold chat_done.
  set (cs1 := match max_date with
              | NoBound => set_chats_to_search _ _
              | _ => set_chats_searched _ _
              end).
  assert (Hindex : index cs1 = index (crawl_state w)).
  { subst cs1. by destruct max_date. }
  pose proof (Rstate w cs1 Hindex) as H1.
  destruct (pop0 (chats_to_search cs1)) as [queue|e]; simpl; [|done].
  pose proof (Rstate (with_crawl_state cs1 w)
                     (set_chats_to_search queue cs1) eq_refl) as H2.
  destruct (checkpoint self _) as [w2|e] eqn:Hwrite; simpl.
  - eapply Rtrans; [exact H1|]. eapply Rtrans; [exact H2|].
    by eapply Rcheckpoint.
  - by eapply Rtrans.
Qed.

Lemma channel_private_lift (self : Crawler) (chat_id : Z) (w : World) :
  R w (channel_private self chat_id w).1.2.
Proof.
  unfold channel_private.
  set (cs1 := set_chats_not_searchable _ (crawl_state w)).
  pose proof (Rstate w cs1 eq_refl) as H1.
  destruct (pop0 (chats_to_search cs1)) as [queue|e]; simpl; [|done].
  pose proof (Rstate (with_crawl_state cs1 w)
                     (set_chats_to_search queue cs1) eq_refl) as H2.
  destruct (checkpoint self _) as [w2|e] eqn:Hwrite; simpl.
  - eapply Rtrans; [exact H1|]. eapply Rtrans; [exact H2|].
    by eapply Rcheckpoint.
  - by eapply Rtrans.
Qed.

Lemma handle_chat_lift (self : Crawler) (chat_id : Z) (feed : Feed)
    (w : World) :
  R w (handle_chat self chat_id feed w).1.2.
Proof.
  unfold handle_chat, loop_over_chat.
  pose proof (iter_messages_lift
                self chat_id (min_date (crawl_state w))
                (max_date (crawl_state w))
                (if no_labeling_mode (crawl_state w)
                 then NoLabeling else Labeling) feed w) as Hloop.
  destruct (iter_messages _ _ _ _ _ _ _) as [[exit w1] events].
  simpl in *. destruct exit as [| |e]; simpl; [|done|].
  - eapply Rtrans; [exact Hloop|]. apply chat_done_lift.
  - destruct e; simpl; try done.
    eapply Rtrans; [exact Hloop|]. apply channel_private_lift.
Qed.

Lemma await_handle_chat_lift (self : Crawler) (chat_id : Z) (feed : Feed)
    (w : World) :
  R w (await_handle_chat self chat_id feed w).1.2.
Proof.
  destruct self as [|keywords|base_model model_directory]; simpl;
    [apply handle_chat_lift | apply handle_chat_lift |].
  assert (Hnote : index (note_classified chat_id (crawl_state w)).2
                  = index (crawl_state w)).
  { unfold note_classified.
    by destruct (current_chat_classified_messages_ids _) as [[|]|]. }
  destruct (note_classified chat_id (crawl_state w)) as [[[]|e] cs];
    simpl in *.
  - eapply Rtrans; [by apply Rstate|]. apply handle_chat_lift.
  - by apply Rstate.
Qed.

Lemma crawl_passes_lift (self : Crawler) (feed_of : Z → Feed) (fuel : nat) :
  ∀ (stop_check : list Z) (w : World),
    R w (crawl_passes fuel self feed_of stop_check w).1.2.
Proof.
  induction fuel as [|fuel IH]; intros stop_check w; simpl; [done|].
  unfold crawl_pass.
  destruct (chats_to_search (crawl_state w)) as [|chat_id queue]; [done|].
  destruct (bool_decide (chat_id ∈ stop_check)); [done|].
  pose proof (await_handle_chat_lift self chat_id (feed_of chat_id) w)
    as Hchat.
  destruct (await_handle_chat self chat_id (feed_of chat_id) w)
    as [[[v|e] w1] events]; simpl in *; [|done].
  destruct (v =? 1); simpl; [done|].
  eapply Rtrans; [exact Hchat|]. apply IH.
Qed.

Lemma start_or_resume_crawl_lift (fuel : nat) (self : Crawler)
    (feed_of : Z → Feed) (now : string) (w w' : World)
    (r : result unit) (events : list Event) :
  start_or_resume_crawl fuel self feed_of now w = Some ((r, w'), events) →
  R w w'.
Proof.
  unfold start_or_resume_crawl.
  pose proof (crawl_passes_lift self feed_of fuel [] w) as Hloop.
  destruct (crawl_passes fuel self feed_of [] w) as [[pass w1] events1].
  simpl in Hloop.
  assert (Hfinish : ∀ b : bool,
            match
              checkpoint self
                (with_crawl_state
                   (if (length (chats_to_search (crawl_state w1)) =? 0)%nat
                       || b
                    then set_finished (Some now) (crawl_state w1)
                    else crawl_state w1) w1)
            with
            | Ok w0 => Some (Ok (), w0, events1 ++ [written w0])
            | Raise e =>
                Some
                  (Raise e,
                   with_crawl_state
                     (if (length (chats_to_search (crawl_state w1)) =? 0)%nat
                         || b
                      then set_finished (Some now) (crawl_state w1)
                      else crawl_state w1) w1, events1)
            end = Some (r, w', events) →
            R w w').
  { intros b.
    assert (Hstep : R w1 (with_crawl_state
                            (if (length (chats_to_search (crawl_state w1))
                                 =? 0)%nat || b
                             then set_finished (Some now) (crawl_state w1)
                             else crawl_state w1) w1)).
    { apply Rstate. by destruct (_ || _). }
    destruct (checkpoint self _) as [w2|e] eqn:Hwrite.
    - intros [= _ <- _]. eapply Rtrans; [exact Hloop|].
      eapply Rtrans; [exact Hstep|]. by eapply Rcheckpoint.
    - intros [= _ <- _]. by eapply Rtrans. }
  destruct pass as [b| |sc|e]; [apply Hfinish | apply Hfinish | done |].
  by intros [= _ <- _].
Qed.

End Lifting.
(** ** The message table and the collection of the crawls across a run *)

Section MessageKeys.
Import Models Handlers Wording Views.

Lemma save_hashes (row : TelegramMessage) (rows : list TelegramMessage) :
  hash <$> save row rows = hash <$> rows.
Proof.
  unfold save. induction rows as [|r rows IH]; [done|].
  cbn [List.map]. rewrite !fmap_cons, IH.
  by destruct (String.eqb_spec (hash r) (hash row)) as [->|].
Qed.

Lemma duplicate_exists_hashes (self : TelegramMessage)
    (rows rows' : list TelegramMessage) (found : bool) :
  duplicate_exists self rows = Ok (found, rows') →
  hash <$> rows' = hash <$> rows.
Proof.
  unfold duplicate_exists.
  destruct (select_by_hash (hash self) rows) as [|d ds];
    [by intros [= _ <-]|].
  destruct (String.eqb (content d) (content self)
            || (Z.eqb (chat d) (chat self)
                && Z.eqb (message_id d) (message_id self))); [|done].
  intros [= _ <-]. apply save_hashes.
Qed.

Lemma message_should_be_skipped_hashes (self : TelegramMessage)
    (skip_messages_already_stored : bool) (st : Store) :
  hash <$> telegram_message
             (Handlers.message_should_be_skipped
                self skip_messages_already_stored st).2
  = hash <$> telegram_message st.
Proof.
  unfold Handlers.message_should_be_skipped.
  destruct (String.eqb (content self) ""); [done|].
  destruct (duplicate_exists self (telegram_message st))
    as [[found rows]|e] eqn:Hdup; [|done].
  simpl. by eapply duplicate_exists_hashes.
Qed.

Lemma extends_messages_hashes (st st' : Store) :
  hash <$> telegram_message st' = hash <$> telegram_message st →
  extends_messages st st'.
Proof.
  intros Heq. unfold extends_messages, keyed. by rewrite Heq.
Qed.

Lemma extends_messages_append (self : TelegramMessage) (st st' : Store) :
  appends_at_most self st st' → extends_messages st st'.
Proof.
  intros [Heq|[Hfree Heq]]; unfold extends_messages, keyed; rewrite Heq.
  - done.
  - rewrite fmap_app. split; [by apply prefix_app_r|].
    intros Hkey. apply NoDup_app. split; [done|].
    split; [|apply NoDup_singleton].
    intros h Hh Hself. apply list_elem_of_singleton in Hself as ->.
    apply list_elem_of_fmap in Hh as (r & Hr & Hin).
    rewrite select_by_hash_none in Hfree. by apply (Hfree r).
Qed.

Lemma extends_messages_trans (a b c : Store) :
  extends_messages a b → extends_messages b c → extends_messages a c.
Proof.
  intros [Hab Hkab] [Hbc Hkbc]. split; [by etrans|auto].
Qed.

Lemma no_labeling_extends_messages (self : TelegramMessage) (st : Store) :
  extends_messages st (NoLabelingMessageHandler.handle_message self st).2.
Proof.
  unfold NoLabelingMessageHandler.handle_message.
  pose proof (message_should_be_skipped_hashes self true st) as Hskip.
  destruct (Handlers.message_should_be_skipped self true st)
    as [[[]|e] st1]; simpl in *;
    try by apply extends_messages_hashes.
  apply (extends_messages_trans st st1);
    [by apply extends_messages_hashes|].
  unfold save_force_insert.
  destruct (select_by_hash (hash self) (telegram_message st1)) eqn:Hfree;
    simpl; [|by apply extends_messages_hashes].
  apply (extends_messages_append self). by right.
Qed.

Lemma labeling_extends_messages (self : TelegramMessage)
    (script : list Answers) (skip_messages_already_stored : bool)
    (st : Store) :
  extends_messages
    st (LabelingMessageHandler.handle_message
          script self skip_messages_already_stored st).2.
Proof.
  unfold LabelingMessageHandler.handle_message,
    LabelingMessageHandler.message_should_be_skipped.
  pose proof (message_should_be_skipped_hashes
                self skip_messages_already_stored st) as Hskip.
  destruct (Handlers.message_should_be_skipped
              self skip_messages_already_stored st)
    as [[[]|e] st1]; simpl in *;
    try by apply extends_messages_hashes.
  destruct (negb _); simpl; [by apply extends_messages_hashes|].
  apply (extends_messages_trans st st1);
    [by apply extends_messages_hashes|].
  apply (extends_messages_append self).
  apply (label_and_store_message_table self script st1).
Qed.

Lemma message_should_be_skipped_chatless_hashes (self : Chatless)
    (skip_messages_already_stored : bool) (st : Store) :
  hash <$> telegram_message
             (message_should_be_skipped_chatless
                self skip_messages_already_stored st).2
  = hash <$> telegram_message st.
Proof.
  unfold message_should_be_skipped_chatless, duplicate_exists_chatless.
  destruct (String.eqb (cl_content self) ""); [done|].
  destruct (select_by_hash (cl_hash self) (telegram_message st))
    as [|d ds]; [done|].
  destruct (String.eqb (content d) (cl_content self)); [|done].
  simpl. apply save_hashes.
Qed.

Lemma chatless_extends_messages (self : Chatless) (script : list Answers)
    (skip_messages_already_stored : bool) (st : Store) :
  extends_messages
    st (NoLabelingMessageHandler.handle_message_chatless self st).2
  ∧ extends_messages
      st (LabelingMessageHandler.handle_message_chatless
            script self skip_messages_already_stored st).2.
Proof.
  unfold NoLabelingMessageHandler.handle_message_chatless,
    LabelingMessageHandler.handle_message_chatless.
  split.
  - pose proof (message_should_be_skipped_chatless_hashes self true st)
      as Hskip.
    destruct (message_should_be_skipped_chatless self true st)
      as [[[]|e] st1]; simpl in *; by apply extends_messages_hashes.
  - pose proof (message_should_be_skipped_chatless_hashes
                  self skip_messages_already_stored st) as Hskip.
    destruct (message_should_be_skipped_chatless
                self skip_messages_already_stored st)
      as [[[]|e] st1]; simpl in *;
      try by apply extends_messages_hashes.
    destruct (negb _); by apply extends_messages_hashes.
Qed.

End MessageKeys.

Section AcrossARun.
Context `{Collaborators}.
Import Telethon State Models Handlers Crawler Wording Views.

(** The conversion of a message touches the table of the chats
    only. *)
Lemma from_telethon_message_tables (m : Message) (db : Store) :
  let db' := (from_telethon_message m db).2 in
  telegram_message db' = telegram_message db
  ∧ message_topic db' = message_topic db
  ∧ message_misconception db' = message_misconception db
  ∧ message_to_skip db' = message_to_skip db
  ∧ messages_marked_for_later db' = messages_marked_for_later db
  ∧ clock db' = clock db.
Proof.
  unfold from_telethon_message.
  destruct (Chats.get_or_create_by_id _ _ _ _) as [[chat|e] table];
    [|done].
  by destruct (message m).
Qed.

Lemma handle_message_extends_messages (message_handler : MessageHandler)
    (m : Message) (prompts : list Answers) (db : Store) :
  extends_messages db (handle_message message_handler m prompts db).2.
Proof.
  unfold handle_message.
  pose proof (from_telethon_message_tables m db) as [Htable _].
  destruct (from_telethon_message m db) as [[message|e] db1];
    simpl in Htable;
    [|simpl; apply extends_messages_hashes; by rewrite Htable].
  apply (extends_messages_trans db db1);
    [apply extends_messages_hashes; by rewrite Htable|].
  destruct message_handler, message as [self|self].
  - pose proof (no_labeling_extends_messages self db1) as Hext.
    by destruct (NoLabelingMessageHandler.handle_message self db1).
  - pose proof (proj1 (chatless_extends_messages self prompts true db1))
      as Hext.
    by destruct (NoLabelingMessageHandler.handle_message_chatless self db1).
  - pose proof (labeling_extends_messages self prompts true db1) as Hext.
    by destruct (LabelingMessageHandler.handle_message prompts self true db1)
      as [[? ?] ?].
  - pose proof (proj2 (chatless_extends_messages self prompts true db1))
      as Hext.
    by destruct (LabelingMessageHandler.handle_message_chatless
                   prompts self true db1) as [[? ?] ?].
Qed.

(** X16.  A crawl never deletes or re-keys a stored message: across
    [handle_chat], and across a whole run of [start_or_resume_crawl],
    the rows of the message table keep their fingerprints and their
    places, new rows come behind them, and fingerprints that were
    distinct stay distinct; this holds also when the call raises. *)
Theorem crawl_extends_the_message_table :
  (∀ (self : Crawler) (chat_id : Z) (feed : Feed) (w : World),
      extends_messages
        (db w) (db (await_handle_chat self chat_id feed w).1.2))
  ∧ (∀ (fuel : nat) (self : Crawler) (feed_of : Z → Feed) (now : string)
       (w w' : World) (r : result unit) (events : list Event),
      start_or_resume_crawl fuel self feed_of now w
      = Some ((r, w'), events) →
      extends_messages (db w) (db w')).
Proof.
  set (R := λ w w' : World, extends_messages (db w) (db w')).
  assert (Hrefl : ∀ w, R w w) by (intros w; by apply extends_messages_hashes).
  assert (Htrans : ∀ a b c, R a b → R b c → R a c).
  { intros a b c. apply extends_messages_trans. }
  assert (Hstate : ∀ w crawl_state',
            index crawl_state' = index (crawl_state w) →
            R w (with_crawl_state crawl_state' w)).
  { intros w cs _. by apply extends_messages_hashes. }
  assert (Hhandle : ∀ w message_handler m,
            R w {| crawl_state := crawl_state w; crawls := crawls w;
                   db := (handle_message message_handler m
                                         (prompts w) (db w)).2;
                   prompts := (handle_message message_handler m
                                              (prompts w) (db w)).1.2 |}).
  { intros w message_handler m. apply handle_message_extends_messages. }
  assert (Hcheckpoint : ∀ self w w', checkpoint self w = Ok w' → R w w').
  { intros self w w' (_ & Hdb & _)%checkpoint_keeps_crawl_state.
    unfold R. rewrite Hdb. by apply extends_messages_hashes. }
  split.
  - intros self chat_id feed w.
    by apply (await_handle_chat_lift R).
  - intros fuel self feed_of now w w' r events.
    by apply (start_or_resume_crawl_lift R).
Qed.

Lemma writes_own_slot_lifts :
  (∀ w, writes_own_slot w w)
  ∧ (∀ a b c, writes_own_slot a b → writes_own_slot b c →
              writes_own_slot a c)
  ∧ (∀ w crawl_state',
       index crawl_state' = index (crawl_state w) →
       writes_own_slot w (with_crawl_state crawl_state' w))
  ∧ (∀ w message_handler m,
       writes_own_slot
         w {| crawl_state := crawl_state w; crawls := crawls w;
              db := (handle_message message_handler m
                                    (prompts w) (db w)).2;
              prompts := (handle_message message_handler m
                                         (prompts w) (db w)).1.2 |})
  ∧ (∀ self w w', checkpoint self w = Ok w' → writes_own_slot w w').
Proof.
  unfold writes_own_slot.
  split; [done|]. split; [|split; [done|split; [done|]]].
  - intros a b c [Hab Hkab] [Hbc Hkbc]. split; [congruence|].
    intros k Hk. rewrite Hkbc by congruence. by apply Hkab.
  - intros self w w' Hwrite. split.
    { by apply checkpoint_keeps_crawl_state in Hwrite as (-> & _). }
    intros k Hk. unfold checkpoint in Hwrite.
    destruct (store_crawl_state self (crawl_state w) (crawls w))
      as [crawls'|e] eqn:Hstore; simpl in Hwrite; [|done].
    injection Hwrite as <-. simpl.
    destruct self; simpl in Hstore; try done;
      by apply (store_crawl_state_written _ _ _ Hstore).
Qed.

(** What a run that returns leaves behind: the same crawl, its final
    state in its slot of the collection, the other slots as they
    were. *)
Lemma start_or_resume_crawl_leaves (fuel : nat) (self : Crawler)
    (feed_of : Z → Feed) (now : string) (w w' : World)
    (events : list Event) :
  start_or_resume_crawl fuel self feed_of now w
  = Some ((Ok tt, w'), events) →
  identity (crawl_state w') = identity (crawl_state w)
  ∧ crawls w' !! index (crawl_state w') = Some (as_stored (crawl_state w'))
  ∧ ∀ k, k ≠ index (crawl_state w) → crawls w' !! k = crawls w !! k.
Proof.
  intros Hrun.
  destruct writes_own_slot_lifts as (Hr & Ht & Hs & Hh & Hc).
  pose proof (start_or_resume_crawl_lift writes_own_slot Hr Ht Hs Hh Hc
                fuel self feed_of now w w' (Ok tt) events Hrun)
    as [_ Hothers].
  split; [|split; [|done]]; revert Hrun; unfold start_or_resume_crawl;
    pose proof (crawl_passes_rearrange self feed_of fuel [] w)
      as (_ & Hid & _);
    destruct (crawl_passes fuel self feed_of [] w) as [[pass w1] events1];
    simpl in Hid;
    destruct pass as [b| |sc|e]; try done;
    destruct (checkpoint self _) as [w2|e] eqn:Hwrite; try done;
    apply checkpoint_slot in Hwrite as [Hcs Hslot];
    intros [= <- _]; rewrite Hcs; simpl;
    try (rewrite <- Hid; by destruct (_ || _));
    exact Hslot.
Qed.

End AcrossARun.

Section ResumeAfterARun.
Context `{Collaborators}.
Import Telethon State Models Handlers Crawler Wording Views.

Lemma plain_keywords_test (keywords : list string)
    (crawl_state : CrawlState) :
  forallb plain keywords = true →
  mapM BaselineCrawler.interpolated [("keywords", PList keywords)]
  = Some [("keywords", Text.str_list keywords)]
  ∧ BaselineCrawler.properties_match
      (set_properties
         (foldl (fun m property => <[property.1 := property.2]> m) ∅
                [("keywords", PList keywords)])
         crawl_state)
      [("keywords", Text.str_list keywords)] = Ok true.
Proof.
  intros Hplain. split.
  - cbn [mapM]. unfold BaselineCrawler.interpolated.
    cbn [fst snd str_property].
    rewrite (literal_value_str_list keywords Hplain). done.
  - simpl. rewrite lookup_insert_eq. simpl. by rewrite String.eqb_refl.
Qed.

(** X17.  What a run leaves is what the next call resumes.  For the
    baseline crawler, and for a keyword crawler whose keywords are made
    of printable characters other than the backslash and the quotes:
    when
    [retrieve_or_initialize_crawl_state] has found or created a crawl and
    [start_or_resume_crawl] has run it and returned, the same call of
    [retrieve_or_initialize_crawl_state] on the collection the run left
    returns the crawl state the run ended with, also when the run has
    marked the crawl as finished. *)
Theorem crawl_resumes_what_the_run_left (fuel : nat) (self : Crawler)
    (feed_of : Z → Feed) (stored : list CrawlState) (now now' : string)
    (seed_chat_ids : list Z) (min_date max_date : option datetime)
    (label_messages : bool) (found : CrawlState) (db : Store)
    (prompts : list Answers) (w' : World) (events : list Event) :
  plain_keywords self = true →
  retrieve_or_initialize_crawl_state
    self stored now seed_chat_ids min_date max_date label_messages
  = Some (Ok found) →
  start_or_resume_crawl
    fuel self feed_of now'
    {| crawl_state := found; crawls := stored; db := db;
       prompts := prompts |}
  = Some ((Ok tt, w'), events) →
  ∀ again,
    retrieve_or_initialize_crawl_state
      self (crawls w') again seed_chat_ids min_date max_date label_messages
    = Some (Ok (crawl_state w')).
Proof.
  intros Hplain Hfound Hrun again.
  apply start_or_resume_crawl_leaves in Hrun as (Hid & Hslot & Hothers).
  simpl in Hid, Hothers.
  assert (Hbefore : ∀ k, (k < index (crawl_state w'))%nat →
                         crawls w' !! k = stored !! k).
  { intros k Hk. apply Hothers.
    replace (index found) with (index (crawl_state w'))
      by by injection Hid. lia. }
  destruct self as [|keywords|base_model model_directory];
    simpl in Hplain, Hfound |- *; [| |done].
  - by apply (resumed_from_slots stored (crawls w') now seed_chat_ids
                min_date max_date label_messages [] [] found).
  - unfold KeywordSearchCrawler.retrieve_or_initialize_crawl_state in *.
    destruct (plain_keywords_test keywords found Hplain) as [Htests Hown].
    by apply (resumed_from_slots stored (crawls w') now seed_chat_ids
                min_date max_date label_messages
                [("keywords", PList keywords)]
                [("keywords", Text.str_list keywords)] found).
Qed.

End ResumeAfterARun.

Lemma fresh_july_run :
  @Crawler.start_or_resume_crawl Examples.relevant_collaborators 2
    Crawler.Baseline Examples.july_feed "2021-08-03 08:00:00+00:00"
    Examples.fresh_july_world
  = Some ((Ok tt, Examples.fresh_july_world_finished),
          Examples.fresh_july_events).
Proof. vm_compute. reflexivity. Qed.

Lemma crawl_resumes_what_the_run_left_witness :
  Crawler.retrieve_or_initialize_crawl_state
    Crawler.Baseline
    [State.as_stored Examples.fresh_july_finished]
    "2021-08-04 08:00:00+00:00" [100]
    (Some Examples.july_first) (Some Examples.july_last) false
  = Some (Ok Examples.fresh_july_finished).
Proof.
  exact (@crawl_resumes_what_the_run_left
           Examples.relevant_collaborators 2 Crawler.Baseline
           Examples.july_feed [] "2021-08-01 08:00:00+00:00"
           "2021-08-03 08:00:00+00:00" [100]
           (Some Examples.july_first) (Some Examples.july_last) false
           Examples.fresh_july_crawl Examples.empty_store []
           Examples.fresh_july_world_finished Examples.fresh_july_events
           eq_refl eq_refl fresh_july_run "2021-08-04 08:00:00+00:00").
Defined.
(** ** The classifier's memory *)

Section ClassifiedOnce.
Context `{Collaborators}.
Import Telethon State Crawler Views.

(** X18.  A message the binary classifier crawler has skipped is
    skipped again without the classifier: when
    [message_should_be_skipped] has answered [True] for a message, be it
    for its date, its missing text, its id in
    [current_chat_classified_messages_ids] or the label "irrelevant", the
    same call on the crawl state it left answers [True] and leaves the
    state alone, whatever the classifier would say now. *)
Theorem classified_message_is_not_classified_again (base_model : string)
    (crawl_state crawl_state' : CrawlState) (m : Message)
    (max_date : Bound) :
  BinaryClassifierCrawler.message_should_be_skipped
    base_model crawl_state m max_date = Ok (true, crawl_state') →
  ∀ other : Collaborators,
    @BinaryClassifierCrawler.message_should_be_skipped
      other base_model crawl_state' m max_date = Ok (true, crawl_state').
Proof.
  unfold BinaryClassifierCrawler.message_should_be_skipped.
  destruct (BaselineCrawler.message_should_be_skipped m max_date)
    as [[]|e]; simpl; [by intros [= <-] | |done].
  destruct (message m) as [text|]; [|by intros [= <-]].
  destruct (current_chat_classified_messages_ids crawl_state)
    as [ids|] eqn:Hids; [|done].
  destruct (decide (id m ∈ ids)) as [Hin|Hnew].
  - rewrite (bool_decide_eq_true_2 _ Hin). intros [= <-] other.
    by rewrite Hids, (bool_decide_eq_true_2 _ Hin).
  - rewrite (bool_decide_eq_false_2 _ Hnew).
    destruct (classify_message_binary base_model text) as [label|e];
      simpl; [|done].
    destruct (String.eqb label "irrelevant"); [|done].
    intros [= <-] other. simpl.
    rewrite bool_decide_eq_true_2; [done|].
    apply elem_of_app. right. by left.
Qed.

End ClassifiedOnce.

Lemma classified_message_is_not_classified_again_witness :
  @Crawler.BinaryClassifierCrawler.message_should_be_skipped
    Examples.failing_collaborators "bert"
    (State.set_current_chat_classified_messages_ids
       (Some [1]) Examples.july_crawl)
    (Examples.with_text 1 "hello") (State.BoundDate Examples.july_last)
  = Ok (true,
        State.set_current_chat_classified_messages_ids
          (Some [1]) Examples.july_crawl).
Proof.
  exact (@classified_message_is_not_classified_again
           Examples.irrelevant_collaborators "bert" Examples.july_crawl
           (State.set_current_chat_classified_messages_ids
              (Some [1]) Examples.july_crawl)
           (Examples.with_text 1 "hello")
           (State.BoundDate Examples.july_last) eq_refl
           Examples.failing_collaborators).
Defined.
(** ** The window of dates *)

Section Window.
Context `{Collaborators}.
Import Telethon State Models Handlers Crawler Wording Views.

Lemma crawl_should_be_stopped_baseline (self : Crawler)
    (crawl_state : CrawlState) (m : Message) (min_date max_date : Bound) :
  crawl_should_be_stopped self crawl_state m min_date max_date = Ok false →
  BaselineCrawler.crawl_should_be_stopped m min_date = Ok false.
Proof.
  destruct self; simpl; try done.
  unfold BinaryClassifierCrawler.crawl_should_be_stopped.
  by destruct (BaselineCrawler.crawl_should_be_stopped m min_date)
    as [[]|e].
Qed.

Lemma message_should_be_skipped_baseline (self : Crawler)
    (crawl_state crawl_state' : CrawlState) (m : Message)
    (max_date : Bound) :
  message_should_be_skipped self crawl_state m max_date
  = Ok (false, crawl_state') →
  BaselineCrawler.message_should_be_skipped m max_date = Ok false.
Proof.
  destruct self; simpl.
  - by destruct (BaselineCrawler.message_should_be_skipped m max_date)
      as [[]|e].
  - unfold KeywordSearchCrawler.message_should_be_skipped.
    by destruct (BaselineCrawler.message_should_be_skipped m max_date)
      as [[]|e].
  - unfold BinaryClassifierCrawler.message_should_be_skipped.
    by destruct (BaselineCrawler.message_should_be_skipped m max_date)
      as [[]|e].
Qed.

Lemma baseline_filters_window (m : Message) (min_date max_date : Bound) :
  BaselineCrawler.crawl_should_be_stopped m min_date = Ok false →
  BaselineCrawler.message_should_be_skipped m max_date = Ok false →
  is_Some (message m)
  ∧ media m ≠ Some MessageMediaPoll
  ∧ in_window min_date max_date m.
Proof.
  unfold BaselineCrawler.crawl_should_be_stopped,
    BaselineCrawler.message_should_be_skipped, in_window.
  intros Hstop Hskip.
  destruct (message m) as [text|]; [|done]. split; [done|].
  destruct min_date as [|s|lo]; [|done|].
  - destruct max_date as [|s|hi]; simpl in Hskip; [|done|].
    + split; [|done]. intros Hpoll. by rewrite Hpoll in Hskip.
    + destruct (date_lt hi (date m)); [done|].
      split; [|done]. intros Hpoll. by rewrite Hpoll in Hskip.
  - injection Hstop as Hlo.
    destruct max_date as [|s|hi]; simpl in Hskip; [|done|].
    + split; [|done]. intros Hpoll. by rewrite Hpoll in Hskip.
    + destruct (date_lt hi (date m)); [done|].
      split; [|done]. intros Hpoll. by rewrite Hpoll in Hskip.
Qed.

Lemma iter_messages_window (self : Crawler) (chat_id : Z)
    (min_date max_date : Bound) (message_handler : MessageHandler)
    (feed : Feed) (m : Message) (status : string) :
  ∀ w : World,
    Handled m status
    ∈ (iter_messages self chat_id min_date max_date message_handler
                     feed w).2 →
    is_Some (message m)
    ∧ media m ≠ Some MessageMediaPoll
    ∧ in_window min_date max_date m.
Proof.
  induction feed as [|m' feed IH|e]; intros w; simpl;
    [intros Hin; inversion Hin | | intros Hin; inversion Hin].
  destruct (crawl_should_be_stopped self (crawl_state w) m' min_date
                                    max_date) as [[]|e] eqn:Hstop; simpl.
  1, 3: intros Hin; apply elem_of_cons in Hin as [Hin|Hin];
    [discriminate | inversion Hin].
  destruct (message_should_be_skipped self (crawl_state w) m' max_date)
    as [[[] cs]|e] eqn:Hskip; simpl.
  - intros Hin; apply elem_of_cons in Hin as [Hin|Hin]; [discriminate|].
    by apply IH in Hin.
  - apply crawl_should_be_stopped_baseline in Hstop.
    apply message_should_be_skipped_baseline in Hskip.
    pose proof (baseline_filters_window m' min_date max_date Hstop Hskip)
      as Hwindow.
    destruct (handle_message _ m' (prompts w) (db w))
      as [[[[status' self_message]|e] prompts'] db']; simpl.
    2: { intros Hin; apply elem_of_cons in Hin as [Hin|Hin];
           [discriminate | inversion Hin]. }
    intros Hin; apply elem_of_cons in Hin as [Hin|Hin]; [discriminate|].
    apply elem_of_cons in Hin as [Hin|Hin]; [by injection Hin as -> _|].
    destruct (check_status _ _ _ _).
    + destruct (checkpoint _ _); simpl in Hin.
      * apply list_elem_of_singleton in Hin. discriminate.
      * inversion Hin.
    + destruct (checkpoint _ _); simpl in Hin; [|inversion Hin].
      apply elem_of_cons in Hin as [Hin|Hin]; [discriminate|].
      by apply IH in Hin.
    + inversion Hin.
  - intros Hin; apply elem_of_cons in Hin as [Hin|Hin];
      [discriminate | inversion Hin].
Qed.

(** X19.  No message outside the window reaches a handler.  Whatever
    the crawler and the mode, every message [handle_chat] hands to the
    message handler has a text, is no poll, is not older than the
    minimum date and not younger than the maximum date of the crawl
    state; and with a date that is still the text of the JSON file no
    message is handled at all. *)
Theorem handled_messages_lie_in_the_window (self : Crawler) (chat_id : Z)
    (feed : Feed) (w : World) (m : Message) (status : string) :
  Handled m status ∈ (handle_chat self chat_id feed w).2 →
  is_Some (message m)
  ∧ media m ≠ Some MessageMediaPoll
  ∧ in_window (min_date (crawl_state w)) (max_date (crawl_state w)) m.
Proof.
  intros Hin.
  destruct (handle_chat_events self chat_id feed w)
    as (closing & Hevents & Hclosing).
  rewrite Hevents in Hin. apply elem_of_app in Hin as [Hin|Hin].
  - unfold loop_over_chat in Hin. by apply iter_messages_window in Hin.
  - by apply Hclosing in Hin.
Qed.

End Window.

Lemma handled_messages_lie_in_the_window_witness :
  is_Some (Telethon.message (Examples.with_text 1 "hello"))
  ∧ Telethon.media (Examples.with_text 1 "hello")
    ≠ Some Telethon.MessageMediaPoll
  ∧ Views.in_window (State.BoundDate Examples.july_first)
                    (State.BoundDate Examples.july_last)
                    (Examples.with_text 1 "hello").
Proof.
  apply (@handled_messages_lie_in_the_window
           Examples.relevant_collaborators Crawler.Baseline 100
           (Examples.july_feed 100) Examples.july_world
           (Examples.with_text 1 "hello") "message stored without labels").
  vm_compute. right. left.
Defined.
(** ** The export *)

Section ExportedMessages.
Import Models Handlers Handlers.LabelingMessageHandler Wording Views.
Import DataExport.

Variables (positive_keywords negative_keywords : list string).
Variable lower : string → string.
Variable misconception_ids : list Z.

Lemma message_misconceptions_object_none
    (labels : list MessageMisconception) (label : MessageMisconception) :
  label ∈ labels → mm_misconception label = None →
  ∀ keys, ∃ e,
    message_misconceptions_object misconception_ids labels keys = Raise e.
Proof.
  intros Hin Hnone. induction labels as [|l labels IH]; [inversion Hin|].
  intros keys. simpl. apply elem_of_cons in Hin as [<-|Hin].
  - rewrite Hnone. eauto.
  - destruct (mm_misconception l); [|eauto].
    destruct (bool_decide _); [|eauto]. by apply IH.
Qed.

Lemma export_rows_raises (max_message_length : nat)
    (filter_using_keywords : bool) (labels : list MessageMisconception)
    (rows : list TelegramMessage) (row : TelegramMessage)
    (label : MessageMisconception) :
  row ∈ rows →
  include positive_keywords negative_keywords lower
          max_message_length filter_using_keywords (content row) = true →
  label ∈ labels → mm_message_hash label = hash row →
  mm_misconception label = None →
  ∀ written, ∃ e lines,
    export_rows positive_keywords negative_keywords lower
                misconception_ids max_message_length filter_using_keywords
                labels rows written
    = (Raise e, lines).
Proof.
  intros Hrow Hinclude Hlabel Hhash Hnone.
  induction rows as [|r rows IH]; [inversion Hrow|]. intros written.
  simpl. unfold export_message.
  apply elem_of_cons in Hrow as [<-|Hrow].
  - rewrite Hinclude.
    destruct (message_misconceptions_object_none
                (List.filter
                   (fun label => String.eqb (mm_message_hash label)
                                            (hash row)) labels)
                label) with (keys := @nil Z) as [e ->]; [|done|].
    + apply list_elem_of_In, filter_In. split; [by apply list_elem_of_In|].
      by apply String.eqb_eq.
    + simpl. eauto.
  - destruct (include _ _ _ _ _ (content r)); [|by apply IH].
    destruct (message_misconceptions_object _ _ _) as [keys|e]; simpl;
      [by apply IH | eauto].
Qed.

Lemma store_message_and_labels_sentinel (self : TelegramMessage)
    (selected_topics : list Z) (st : Store) :
  ∃ added,
    {| mm_chat := chat self; mm_message_hash := hash self;
       mm_misconception := None; mm_added := added |}
    ∈ message_misconception
        (store_message_and_labels self selected_topics [] st).2.
Proof.
  unfold store_message_and_labels, save_force_insert.
  destruct (select_by_hash (hash self) (telegram_message st)); simpl;
    eexists; apply elem_of_app; right; by left.
Qed.

(** After a call that did not stop the crawl the message carries the
    label without a misconception. *)
Lemma label_and_store_message_sentinel (script script' : list Answers)
    (self : TelegramMessage) (st st' : Store) (status : string) :
  label_and_store_message script self st = (Ok status, script', st') →
  status ≠ "stop crawl" →
  ∃ added,
    {| mm_chat := chat self; mm_message_hash := hash self;
       mm_misconception := None; mm_added := added |}
    ∈ message_misconception st'.
Proof.
  destruct script as [|a script]; [done|].
  destruct (get_topic_and_misconception_labels_from_user a)
    as [[selected_topics selected_misconceptions]|e] eqn:Hselected.
  2: { unfold label_and_store_message; fold label_and_store_message.
       by rewrite Hselected. }
  assert (Hempty : selected_misconceptions = []
                   ∨ (selected_topics ≠ [] ∧ selected_misconceptions ≠ [])).
  { destruct selected_topics as [|t ts].
    - left. by apply (no_topic_no_misconception a).
    - destruct selected_misconceptions; [by left|by right]. }
  destruct Hempty as [->|[Htopics Hmisconceptions]].
  2: { by rewrite (label_and_store_message_unbound_status
                     a script self st selected_topics
                     selected_misconceptions). }
  rewrite (menu_is_shown a selected_topics) by done.
  destruct (confirm_empty_selection _ _ _ _ _)
    as [[[status1|e] script1] st1]; simpl; [|done].
  destruct (String.eqb_spec status1 "stop crawl") as [->|Hne]; simpl.
  { by intros [= <- _ _]. }
  pose proof (store_message_and_labels_sentinel self selected_topics st1)
    as Hsentinel.
  destruct (store_message_and_labels self selected_topics [] st1)
    as [[[]|e] st2]; simpl in *; [|done].
  by intros [= _ _ <-] _.
Qed.

(** X20.  The export does not get past a message the labeling handler
    has stored.  Every message stored by [label_and_store_message]
    carries the label without a misconception, and
    [create_messages_jsonl] reads [.misconception.id] of every label of
    every message it includes: with no keyword filter and a length limit
    that admits the stored rows of the message, the export raises, and
    the file holds the lines written so far. *)
Theorem export_fails_after_labeling (script script' : list Answers)
    (self : TelegramMessage) (st st' : Store) (status : string)
    (max_message_length : nat) :
  label_and_store_message script self st = (Ok status, script', st') →
  status ≠ "stop crawl" →
  (∀ row, row ∈ telegram_message st' → hash row = hash self →
          (len (content row) ≤ max_message_length)%nat) →
  ∃ e lines,
    create_messages_jsonl positive_keywords negative_keywords lower
                          misconception_ids max_message_length false st'
    = (Raise e, lines).
Proof.
  intros Hcall Hstatus Hshort.
  destruct (label_and_store_message_sentinel _ _ _ _ _ _ Hcall Hstatus)
    as [added Hlabel].
  pose proof (label_and_store_message_table self script st) as [_ Hstored].
  rewrite Hcall in Hstored. simpl in Hstored.
  destruct Hstored as [[? _]|[_ Hstored]]; [done|].
  destruct (select_by_hash (hash self) (telegram_message st'))
    as [|row others] eqn:Hsel; [done|].
  pose proof (select_by_hash_hash _ _ _ _ Hsel) as Hhash.
  assert (Hrow : row ∈ telegram_message st').
  { assert (Hin : row ∈ select_by_hash (hash self) (telegram_message st'))
      by (rewrite Hsel; by left).
    unfold select_by_hash in Hin.
    apply list_elem_of_In, filter_In in Hin as [Hin _].
    by apply list_elem_of_In. }
  unfold create_messages_jsonl.
  eapply (export_rows_raises max_message_length false _ _ row);
    [exact Hrow| |exact Hlabel|by rewrite Hhash|done].
  unfold include. apply negb_true_iff, Nat.ltb_ge. by apply Hshort.
Qed.

(** X21.  The export ignores two of its limits.  With the keyword filter
    switched on, [max_message_length] has no effect, in
    [create_messages_jsonl] and in [create_messages_jsonl_by_id_list]: a
    message with a positive and no negative keyword is exported however
    long it is.  And [max_train_messages] has no effect at all: the loop
    that reads it does nothing else. *)
Theorem export_ignores_its_limits :
  (∀ (length_a length_b : nat) (st : Store),
      create_messages_jsonl positive_keywords negative_keywords lower
                            misconception_ids length_a true st
      = create_messages_jsonl positive_keywords negative_keywords lower
                              misconception_ids length_b true st)
  ∧ (∀ (ids : list string) (length_a length_b train_a train_b : nat)
       (st : Store),
      create_messages_jsonl_by_id_list
        positive_keywords negative_keywords lower misconception_ids
        ids length_a train_a true st
      = create_messages_jsonl_by_id_list
          positive_keywords negative_keywords lower misconception_ids
          ids length_b train_b true st)
  ∧ (∀ (ids : list string) (max_message_length train_a train_b : nat)
       (filter_using_keywords : bool) (st : Store),
      create_messages_jsonl_by_id_list
        positive_keywords negative_keywords lower misconception_ids
        ids max_message_length train_a filter_using_keywords st
      = create_messages_jsonl_by_id_list
          positive_keywords negative_keywords lower misconception_ids
          ids max_message_length train_b filter_using_keywords st).
Proof.
  assert (Hmessage : ∀ length_a length_b labels message,
            export_message positive_keywords negative_keywords lower
                           misconception_ids length_a true labels message
            = export_message positive_keywords negative_keywords lower
                             misconception_ids length_b true labels
                             message) by done.
  split; [|split].
  - intros length_a length_b st. unfold create_messages_jsonl.
    generalize (@nil Line).
    induction (telegram_message st) as [|message rows IH]; [done|].
    intros written. simpl.
    rewrite (Hmessage length_a length_b).
    destruct (export_message _ _ _ _ length_b true _ message)
      as [[line|]|e]; [apply IH | apply IH | done].
  - intros ids length_a length_b train_a train_b st.
    unfold create_messages_jsonl_by_id_list.
    generalize (@nil Line). generalize O.
    induction ids as [|id ids IH]; [done|].
    intros train_messages written. simpl.
    destruct (select_by_hash id (telegram_message st)) as [|message ?];
      [done|].
    rewrite (Hmessage length_a length_b).
    destruct (export_message _ _ _ _ length_b true _ message)
      as [[line|]|e]; [apply IH | apply IH | done].
  - done.
Qed.

End ExportedMessages.

Lemma export_fails_after_labeling_witness :
  ∃ e lines,
    DataExport.create_messages_jsonl
      [] [] (λ s, s) [10; 20] 10 false
      (Handlers.LabelingMessageHandler.label_and_store_message
         [Examples.nothing_confirmed] Examples.stored_message
         Examples.empty_store).2
    = (Raise e, lines).
Proof.
  apply (export_fails_after_labeling
           [] [] (λ s, s) [10; 20] [Examples.nothing_confirmed] []
           Examples.stored_message Examples.empty_store _
           "message stored without labels" 10 eq_refl).
  - discriminate.
  - intros row Hrow _.
    change (row ∈ [Examples.stored_message]) in Hrow.
    apply list_elem_of_singleton in Hrow as ->. vm_compute. lia.
Defined.
(** ** Seed chats and re-labeling *)

Section SeedChats.
Context `{Collaborators}.
Import Telethon State Models Handlers Crawler Wording Views.

Lemma new_crawl_chats (crawls : list CrawlState) (now : string)
    (seed_chat_ids : list Z) (min_date max_date : option datetime)
    (label_message : bool) (props : list (string * Property))
    (crawl_state : CrawlState) :
  BaselineCrawler.retrieve_or_initialize_crawl_state
    crawls now seed_chat_ids min_date max_date label_message props
  = Some (Ok crawl_state) →
  index crawl_state = length crawls →
  all_chats crawl_state = seed_chat_ids.
Proof.
  unfold BaselineCrawler.retrieve_or_initialize_crawl_state.
  destruct crawls as [|c0 crawls0].
  { intros [= <-] _. unfold all_chats. simpl. by rewrite app_nil_r. }
  cbv beta iota. remember (c0 :: crawls0) as crawls eqn:Hall. clear Hall.
  destruct (mapM _ _) as [tests|]; simpl; [|done].
  destruct (BaselineCrawler.crawl_to_be_resumed_index _ _ _)
    as [[j|]|] eqn:Hfound; simpl; [| |done].
  - apply crawl_to_be_resumed_index_bound in Hfound.
    destruct (crawls !! j); [|done]. intros [= <-]. simpl. lia.
  - intros [= <-] _. unfold all_chats. simpl. by rewrite app_nil_r.
Qed.

(** X22.  A crawl never leaves its seed chats.  For a crawl that
    [retrieve_or_initialize_crawl_state] has created, whatever the
    messages, the labels and the crawler: when the run returns or raises,
    the queue, the chats searched and the chats not searchable together
    hold the seed chats and nothing else; no chat a message was forwarded
    from is ever added. *)
Theorem crawl_never_leaves_its_seed_chats (fuel : nat) (self : Crawler)
    (feed_of : Z → Feed) (stored : list CrawlState) (now now' : string)
    (seed_chat_ids : list Z) (min_date max_date : option datetime)
    (label_messages : bool) (created : CrawlState) (db : Store)
    (prompts : list Answers) (w' : World) (r : result unit)
    (events : list Event) :
  retrieve_or_initialize_crawl_state
    self stored now seed_chat_ids min_date max_date label_messages
  = Some (Ok created) →
  index created = length stored →
  start_or_resume_crawl
    fuel self feed_of now'
    {| crawl_state := created; crawls := stored; db := db;
       prompts := prompts |}
  = Some ((r, w'), events) →
  all_chats (crawl_state w') ≡ₚ seed_chat_ids.
Proof.
  intros Hcreated Hnew Hrun.
  assert (Hseeds : all_chats created = seed_chat_ids).
  { destruct self; simpl in Hcreated; [| |done].
    - by eapply new_crawl_chats.
    - by eapply new_crawl_chats. }
  rewrite <- Hseeds. revert Hrun. unfold start_or_resume_crawl.
  pose proof (crawl_passes_rearrange
                self feed_of fuel []
                {| crawl_state := created; crawls := stored; db := db;
                   prompts := prompts |}) as (Hperm & _ & _).
  destruct (crawl_passes fuel self feed_of [] _) as [[pass w1] events1].
  simpl in Hperm. rewrite <- Hperm.
  destruct pass as [b| |sc|e]; try done.
  - destruct (checkpoint self _) as [w2|e] eqn:Hwrite.
    + apply checkpoint_slot in Hwrite as [Hcs _]. intros [= _ <- _].
      rewrite Hcs. simpl. by destruct (_ || _).
    + intros [= _ <- _]. simpl. by destruct (_ || _).
  - destruct (checkpoint self _) as [w2|e] eqn:Hwrite.
    + apply checkpoint_slot in Hwrite as [Hcs _]. intros [= _ <- _].
      rewrite Hcs. simpl. by destruct (_ || _).
    + intros [= _ <- _]. simpl. by destruct (_ || _).
  - by intros [= _ <- _].
Qed.

End SeedChats.

Lemma crawl_never_leaves_its_seed_chats_witness :
  Views.all_chats Examples.fresh_july_finished ≡ₚ [100].
Proof.
  exact (@crawl_never_leaves_its_seed_chats
           Examples.relevant_collaborators 2 Crawler.Baseline
           Examples.july_feed [] "2021-08-01 08:00:00+00:00"
           "2021-08-03 08:00:00+00:00" [100]
           (Some Examples.july_first) (Some Examples.july_last) false
           Examples.fresh_july_crawl Examples.empty_store []
           Examples.fresh_july_world_finished (Ok tt)
           Examples.fresh_july_events eq_refl eq_refl fresh_july_run).
Defined.

Section Relabeling.
Import Models Handlers Relabel.

(** X23.  [relabel_message] cannot re-label.  It creates the handler
    with the message as argument, and the handler classes define no
    [__init__]: for a hash that no row has the lookup raises, and for
    every stored message the call of the class raises [TypeError]; the
    user is not asked and the store is not touched. *)
Theorem relabel_message_always_raises (message_hash : string)
    (script : list Answers) (st : Store) :
  ∃ e, relabel_message message_hash script st = (Raise e, script, st)
       ∧ (Views.stored message_hash st → e = TypeError).
Proof.
  unfold relabel_message, get_by_id, Views.stored.
  destruct (select_by_hash message_hash (telegram_message st)); simpl.
  - eexists. split; [done|]. by intros Hstored.
  - by eexists.
Qed.

End Relabeling.
(** ** The table of the chats *)

Section ChatTable.
Import Chats.

(** X24.  [TelegramChat.get_or_create_by_id] asks Telegram once.  When
    it has returned a chat, the chat is the row of the requested id in
    the table, the other rows are as before, and every later call for
    this id returns the same chat and leaves the table alone, whatever
    Telegram would answer then. *)
Theorem get_or_create_by_id_asks_once
    (get_chat_info : Z → result (list ChatInfo)) (now : string)
    (chat_id : Z) (table table' : gmap Z TelegramChat)
    (chat : TelegramChat) :
  get_or_create_by_id get_chat_info now chat_id table
  = (Ok (Some chat), table') →
  table' !! chat_id = Some chat
  ∧ (∀ other, other ≠ chat_id → table' !! other = table !! other)
  ∧ ∀ get_chat_info' now',
      get_or_create_by_id get_chat_info' now' chat_id table'
      = (Ok (Some chat), table').
Proof.
  unfold get_or_create_by_id.
  destruct (table !! chat_id) as [stored|] eqn:Hstored.
  - intros [= <- <-]. split; [done|]. split; [done|].
    intros ? ?. by rewrite Hstored.
  - destruct (get_chat_metadata (get_chat_info chat_id))
      as [chat_metadata|e].
    + destruct (meta_username chat_metadata) as [username|]; [|done].
      intros [= <- <-]. split; [by rewrite lookup_insert_eq|].
      split.
      * intros other Hother. by rewrite lookup_insert_ne.
      * intros ? ?. by rewrite lookup_insert_eq.
    + by destruct (caught e).
Qed.

(** X25.  How [get_or_create_by_id] fails.  It never raises
    [ChannelPrivateError]: a private channel and an id Telethon cannot
    resolve give [None].  Whenever it does not return a chat the table is
    as before.  And for a chat that is not stored and that has no public
    username it raises [IntegrityError]: the column is not nullable. *)
Theorem get_or_create_by_id_failures
    (get_chat_info : Z → result (list ChatInfo)) (now : string)
    (chat_id : Z) (table : gmap Z TelegramChat) :
  let out := get_or_create_by_id get_chat_info now chat_id table in
  out.1 ≠ Raise ChannelPrivateError
  ∧ ((∀ chat, out.1 ≠ Ok (Some chat)) → out.2 = table)
  ∧ (∀ first others,
       table !! chat_id = None →
       get_chat_info chat_id = Ok (first :: others) →
       info_username first = None →
       out.1 = Raise IntegrityError).
Proof.
  unfold get_or_create_by_id.
  destruct (table !! chat_id) as [stored|] eqn:Hstored; simpl.
  { split; [done|]. split; [done|]. by intros first others ?. }
  destruct (get_chat_metadata (get_chat_info chat_id))
    as [chat_metadata|e] eqn:Hmeta.
  - destruct (meta_username chat_metadata) as [username|] eqn:Hname; simpl.
    + split; [done|]. split.
      * intros Hnone. by destruct (Hnone _ eq_refl).
      * intros first others _ Hinfo Hnouser.
        unfold get_chat_metadata in Hmeta. rewrite Hinfo in Hmeta.
        simpl in Hmeta. injection Hmeta as <-. simpl in Hname. congruence.
    + done.
  - destruct (caught e) eqn:Hcaught; simpl.
    + split; [done|]. split; [done|].
      intros first others _ Hinfo _.
      unfold get_chat_metadata in Hmeta. by rewrite Hinfo in Hmeta.
    + split; [by intros [= ->]|]. split; [done|].
      intros first others _ Hinfo _.
      unfold get_chat_metadata in Hmeta. by rewrite Hinfo in Hmeta.
Qed.

End ChatTable.

Lemma get_or_create_by_id_asks_once_witness :
  Chats.get_or_create_by_id
    (λ _, Raise ChannelPrivateError) "2021-08-03 08:00:00+00:00" 100
    {[ 100 := {| Chats.id := 100; Chats.name := "News";
                 Chats.username := "news"; Chats.type := "broadcast";
                 Chats.can_comment := false;
                 Chats.added := "2021-08-01 08:00:00+00:00" |} ]}
  = (Ok (Some {| Chats.id := 100; Chats.name := "News";
                 Chats.username := "news"; Chats.type := "broadcast";
                 Chats.can_comment := false;
                 Chats.added := "2021-08-01 08:00:00+00:00" |}),
     {[ 100 := {| Chats.id := 100; Chats.name := "News";
                  Chats.username := "news"; Chats.type := "broadcast";
                  Chats.can_comment := false;
                  Chats.added := "2021-08-01 08:00:00+00:00" |} ]}).
Proof.
  apply (get_or_create_by_id_asks_once
           (λ _, Ok [{| Chats.info_id := 100; Chats.info_title := "News";
                        Chats.info_username := Some "news";
                        Chats.info_megagroup := false;
                        Chats.info_gigagroup := false |}])
           "2021-08-01 08:00:00+00:00" 100 ∅).
  reflexivity.
Defined.
(** ** Loading the labels *)

Section LoadingLabels.
Import Configuration.

Lemma given_or_input_tables (value : option string) (d : Desk) :
  topics (given_or_input value d).2 = topics d
  ∧ misconceptions (given_or_input value d).2 = misconceptions d.
Proof.
  destruct value; [done|]. unfold given_or_input, input.
  by destruct (typed d).
Qed.

(** With a topic passed, [add_misconception] reads [topic_id] while it
    is unbound. *)
Lemma add_misconception_with_topic (name short_name description : option string)
    (topic : Topic) (d : Desk) :
  let out := add_misconception name short_name description (Some topic) d in
  (∃ e, out.1 = Raise e)
  ∧ topics out.2 = topics d
  ∧ misconceptions out.2 = misconceptions d.
Proof.
  unfold add_misconception, store_misconception.
  pose proof (given_or_input_tables name d) as [Ht1 Hm1].
  destruct (given_or_input name d) as [[n|e] d1]; simpl in *; [|eauto].
  pose proof (given_or_input_tables short_name d1) as [Ht2 Hm2].
  destruct (given_or_input short_name d1) as [[s|e] d2]; simpl in *.
  2: { split; [eauto|]. split; congruence. }
  pose proof (given_or_input_tables description d2) as [Ht3 Hm3].
  destruct (given_or_input description d2) as [[t|e] d3]; simpl in *;
    (split; [eauto|]; split; congruence).
Qed.

Lemma add_topic_misconceptions (name short_name : option string)
    (d : Desk) :
  misconceptions (add_topic name short_name d).2 = misconceptions d.
Proof.
  unfold add_topic.
  pose proof (given_or_input_tables name d) as [_ Hm1].
  destruct (given_or_input name d) as [[n|e] d1]; simpl in *; [|done].
  pose proof (given_or_input_tables short_name d1) as [_ Hm2].
  destruct (given_or_input short_name d1) as [[s|e] d2]; simpl in *;
    [|congruence].
  destruct (existsb _ _); simpl; congruence.
Qed.

Lemma add_misconceptions_none (names : list string) (topic : Topic)
    (d : Desk) :
  let out := add_misconceptions names topic d in
  misconceptions out.2 = misconceptions d
  ∧ (out.1 = Ok tt → names = []).
Proof.
  destruct names as [|name names]; [done|]. cbn [add_misconceptions].
  pose proof (add_misconception_with_topic (Some name) None None topic d)
    as ([e He] & _ & Hm).
  destruct (add_misconception (Some name) None None (Some topic) d)
    as [[?|e'] d1]; cbn [fst snd] in *; [done|]. done.
Qed.

(** X26.  [add_labels_from_json] loads no misconception.  It passes
    the topic to [add_misconception], which assigns [topic_id] only when
    no topic is passed and then reads it: every such call raises, with
    [UnboundLocalError] once the user has typed the short name and the
    description, and stores nothing.  So the table of the misconceptions
    is after [add_labels_from_json] what it was before, and the call
    returns only for a file in which no topic has a misconception. *)
Theorem add_labels_from_json_adds_no_misconception :
  (∀ (name : string) (topic : Topic) (d : Desk) (short_name description : string)
     (lines : list string),
      typed d = short_name :: description :: lines →
      add_misconception (Some name) None None (Some topic) d
      = (Raise UnboundLocalError, set_typed lines d))
  ∧ (∀ (labels : list (string * list string)) (d : Desk),
      misconceptions (add_labels_from_json labels d).2 = misconceptions d
      ∧ ((add_labels_from_json labels d).1 = Ok tt →
         Forall (λ entry, entry.2 = []) labels)).
Proof.
  split.
  - intros name topic d short_name description lines Htyped.
    unfold add_misconception, store_misconception. simpl.
    unfold input. rewrite Htyped. simpl. done.
  - induction labels as [|[key names] labels IH]; intros d;
      [by split|].
    cbn [add_labels_from_json].
    pose proof (add_topic_misconceptions (Some key) None d) as Hm1.
    destruct (add_topic (Some key) None d) as [[topic0|e] d1]; simpl in *;
      [|done].
    destruct (List.filter _ (topics d1)) as [|topic others]; [done|].
    pose proof (add_misconceptions_none names topic d1) as [Hm2 Hnames].
    destruct (add_misconceptions names topic d1) as [[[]|e] d2];
      simpl in *; [|split; [congruence|done]].
    destruct (IH d2) as [Hm3 Hrest]. split; [congruence|].
    intros Hok. constructor; [by apply Hnames | by apply Hrest].
Qed.

End LoadingLabels.
